(** * BloodPressureMonitor: the estimation engine of [src/main.cpp]

    A shallow embedding of the oscillometric blood-pressure firmware
    (Maximum Amplitude Algorithm) and the proofs of its specification.

    Numbers.  A C++ [double] is modelled by the type [double] below: an exact
    rational or NaN.  NaN is kept because the program really produces one
    (the mean of an all-zero smoothing window is [0.0/0.0]) and every
    comparison with it is false.  Rounding and the infinities are not
    modelled: arithmetic on finite values is exact.  The C++ [long] and [int]
    values are integers of [Z]; an overflowing increment and a write past the
    end of an array are undefined behaviour, modelled by [None].

    Control.  The globals form a record [state]; [measure_pressure] and the
    ticker's interrupt routine are state transformers, and the interrupt is
    taken between two calls of [measure_pressure].  The sensor transaction,
    the timers and the button are inputs of a call. *)

From Stdlib Require Import ZArith QArith Qabs List Bool Lia Lqa.
Import ListNotations.

Local Open Scope Q_scope.

(** ** Doubles *)

Inductive double : Type :=
| Finite (q : Q)
| NaN.

Definition dadd (a b : double) : double :=
  match a, b with
  | Finite x, Finite y => Finite (x + y)
  | _, _ => NaN
  end.

Definition dsub (a b : double) : double :=
  match a, b with
  | Finite x, Finite y => Finite (x - y)
  | _, _ => NaN
  end.

Definition dmul (a b : double) : double :=
  match a, b with
  | Finite x, Finite y => Finite (x * y)
  | _, _ => NaN
  end.

(** [0.0/0.0] is NaN.  A non-zero value over zero would be an infinity; the
    program never divides one (see [normalize_loop_count_zero] and
    [measure_pulse]'s guard), so that case is NaN here too. *)
Definition ddiv (a b : double) : double :=
  match a, b with
  | Finite x, Finite y => if Qeq_bool y 0 then NaN else Finite (x / y)
  | _, _ => NaN
  end.

(** [abs] on a double argument: the [std::abs(double)] overload. *)
Definition dabs (a : double) : double :=
  match a with
  | Finite x => Finite (Qabs x)
  | NaN => NaN
  end.

Definition Qlt_bool (x y : Q) : bool := negb (Qle_bool y x).

(** [a < b]; false when either side is NaN. *)
Definition dltb (a b : double) : bool :=
  match a, b with
  | Finite x, Finite y => Qlt_bool x y
  | _, _ => false
  end.

(** [a > b]. *)
Definition dgtb (a b : double) : bool := dltb b a.

(** [a <= b]; false when either side is NaN. *)
Definition dleb (a b : double) : bool :=
  match a, b with
  | Finite x, Finite y => Qle_bool x y
  | _, _ => false
  end.

(** [a != b]; true when either side is NaN. *)
Definition dneb (a b : double) : bool :=
  match a, b with
  | Finite x, Finite y => negb (Qeq_bool x y)
  | _, _ => true
  end.

(** Numeric equality of doubles (rationals up to [==]). *)
Definition deq (a b : double) : Prop :=
  match a, b with
  | Finite x, Finite y => x == y
  | _, _ => False
  end.

Definition of_int (z : Z) : double := Finite (inject_Z z).

(** ** Constants of the program *)

Definition OUTPUT_MAX : Q := 3774873.
Definition OUTPUT_MIN : Q := 419430.
Definition PRESSURE_MAX : Q := 300.
Definition PRESSURE_MIN : Q := 0.
Definition MIN_OMWE_THRESH : Q := 70.
Definition MAX_OMWE_THRESH : Q := 160.
Definition MAP_ERROR_THRESH : Q := 1 # 2.
Definition SYSTOLIC_LOWER_CHAR_RATIO : Q := 45 # 100.
Definition SYSTOLIC_UPPER_CHAR_RATIO : Q := 73 # 100.
Definition DIASTOLIC_LOWER_CHAR_RATIO : Q := 69 # 100.
Definition DIASTOLIC_UPPER_CHAR_RATIO : Q := 83 # 100.
Definition LOWER_PULSE_RANGE : Q := 35.
Definition UPPER_PULSE_RANGE : Q := 150.

(** Capacity of the three OMWE arrays, and [LONG_MAX] of the 32-bit target. *)
Definition OMWE_CAPACITY : nat := 1000.
Definition LONG_MAX : Z := 2147483647.

(** ** The smoothing window *)

(** Read of a global array; globals are zero-initialised. *)
Definition aget (a : list double) (i : nat) : double := nth i a (Finite 0).

Fixpoint aset (a : list double) (i : nat) (v : double) : list double :=
  match a, i with
  | [], _ => []
  | _ :: r, O => v :: r
  | x :: r, S j => x :: aset r j v
  end.

(** One turn of the loop of [calculate_normalized_pressure]; the accumulator
    is [(total_value, total_count)]. *)
Definition normalize_body (buffer_queue : list double)
    (acc : double * double) (i : nat) : double * double :=
  let '(total_value, total_count) := acc in
  if dneb (aget buffer_queue i) (Finite 0)
  then (dadd total_value (aget buffer_queue i), dadd total_count (Finite 1))
  else acc.

Definition normalize_loop (buffer_queue : list double) : double * double :=
  fold_left (normalize_body buffer_queue) (seq 0 5) (Finite 0, Finite 0).

Definition calculate_normalized_pressure (buffer_queue : list double) : double :=
  let '(total_value, total_count) := normalize_loop buffer_queue in
  ddiv total_value total_count.

(** The spec's words for the normalizer: the non-zero slots, their sum and
    their arithmetic mean. *)
Definition nonzero_slots (w : list Q) : list Q :=
  filter (fun x => negb (Qeq_bool x 0)) w.

Definition Qsum (l : list Q) : Q := fold_right Qplus 0 l.

Definition Qcount (l : list Q) : Q := inject_Z (Z.of_nat (length l)).

Definition arithmetic_mean (l : list Q) : Q := Qsum l / Qcount l.

(** The same loop, slot by slot. *)
Definition slot_body (acc : double * double) (v : double) : double * double :=
  let '(total_value, total_count) := acc in
  if dneb v (Finite 0)
  then (dadd total_value v, dadd total_count (Finite 1))
  else acc.


(** ** Global state *)

(** Indexing with a C++ [long]. *)
Definition aread (a : list double) (i : Z) : double := aget a (Z.to_nat i).

(** A write through an index; outside the array it is undefined behaviour. *)
Definition awrite (a : list double) (i : Z) (v : double) : option (list double) :=
  if ((0 <=? i)%Z && (i <? Z.of_nat (length a))%Z)%bool
  then Some (aset a (Z.to_nat i) v)
  else None.

Notation "x <- m ;; k" :=
  (match m with Some x => k | None => None end)
  (at level 61, m at next level, right associativity).

(** The globals of [main.cpp] that the estimation engine reads or writes.
    The three OMWE arrays keep their 1000 slots; only the slots below the
    pointers hold recorded values. *)
Record state : Type := mkState {
  current_pressure : double;
  release_rate : double;
  buffer_queue : list double;
  omwegraph_absicissa_buffer : list double;
  omwegraph_ordinate_buffer : list double;
  omwe_buffer_time : list double;
  pressure_diff : double;
  previous_pressure_diff : double;
  peak_pressure_diff : double;
  Mean_Arterial_Pressure : double;
  caliberated_MIN_OUT : Z;
  iteration : Z;
  omwebuffer_pointer : Z;
  omwetime_buffer_pointer : Z;
  active_recordflag : bool;
  end_record : bool;
  active_flag : bool;
  max_pressure : bool;
  flux_warning : bool
}.

Definition initial_state : state := {|
  current_pressure := Finite 0;
  release_rate := Finite 0;
  buffer_queue := repeat (Finite 0) 5;
  omwegraph_absicissa_buffer := repeat (Finite 0) OMWE_CAPACITY;
  omwegraph_ordinate_buffer := repeat (Finite 0) OMWE_CAPACITY;
  omwe_buffer_time := repeat (Finite 0) OMWE_CAPACITY;
  pressure_diff := Finite 0;
  previous_pressure_diff := Finite 0;
  peak_pressure_diff := Finite 0;
  Mean_Arterial_Pressure := Finite 0;
  caliberated_MIN_OUT := 0;
  iteration := 0;
  omwebuffer_pointer := 0;
  omwetime_buffer_pointer := 0;
  active_recordflag := false;
  end_record := false;
  active_flag := false;
  max_pressure := false;
  flux_warning := false
|}.

(** Assignments to single globals. *)
Definition set_current_pressure (v : double) (s : state) : state :=
  mkState v (release_rate s) (buffer_queue s)
    (omwegraph_absicissa_buffer s) (omwegraph_ordinate_buffer s)
    (omwe_buffer_time s) (pressure_diff s) (previous_pressure_diff s)
    (peak_pressure_diff s) (Mean_Arterial_Pressure s) (caliberated_MIN_OUT s)
    (iteration s) (omwebuffer_pointer s) (omwetime_buffer_pointer s)
    (active_recordflag s) (end_record s) (active_flag s) (max_pressure s)
    (flux_warning s).

Definition set_release_rate (v : double) (s : state) : state :=
  mkState (current_pressure s) v (buffer_queue s)
    (omwegraph_absicissa_buffer s) (omwegraph_ordinate_buffer s)
    (omwe_buffer_time s) (pressure_diff s) (previous_pressure_diff s)
    (peak_pressure_diff s) (Mean_Arterial_Pressure s) (caliberated_MIN_OUT s)
    (iteration s) (omwebuffer_pointer s) (omwetime_buffer_pointer s)
    (active_recordflag s) (end_record s) (active_flag s) (max_pressure s)
    (flux_warning s).

Definition set_buffer_queue (v : list double) (s : state) : state :=
  mkState (current_pressure s) (release_rate s) v
    (omwegraph_absicissa_buffer s) (omwegraph_ordinate_buffer s)
    (omwe_buffer_time s) (pressure_diff s) (previous_pressure_diff s)
    (peak_pressure_diff s) (Mean_Arterial_Pressure s) (caliberated_MIN_OUT s)
    (iteration s) (omwebuffer_pointer s) (omwetime_buffer_pointer s)
    (active_recordflag s) (end_record s) (active_flag s) (max_pressure s)
    (flux_warning s).

(** [omwegraph_ordinate_buffer[p] = o; omwegraph_absicissa_buffer[p++] = a]
    once both writes are done. *)
Definition set_omwe_point (a o : list double) (p : Z) (s : state) : state :=
  mkState (current_pressure s) (release_rate s) (buffer_queue s)
    a o
    (omwe_buffer_time s) (pressure_diff s) (previous_pressure_diff s)
    (peak_pressure_diff s) (Mean_Arterial_Pressure s) (caliberated_MIN_OUT s)
    (iteration s) p (omwetime_buffer_pointer s)
    (active_recordflag s) (end_record s) (active_flag s) (max_pressure s)
    (flux_warning s).

(** [omwe_buffer_time[p++] = ...] once the write is done. *)
Definition set_omwe_time (t : list double) (p : Z) (s : state) : state :=
  mkState (current_pressure s) (release_rate s) (buffer_queue s)
    (omwegraph_absicissa_buffer s) (omwegraph_ordinate_buffer s)
    t (pressure_diff s) (previous_pressure_diff s)
    (peak_pressure_diff s) (Mean_Arterial_Pressure s) (caliberated_MIN_OUT s)
    (iteration s) (omwebuffer_pointer s) p
    (active_recordflag s) (end_record s) (active_flag s) (max_pressure s)
    (flux_warning s).

Definition set_pressure_diff (v : double) (s : state) : state :=
  mkState (current_pressure s) (release_rate s) (buffer_queue s)
    (omwegraph_absicissa_buffer s) (omwegraph_ordinate_buffer s)
    (omwe_buffer_time s) v (previous_pressure_diff s)
    (peak_pressure_diff s) (Mean_Arterial_Pressure s) (caliberated_MIN_OUT s)
    (iteration s) (omwebuffer_pointer s) (omwetime_buffer_pointer s)
    (active_recordflag s) (end_record s) (active_flag s) (max_pressure s)
    (flux_warning s).

Definition set_previous_pressure_diff (v : double) (s : state) : state :=
  mkState (current_pressure s) (release_rate s) (buffer_queue s)
    (omwegraph_absicissa_buffer s) (omwegraph_ordinate_buffer s)
    (omwe_buffer_time s) (pressure_diff s) v
    (peak_pressure_diff s) (Mean_Arterial_Pressure s) (caliberated_MIN_OUT s)
    (iteration s) (omwebuffer_pointer s) (omwetime_buffer_pointer s)
    (active_recordflag s) (end_record s) (active_flag s) (max_pressure s)
    (flux_warning s).

Definition set_peak_pressure_diff (v : double) (s : state) : state :=
  mkState (current_pressure s) (release_rate s) (buffer_queue s)
    (omwegraph_absicissa_buffer s) (omwegraph_ordinate_buffer s)
    (omwe_buffer_time s) (pressure_diff s) (previous_pressure_diff s)
    v (Mean_Arterial_Pressure s) (caliberated_MIN_OUT s)
    (iteration s) (omwebuffer_pointer s) (omwetime_buffer_pointer s)
    (active_recordflag s) (end_record s) (active_flag s) (max_pressure s)
    (flux_warning s).

Definition set_Mean_Arterial_Pressure (v : double) (s : state) : state :=
  mkState (current_pressure s) (release_rate s) (buffer_queue s)
    (omwegraph_absicissa_buffer s) (omwegraph_ordinate_buffer s)
    (omwe_buffer_time s) (pressure_diff s) (previous_pressure_diff s)
    (peak_pressure_diff s) v (caliberated_MIN_OUT s)
    (iteration s) (omwebuffer_pointer s) (omwetime_buffer_pointer s)
    (active_recordflag s) (end_record s) (active_flag s) (max_pressure s)
    (flux_warning s).

Definition set_caliberated_MIN_OUT (v : Z) (s : state) : state :=
  mkState (current_pressure s) (release_rate s) (buffer_queue s)
    (omwegraph_absicissa_buffer s) (omwegraph_ordinate_buffer s)
    (omwe_buffer_time s) (pressure_diff s) (previous_pressure_diff s)
    (peak_pressure_diff s) (Mean_Arterial_Pressure s) v
    (iteration s) (omwebuffer_pointer s) (omwetime_buffer_pointer s)
    (active_recordflag s) (end_record s) (active_flag s) (max_pressure s)
    (flux_warning s).

Definition set_iteration (v : Z) (s : state) : state :=
  mkState (current_pressure s) (release_rate s) (buffer_queue s)
    (omwegraph_absicissa_buffer s) (omwegraph_ordinate_buffer s)
    (omwe_buffer_time s) (pressure_diff s) (previous_pressure_diff s)
    (peak_pressure_diff s) (Mean_Arterial_Pressure s) (caliberated_MIN_OUT s)
    v (omwebuffer_pointer s) (omwetime_buffer_pointer s)
    (active_recordflag s) (end_record s) (active_flag s) (max_pressure s)
    (flux_warning s).

Definition set_active_recordflag (v : bool) (s : state) : state :=
  mkState (current_pressure s) (release_rate s) (buffer_queue s)
    (omwegraph_absicissa_buffer s) (omwegraph_ordinate_buffer s)
    (omwe_buffer_time s) (pressure_diff s) (previous_pressure_diff s)
    (peak_pressure_diff s) (Mean_Arterial_Pressure s) (caliberated_MIN_OUT s)
    (iteration s) (omwebuffer_pointer s) (omwetime_buffer_pointer s)
    v (end_record s) (active_flag s) (max_pressure s)
    (flux_warning s).

Definition set_end_record (v : bool) (s : state) : state :=
  mkState (current_pressure s) (release_rate s) (buffer_queue s)
    (omwegraph_absicissa_buffer s) (omwegraph_ordinate_buffer s)
    (omwe_buffer_time s) (pressure_diff s) (previous_pressure_diff s)
    (peak_pressure_diff s) (Mean_Arterial_Pressure s) (caliberated_MIN_OUT s)
    (iteration s) (omwebuffer_pointer s) (omwetime_buffer_pointer s)
    (active_recordflag s) v (active_flag s) (max_pressure s)
    (flux_warning s).

Definition set_active_flag (v : bool) (s : state) : state :=
  mkState (current_pressure s) (release_rate s) (buffer_queue s)
    (omwegraph_absicissa_buffer s) (omwegraph_ordinate_buffer s)
    (omwe_buffer_time s) (pressure_diff s) (previous_pressure_diff s)
    (peak_pressure_diff s) (Mean_Arterial_Pressure s) (caliberated_MIN_OUT s)
    (iteration s) (omwebuffer_pointer s) (omwetime_buffer_pointer s)
    (active_recordflag s) (end_record s) v (max_pressure s)
    (flux_warning s).

Definition set_max_pressure (v : bool) (s : state) : state :=
  mkState (current_pressure s) (release_rate s) (buffer_queue s)
    (omwegraph_absicissa_buffer s) (omwegraph_ordinate_buffer s)
    (omwe_buffer_time s) (pressure_diff s) (previous_pressure_diff s)
    (peak_pressure_diff s) (Mean_Arterial_Pressure s) (caliberated_MIN_OUT s)
    (iteration s) (omwebuffer_pointer s) (omwetime_buffer_pointer s)
    (active_recordflag s) (end_record s) (active_flag s) v
    (flux_warning s).

Definition set_flux_warning (v : bool) (s : state) : state :=
  mkState (current_pressure s) (release_rate s) (buffer_queue s)
    (omwegraph_absicissa_buffer s) (omwegraph_ordinate_buffer s)
    (omwe_buffer_time s) (pressure_diff s) (previous_pressure_diff s)
    (peak_pressure_diff s) (Mean_Arterial_Pressure s) (caliberated_MIN_OUT s)
    (iteration s) (omwebuffer_pointer s) (omwetime_buffer_pointer s)
    (active_recordflag s) (end_record s) (active_flag s) (max_pressure s)
    v.

(** ** Inputs of one call of [measure_pressure]

    What the excluded collaborators deliver during one call: the level of the
    USER button, the three data bytes answered by the sensor
    ([data_receive_buffer[1..3]]) and the values of the (at most) two
    [pulse_count_timer.read_ms()] reads the call performs, in program order. *)
Record sample : Type := mkSample {
  dataread_push_button : bool;
  data_byte1 : Z;
  data_byte2 : Z;
  data_byte3 : Z;
  read_ms_first : Z;
  read_ms_second : Z
}.

(** [pressure_data | buf[3] | buf[2] << 8 | buf[1] << 16], from zero. *)
Definition pressure_data_of (x : sample) : Z :=
  Z.lor (Z.lor (Z.lor 0 (data_byte3 x)) (Z.shiftl (data_byte2 x) 8))
        (Z.shiftl (data_byte1 x) 16).

Definition scaler : Q := (PRESSURE_MAX - PRESSURE_MIN) / (OUTPUT_MAX - OUTPUT_MIN).

(** [scaler * (double)(pressure_data - caliberated_MIN_OUT)]. *)
Definition pressure_value_of (s : state) (x : sample) : double :=
  dmul (Finite scaler) (of_int (pressure_data_of x - caliberated_MIN_OUT s)).

(** ** MAP tracker: [MAP_calculator] *)

Definition MAP_calculator (s : state) : state :=
  let normalized_pressure := calculate_normalized_pressure (buffer_queue s) in
  if dgtb (pressure_diff s) (peak_pressure_diff s)
     && dgtb normalized_pressure (Finite MIN_OMWE_THRESH)
     && dltb normalized_pressure (Finite 110)
  then
    let s1 := set_peak_pressure_diff (pressure_diff s) s in
    set_Mean_Arterial_Pressure
      (calculate_normalized_pressure (buffer_queue s1)) s1
  else s.

(** ** Gradient safety monitor: [check_pressure_gradient_ISR] *)

Definition check_pressure_gradient_ISR (s : state) : state :=
  if (iteration s >? 5)%Z then
    let s1 :=
      set_release_rate
        (dsub (calculate_normalized_pressure (buffer_queue s))
              (current_pressure s)) s in
    if dgtb (release_rate s1) (Finite 4)
    then set_flux_warning true s1
    else set_flux_warning false s1
  else s.

(** ** Envelope tracker: the body of [measure_pressure] *)

(** Lines 326-333: the time of the peak, kept when it is more than 500 ms
    after the last kept one.  The guard and the store each read the timer. *)
Definition record_peak_time (x : sample) (s : state) : option state :=
  let p := omwetime_buffer_pointer s in
  if (p >? 0)%Z then
    if dgtb (dsub (of_int (read_ms_first x))
                  (aread (omwe_buffer_time s) (p - 1)))
            (Finite 500)
    then
      t <- awrite (omwe_buffer_time s) p (of_int (read_ms_second x)) ;;
      Some (set_omwe_time t (p + 1) s)
    else Some s
  else
    t <- awrite (omwe_buffer_time s) p (of_int (read_ms_first x)) ;;
    Some (set_omwe_time t (p + 1) s).

(** Lines 334-335: the envelope point. *)
Definition record_envelope_point (normalized_pressure : double) (s : state)
  : option state :=
  let p := omwebuffer_pointer s in
  o <- awrite (omwegraph_ordinate_buffer s) p (previous_pressure_diff s) ;;
  a <- awrite (omwegraph_absicissa_buffer s) p normalized_pressure ;;
  Some (set_omwe_point a o (p + 1) s).

(** Lines 322-339. *)
Definition track_envelope (x : sample) (normalized_pressure : double)
    (s : state) : option state :=
  if active_recordflag s
     && dltb (dabs (dsub (current_pressure s) normalized_pressure)) (Finite 12)
  then
    let s1 :=
      set_pressure_diff
        (dabs (dsub (current_pressure s) normalized_pressure)) s in
    s2 <-
      (if dgtb normalized_pressure (Finite MIN_OMWE_THRESH)
          && dltb normalized_pressure (Finite MAX_OMWE_THRESH)
       then
         if dltb (pressure_diff s1) (previous_pressure_diff s1)
         then
           s' <- record_peak_time x s1 ;;
           record_envelope_point normalized_pressure s'
         else Some s1
       else Some s1) ;;
    Some (set_previous_pressure_diff (pressure_diff s2) s2)
  else Some s.

(** Line 340: [buffer_queue[iteration++ % 5] = pressure_value].  [%] truncates
    like [Z.rem]; incrementing [LONG_MAX] overflows. *)
Definition push_sample (pressure_value : double) (s : state) : option state :=
  b <- awrite (buffer_queue s) (Z.rem (iteration s) 5) pressure_value ;;
  if (iteration s =? LONG_MAX)%Z then None
  else Some (set_iteration (iteration s + 1) (set_buffer_queue b s)).

(** Lines 292-316: the button latches the recording flag, the sensor's
    answer becomes [current_pressure]. *)
Definition read_sensor (s : state) (x : sample) : state :=
  let s := if dataread_push_button x then set_active_recordflag true s else s in
  let s := set_active_flag (active_recordflag s) s in
  set_current_pressure (pressure_value_of s x) s.

(** Lines 342-348: the release indicator and the end of the recording. *)
Definition update_indicators (normalized_pressure : double) (s : state)
  : state :=
  let s := if dgtb normalized_pressure (Finite 200)
           then set_max_pressure true s else s in
  if active_flag s && dltb normalized_pressure (Finite 5)
  then set_end_record true s else s.

(** [measure_pressure], from the sensor's answer on; the result is the new
    state and the returned [pressure_data].  The console output and the
    display timer do not touch the state kept here. *)
Definition measure_pressure (s : state) (x : sample) : option (state * Z) :=
  let pressure_data := pressure_data_of x in
  let pressure_value := pressure_value_of s x in
  let s := read_sensor s x in
  let normalized_pressure := calculate_normalized_pressure (buffer_queue s) in
  s <- track_envelope x normalized_pressure s ;;
  s <- push_sample pressure_value s ;;
  let s := MAP_calculator s in
  let s := update_indicators normalized_pressure s in
  Some (s, pressure_data).

(** ** Session: [auto_caliberate] and the loop of [main] *)

(** One turn of the calibration loop; [default_pressure] is an
    [unsigned long] of 32 bits. *)
Definition caliberate_body (readings : nat -> sample)
    (acc : option (state * Z)) (i : nat) : option (state * Z) :=
  c <- acc ;;
  r <- measure_pressure (fst c) (readings i) ;;
  Some (fst r, ((snd c + snd r) mod 2 ^ 32)%Z).

Definition auto_caliberate (s : state) (readings : nat -> sample)
  : option state :=
  c <- fold_left (caliberate_body readings) (seq 0 100) (Some (s, 0%Z)) ;;
  Some (set_caliberated_MIN_OUT (snd c / 100)%Z (fst c)).

(** What happens to the globals while [main] runs: a call of
    [measure_pressure], the ticker firing the gradient monitor, or the
    assignment that ends [auto_caliberate]. *)
Inductive event : Type :=
| Sample (x : sample)
| Tick
| Caliberated (v : Z).

Definition exec (s : state) (e : event) : option state :=
  match e with
  | Sample x => c <- measure_pressure s x ;; Some (fst c)
  | Tick => Some (check_pressure_gradient_ISR s)
  | Caliberated v => Some (set_caliberated_MIN_OUT v s)
  end.

(** Any sequence of those events. *)
Fixpoint run (s : state) (evs : list event) : option state :=
  match evs with
  | [] => Some s
  | e :: r => s' <- exec s e ;; run s' r
  end.

(** [while (!end_record) measure_pressure();] under the ticker: [ticks]
    tells how often the ticker fires before each sample.  The loop ends
    with [end_record] or, here, with the samples at hand. *)
Fixpoint main_loop (s : state) (xs : list (nat * sample)) : option state :=
  match xs with
  | [] => Some s
  | (ticks, x) :: r =>
      let s := Nat.iter ticks check_pressure_gradient_ISR s in
      if end_record s then Some s
      else
        c <- measure_pressure s x ;;
        main_loop (fst c) r
  end.

(** [main] up to the end of the sampling loop. *)
Definition session (readings : nat -> sample) (xs : list (nat * sample))
  : option state :=
  s <- auto_caliberate initial_state readings ;;
  main_loop s xs.

(** ** Systolic/diastolic estimator *)

Record BP_PARAMETER : Type := mkBP {
  systolic_bloodpressure : double;
  diastolic_bloodpressure : double;
  systolic_char_ratio : double;
  diastolic_char_ratio : double
}.

(** The locals the scan updates. *)
Record bp_scan : Type := mkScan {
  systolic_buffer : Z;
  diastolic_buffer : Z;
  min_systolic_ordinate_error : double;
  min_diastolic_ordinate_error : double
}.

Definition systolic_ordinate_value (peak_pressure_diff : double) : double :=
  let lower_systolic :=
    dmul (Finite SYSTOLIC_LOWER_CHAR_RATIO) peak_pressure_diff in
  let upper_systolic :=
    dmul (Finite SYSTOLIC_UPPER_CHAR_RATIO) peak_pressure_diff in
  ddiv (dadd lower_systolic upper_systolic) (Finite 2).

Definition diastolic_ordinate_value (peak_pressure_diff : double) : double :=
  let lower_diastolic :=
    dmul (Finite DIASTOLIC_LOWER_CHAR_RATIO) peak_pressure_diff in
  let upper_diastolic :=
    dmul (Finite DIASTOLIC_UPPER_CHAR_RATIO) peak_pressure_diff in
  ddiv (dadd lower_diastolic upper_diastolic) (Finite 2).

(** One turn of the scan, lines 186-197. *)
Definition bp_body (absicissa ordinate : list double) (peak : double)
    (acc : bp_scan) (i : nat) : bp_scan :=
  let acc1 :=
    if dltb (dabs (dsub (aget ordinate i) (systolic_ordinate_value peak)))
            (min_systolic_ordinate_error acc)
    then
      if dgtb (aget absicissa i) (Finite 100)
         && dltb (aget absicissa i) (Finite 200)
      then mkScan (Z.of_nat i) (diastolic_buffer acc)
             (dabs (dsub (aget ordinate i) (systolic_ordinate_value peak)))
             (min_diastolic_ordinate_error acc)
      else acc
    else acc in
  if dltb (dabs (dsub (aget ordinate i) (diastolic_ordinate_value peak)))
          (min_diastolic_ordinate_error acc1)
  then
    if dgtb (aget absicissa i) (Finite 50)
       && dltb (aget absicissa i) (Finite 90)
    then mkScan (systolic_buffer acc1) (Z.of_nat i)
           (min_systolic_ordinate_error acc1)
           (dabs (dsub (aget ordinate i) (diastolic_ordinate_value peak)))
    else acc1
  else acc1.

Definition bp_scan_init : bp_scan :=
  mkScan (-1) (-1) (Finite (MAP_ERROR_THRESH + 1)) (Finite (MAP_ERROR_THRESH + 1)).

Definition bp_loop (absicissa ordinate : list double) (pointer : Z)
    (peak : double) : bp_scan :=
  fold_left (bp_body absicissa ordinate peak) (seq 0 (Z.to_nat pointer))
    bp_scan_init.

(** [Systolic_and_diastolic_bp_calculator] as a function of the globals it
    reads: the two envelope arrays, [omwebuffer_pointer] and
    [peak_pressure_diff]. *)
Definition bp_calculator (absicissa ordinate : list double) (pointer : Z)
    (peak : double) : BP_PARAMETER :=
  let r := bp_loop absicissa ordinate pointer peak in
  if (systolic_buffer r <? 0)%Z || (diastolic_buffer r <? 0)%Z
  then mkBP (Finite (-1)) (Finite (-1))
         (min_systolic_ordinate_error r) (min_diastolic_ordinate_error r)
  else mkBP (aread absicissa (systolic_buffer r))
         (aread absicissa (diastolic_buffer r))
         (min_systolic_ordinate_error r) (min_diastolic_ordinate_error r).

Definition Systolic_and_diastolic_bp_calculator (s : state) : BP_PARAMETER :=
  bp_calculator (omwegraph_absicissa_buffer s) (omwegraph_ordinate_buffer s)
    (omwebuffer_pointer s) (peak_pressure_diff s).

(** ** Pulse estimator *)

Record PULSE_READING : Type := mkPulse {
  pulse_value : double;
  pulse_data_count : Z
}.

Definition pulse_upper_value : double :=
  dmul (ddiv (Finite 60) (Finite LOWER_PULSE_RANGE)) (Finite 1000).

Definition pulse_lower_value : double :=
  dmul (ddiv (Finite 60) (Finite UPPER_PULSE_RANGE)) (Finite 1000).

(** One turn of the loop; the accumulator is [(pulse, pulse_count)]. *)
Definition pulse_body (omwe_buffer_time : list double)
    (acc : double * Z) (i : nat) : double * Z :=
  let pulse_time_p2p :=
    dsub (aget omwe_buffer_time i) (aget omwe_buffer_time (i - 1)) in
  if dgtb pulse_time_p2p pulse_lower_value
     && dltb pulse_time_p2p pulse_upper_value
  then (dadd (fst acc) pulse_time_p2p, (snd acc + 1)%Z)
  else acc.

(** [for (int i = 1; i < omwetime_buffer_pointer; i++)]. *)
Definition pulse_loop (omwe_buffer_time : list double) (pointer : Z)
  : double * Z :=
  fold_left (pulse_body omwe_buffer_time)
    (seq 1 (Z.to_nat pointer - 1)) (Finite 0, 0%Z).

(** [measure_pulse] as a function of the globals it reads: the time array
    and [omwetime_buffer_pointer]. *)
Definition pulse_calculator (omwe_buffer_time : list double) (pointer : Z)
  : PULSE_READING :=
  let '(pulse, pulse_count) := pulse_loop omwe_buffer_time pointer in
  if negb (pulse_count =? 0)%Z
  then
    let pulse := ddiv pulse (of_int pulse_count) in
    mkPulse (dmul (ddiv (Finite 1000) pulse) (Finite 60)) pulse_count
  else mkPulse (Finite (-1)) pulse_count.

Definition measure_pulse (s : state) : PULSE_READING :=
  pulse_calculator (omwe_buffer_time s) (omwetime_buffer_pointer s).

(** ** The specification's vocabulary *)

(** [r] is the least value of [l]. *)
Definition least (r : Q) (l : list Q) : Prop :=
  (exists x, In x l /\ r == x) /\ forall x, In x l -> r <= x.

(** An envelope sequence is a list of (abscissa, ordinate) points; the two
    arrays and the pointer that hold it in the program. *)
Definition abscissas (env : list (Q * Q)) : list double :=
  map (fun e => Finite (fst e)) env.

Definition ordinates (env : list (Q * Q)) : list double :=
  map (fun e => Finite (snd e)) env.

Definition points (env : list (Q * Q)) : Z := Z.of_nat (length env).

Definition estimate (env : list (Q * Q)) (peak : Q) : BP_PARAMETER :=
  bp_calculator (abscissas env) (ordinates env) (points env) (Finite peak).

Definition in_band (lo hi : Q) (e : Q * Q) : bool :=
  Qlt_bool lo (fst e) && Qlt_bool (fst e) hi.

(** The residuals [|ordinate - target|] of the entries whose abscissa lies
    strictly between [lo] and [hi]. *)
Definition residuals (lo hi target : Q) (env : list (Q * Q)) : list Q :=
  map (fun e => Qabs (snd e - target)) (filter (in_band lo hi) env).

Definition systolic_residuals (env : list (Q * Q)) (peak : Q) : list Q :=
  residuals 100 200 ((59 # 100) * peak) env.

Definition diastolic_residuals (env : list (Q * Q)) (peak : Q) : list Q :=
  residuals 50 90 ((76 # 100) * peak) env.

(** The targets as the program computes them. *)
Definition systolic_target (peak : Q) : Q :=
  (SYSTOLIC_LOWER_CHAR_RATIO * peak + SYSTOLIC_UPPER_CHAR_RATIO * peak) / 2.

Definition diastolic_target (peak : Q) : Q :=
  (DIASTOLIC_LOWER_CHAR_RATIO * peak + DIASTOLIC_UPPER_CHAR_RATIO * peak) / 2.


(** The scan of [bp_body] for one target: the index and the residual of the
    best entry so far. *)
Definition closest_body (absicissa ordinate : list double) (target : double)
    (lo hi : Q) (acc : Z * double) (i : nat) : Z * double :=
  if dltb (dabs (dsub (aget ordinate i) target)) (snd acc)
  then
    if dgtb (aget absicissa i) (Finite lo) && dltb (aget absicissa i) (Finite hi)
    then (Z.of_nat i, dabs (dsub (aget ordinate i) target))
    else acc
  else acc.

(** The one-target scan over the first [n] entries of an envelope. *)
Definition scan (env : list (Q * Q)) (lo hi target init : Q) (n : nat)
  : Z * double :=
  fold_left
    (closest_body (abscissas env) (ordinates env) (Finite target) lo hi)
    (seq 0 n) ((-1)%Z, Finite init).

(** What the scan holds after the first [n] entries: the initial value while
    no in-band residual is below it, else the first least in-band residual
    and its index. *)
Definition scan_inv (env : list (Q * Q)) (lo hi target init : Q) (n : nat)
    (acc : Z * double) : Prop :=
  let residual i := Qabs (snd (nth i env (0, 0)) - target) in
  let banded i := in_band lo hi (nth i env (0, 0)) = true in
  exists r, snd acc = Finite r /\
    ((fst acc = (-1)%Z /\ r = init /\
      forall i, (i < n)%nat -> banded i -> init <= residual i)
     \/
     (exists k, (k < n)%nat /\ fst acc = Z.of_nat k /\ banded k /\
        r == residual k /\ r < init /\
        forall i, (i < n)%nat -> banded i -> r <= residual i)).

(** Consecutive differences of the peak timestamps. *)
Fixpoint intervals (ts : list Q) : list Q :=
  match ts with
  | a :: (b :: _) as r => (b - a) :: intervals r
  | _ => []
  end.


(** The intervals the program keeps: strictly inside those bounds. *)
Definition kept_intervals (ts : list Q) : list Q :=
  filter (fun d => Qlt_bool (60000 / 150) d && Qlt_bool d (60000 / 35))
    (intervals ts).

Definition pulse_estimate (ts : list Q) : PULSE_READING :=
  pulse_calculator (map Finite ts) (Z.of_nat (length ts)).

(** The loop of [measure_pulse], interval by interval. *)
Definition keep_body (acc : double * Z) (d : Q) : double * Z :=
  if Qlt_bool (60000 / 150) d && Qlt_bool d (60000 / 35)
  then (dadd (fst acc) (Finite d), (snd acc + 1)%Z)
  else acc.

(** ** Vocabulary of the session claims *)

(** The recorded part of the envelope arrays of [s] is the sequence [env];
    the recorded part of its time array is the sequence [ts]. *)
Definition holds_envelope (s : state) (env : list (Q * Q)) : Prop :=
  omwebuffer_pointer s = points env
  /\ forall i, (i < length env)%nat ->
       aget (omwegraph_absicissa_buffer s) i = aget (abscissas env) i
       /\ aget (omwegraph_ordinate_buffer s) i = aget (ordinates env) i.

Definition holds_peak_times (s : state) (ts : list Q) : Prop :=
  omwetime_buffer_pointer s = Z.of_nat (length ts)
  /\ forall i, (i < length ts)%nat ->
       aget (omwe_buffer_time s) i = aget (map Finite ts) i.

(** The envelope band of the specification, [[70.0, 160.0]]. *)
Definition in_envelope_band (a : double) : bool :=
  dleb (Finite 70) a && dleb a (Finite 160).

(** The timer reads of a run, in program order. *)
Fixpoint clock_reads (evs : list event) : list Z :=
  match evs with
  | [] => []
  | Sample x :: r => read_ms_first x :: read_ms_second x :: clock_reads r
  | _ :: r => clock_reads r
  end.

Fixpoint nondecreasing (l : list Z) : Prop :=
  match l with
  | a :: (b :: _) as r => (a <= b)%Z /\ nondecreasing r
  | _ => True
  end.

(** The session clock never runs backwards. *)
Definition clock_monotonic (evs : list event) : Prop :=
  nondecreasing (clock_reads evs).

(** The calls of [measure_pressure] in a run. *)
Fixpoint samples_taken (evs : list event) : Z :=
  match evs with
  | [] => 0
  | Sample _ :: r => 1 + samples_taken r
  | _ :: r => samples_taken r
  end.

(** What the gradient monitor computes in state [s]. *)
Definition instant_release_rate (s : state) : double :=
  dsub (calculate_normalized_pressure (buffer_queue s)) (current_pressure s).

(** Every evaluation of the monitor along the run finds a release rate that
    does not exceed 4.0. *)
Fixpoint calm (s : state) (evs : list event) : Prop :=
  match evs with
  | [] => True
  | e :: r =>
      match e with
      | Tick => dgtb (instant_release_rate s) (Finite 4) = false
      | _ => True
      end
      /\ match exec s e with
         | Some s' => calm s' r
         | None => True
         end
  end.

(** The timer did not run backwards between the two reads of a call. *)
Definition well_clocked (e : event) : Prop :=
  match e with
  | Sample x => (read_ms_first x <= read_ms_second x)%Z
  | _ => True
  end.

(** The recorded peak times are timer values, each more than 500 ms after
    the one before. *)
Definition times_spaced (s : state) : Prop :=
  (forall i, (0 <= i < omwetime_buffer_pointer s)%Z ->
     exists t, aread (omwe_buffer_time s) i = of_int t)
  /\ (forall i a b,
        (0 <= i)%Z -> (i + 1 < omwetime_buffer_pointer s)%Z ->
        aread (omwe_buffer_time s) i = of_int a ->
        aread (omwe_buffer_time s) (i + 1) = of_int b ->
        (a + 500 < b)%Z).

(** The arrays keep their sizes and the pointers stay behind the number of
    samples taken. *)
Definition well_formed (s : state) : Prop :=
  length (buffer_queue s) = 5%nat
  /\ length (omwegraph_absicissa_buffer s) = OMWE_CAPACITY
  /\ length (omwegraph_ordinate_buffer s) = OMWE_CAPACITY
  /\ length (omwe_buffer_time s) = OMWE_CAPACITY
  /\ (0 <= omwetime_buffer_pointer s <= omwebuffer_pointer s)%Z
  /\ (omwebuffer_pointer s <= iteration s)%Z.

(** ** A test session

    The cuff rests at 0 mmHg during calibration (sensor output 419430),
    then the button is held while the pressure sits near 100 mmHg and
    oscillates; one sample every 210 ms. *)

(** A sample whose three data bytes spell [data]. *)
Definition reading (button : bool) (data ms : Z) : sample :=
  mkSample button (data / 65536) ((data / 256) mod 256) (data mod 256) ms ms.

Definition demo_readings (i : nat) : sample :=
  reading false 419430 (10 * Z.of_nat i).

Definition demo_samples : list (nat * sample) :=
  [ (0%nat, reading true 1537911 2000);
    (0%nat, reading true 1537911 2210);
    (0%nat, reading true 1537911 2420);
    (1%nat, reading true 1537911 2630);
    (0%nat, reading true 1537911 2840);
    (0%nat, reading true 1537911 3050);
    (0%nat, reading true 1582650 3260);
    (0%nat, reading true 1549096 3470);
    (1%nat, reading true 1549096 3680);
    (0%nat, reading true 1582650 3890);
    (0%nat, reading true 1549096 4100) ]%Z.

(** The same session as a sequence of events. *)
Definition demo_caliberation : list event :=
  map (fun i => Sample (demo_readings i)) (seq 0 100) ++ [Caliberated 419430].

Definition demo_sampling : list event :=
  flat_map (fun tx => repeat Tick (fst tx) ++ [Sample (snd tx)]) demo_samples.

Definition demo_events : list event := demo_caliberation ++ demo_sampling.

Definition state_after (evs : list event) : state :=
  match run initial_state evs with
  | Some s => s
  | None => initial_state
  end.

(** ** Vocabulary of the further properties *)

(** The amplitude a call computes: [abs(current_pressure - normalized)]. *)
Definition amplitude_of (s : state) (x : sample) : double :=
  dabs (dsub (pressure_value_of s x)
             (calculate_normalized_pressure (buffer_queue s))).

(** The condition of line 322 in a call on [s] with input [x]. *)
Definition gate_open (s : state) (x : sample) : bool :=
  (dataread_push_button x || active_recordflag s)
  && dltb (amplitude_of s x) (Finite 12).

(** The conditions of lines 322-325 together: the call records a point. *)
Definition records_point (s : state) (x : sample) : bool :=
  gate_open s x
  && (dgtb (calculate_normalized_pressure (buffer_queue s))
           (Finite MIN_OMWE_THRESH)
      && dltb (calculate_normalized_pressure (buffer_queue s))
              (Finite MAX_OMWE_THRESH))
  && dltb (amplitude_of s x) (previous_pressure_diff s).

(** No envelope point, no peak time, no amplitude and no MAP yet, and the
    recording not ended. *)
Definition nothing_recorded (s : state) : Prop :=
  omwebuffer_pointer s = 0%Z
  /\ omwetime_buffer_pointer s = 0%Z
  /\ pressure_diff s = Finite 0
  /\ previous_pressure_diff s = Finite 0
  /\ peak_pressure_diff s = Finite 0
  /\ Mean_Arterial_Pressure s = Finite 0
  /\ end_record s = false.

(** The amplitudes are below the sanity bound of 12 and the MAP value is
    still zero or lies inside the MAP band. *)
Definition amplitudes_bounded (s : state) : Prop :=
  (exists q, pressure_diff s = Finite q /\ 0 <= q < 12)
  /\ (exists q, previous_pressure_diff s = Finite q /\ 0 <= q < 12)
  /\ (exists k, peak_pressure_diff s = Finite k /\ 0 <= k < 12
      /\ ((peak_pressure_diff s = Finite 0
           /\ Mean_Arterial_Pressure s = Finite 0)
          \/ (0 < k
              /\ dgtb (Mean_Arterial_Pressure s) (Finite 70) = true
              /\ dltb (Mean_Arterial_Pressure s) (Finite 110) = true))).

(** Every recorded envelope point lies strictly inside the envelope band and
    carries an amplitude strictly between 0 and 12. *)
Definition envelope_points_bounded (s : state) : Prop :=
  (0 <= omwebuffer_pointer s)%Z
  /\ forall i, (0 <= i < omwebuffer_pointer s)%Z ->
       dgtb (aread (omwegraph_absicissa_buffer s) i) (Finite 70) = true
       /\ dltb (aread (omwegraph_absicissa_buffer s) i) (Finite 160) = true
       /\ exists o, aread (omwegraph_ordinate_buffer s) i = Finite o
                    /\ 0 < o < 12.

(** The value of a finite double. *)
Definition qval (d : double) : Q :=
  match d with
  | Finite q => q
  | NaN => 0
  end.

(** The envelope sequence and the peak times a state has recorded. *)
Definition envelope_of (s : state) : list (Q * Q) :=
  map (fun i => (qval (aget (omwegraph_absicissa_buffer s) i),
                 qval (aget (omwegraph_ordinate_buffer s) i)))
      (seq 0 (Z.to_nat (omwebuffer_pointer s))).

Definition peak_times_of (s : state) : list Q :=
  map (fun i => qval (aget (omwe_buffer_time s) i))
      (seq 0 (Z.to_nat (omwetime_buffer_pointer s))).





(** The three data bytes of a sample are bytes. *)
Definition bytes_in_range (x : sample) : Prop :=
  (0 <= data_byte1 x < 256)%Z
  /\ (0 <= data_byte2 x < 256)%Z
  /\ (0 <= data_byte3 x < 256)%Z.

Definition Zsum (l : list Z) : Z := fold_right Z.add 0%Z l.

(** The readings [auto_caliberate] takes. *)
Definition caliberation_data (readings : nat -> sample) : list Z :=
  map (fun i => pressure_data_of (readings i)) (seq 0 100).

(** [s] with other values in the two globals the gradient monitor writes. *)
Definition overlay (r : double) (w : bool) (s : state) : state :=
  set_flux_warning w (set_release_rate r s).

(** A run with the ticker silent. *)
Fixpoint without_ticks (evs : list event) : list event :=
  match evs with
  | [] => []
  | Tick :: r => without_ticks r
  | e :: r => e :: without_ticks r
  end.

(** The test session goes on: the cuff is let down to about 1 mmHg. *)
Definition demo_deflation : list (nat * sample) :=
  [ (0%nat, reading true 430615 4310);
    (0%nat, reading true 430615 4520);
    (1%nat, reading true 430615 4730);
    (0%nat, reading true 430615 4940);
    (0%nat, reading true 430615 5150);
    (0%nat, reading true 430615 5360);
    (0%nat, reading true 430615 5570) ]%Z.

Definition demo_deflated : list event :=
  demo_events
  ++ flat_map (fun tx => repeat Tick (fst tx) ++ [Sample (snd tx)])
       demo_deflation.


(** ** Facts on doubles *)

Lemma Qlt_bool_iff (x y : Q) : Qlt_bool x y = true <-> x < y.
Proof.
  unfold Qlt_bool. rewrite negb_true_iff. split.
  - intros H. apply Qnot_le_lt. intros L. apply Qle_bool_iff in L. congruence.
  - intros H. destruct (Qle_bool y x) eqn:E; [|reflexivity].
    apply Qle_bool_iff in E. lra.
Qed.

Lemma Qlt_bool_false_iff (x y : Q) : Qlt_bool x y = false <-> y <= x.
Proof.
  unfold Qlt_bool. rewrite negb_false_iff. apply Qle_bool_iff.
Qed.

Lemma dltb_finite (a b : double) :
  dltb a b = true -> exists x y, a = Finite x /\ b = Finite y /\ x < y.
Proof.
  destruct a as [x|], b as [y|]; simpl; try discriminate.
  intros H. exists x, y. rewrite <- Qlt_bool_iff. auto.
Qed.

Lemma dltb_dleb (a b : double) : dltb a b = true -> dleb a b = true.
Proof.
  intros H. destruct (dltb_finite _ _ H) as (x & y & -> & -> & L).
  simpl. apply Qle_bool_iff. lra.
Qed.

Lemma dleb_finite (a b : double) :
  dleb a b = true -> exists x y, a = Finite x /\ b = Finite y /\ x <= y.
Proof.
  destruct a as [x|], b as [y|]; simpl; try discriminate.
  intros H. exists x, y. rewrite <- Qle_bool_iff. auto.
Qed.

Lemma dleb_refl (x : Q) : dleb (Finite x) (Finite x) = true.
Proof. simpl. apply Qle_bool_iff. lra. Qed.

Lemma dleb_trans (a b c : double) :
  dleb a b = true -> dleb b c = true -> dleb a c = true.
Proof.
  intros H1 H2.
  destruct (dleb_finite _ _ H1) as (x & y & -> & -> & L1).
  destruct (dleb_finite _ _ H2) as (y' & z & E & -> & L2).
  injection E as <-. simpl. apply Qle_bool_iff. lra.
Qed.

(** ** The normalizer *)

Lemma Qcount_cons (x : Q) (l : list Q) : Qcount (x :: l) == Qcount l + 1.
Proof.
  unfold Qcount. cbn [length]. rewrite Nat2Z.inj_succ, <- Z.add_1_r.
  rewrite inject_Z_plus. reflexivity.
Qed.

Lemma Qcount_nonneg (l : list Q) : 0 <= Qcount l.
Proof.
  unfold Qcount. change 0 with (inject_Z 0). rewrite <- Zle_Qle. lia.
Qed.

Lemma Qcount_pos (l : list Q) : l <> [] -> 0 < Qcount l.
Proof.
  destruct l as [|x l]; [congruence|]. intros _.
  rewrite Qcount_cons. pose proof (Qcount_nonneg l). lra.
Qed.

Lemma normalize_loop_slots (w : list double) :
  length w = 5%nat ->
  normalize_loop w = fold_left slot_body w (Finite 0, Finite 0).
Proof.
  intros H.
  destruct w as [|a [|b [|c [|d [|e [|f w]]]]]]; try discriminate H.
  reflexivity.
Qed.

Lemma fold_slots (w : list Q) : forall a c : Q,
  exists a' c',
    fold_left slot_body (map Finite w) (Finite a, Finite c)
      = (Finite a', Finite c')
    /\ a' == a + Qsum (nonzero_slots w)
    /\ c' == c + Qcount (nonzero_slots w).
Proof.
  induction w as [|x w IH]; intros a c.
  - exists a, c. cbn. unfold Qcount. cbn. split; [reflexivity|split; ring].
  - cbn [map fold_left slot_body dneb nonzero_slots filter].
    destruct (negb (Qeq_bool x 0)) eqn:E.
    + cbn [dadd]. destruct (IH (a + x) (c + 1)) as (a' & c' & F & Ha & Hc).
      exists a', c'. split; [exact F|].
      fold (nonzero_slots w). rewrite Qcount_cons. cbn [Qsum fold_right].
      fold (Qsum (nonzero_slots w)). split; lra.
    + destruct (IH a c) as (a' & c' & F & Ha & Hc).
      exists a', c'. auto.
Qed.

(** The divisor of the mean is zero only for an all-zero window, and then the
    dividend is zero as well: the division is [0.0/0.0]. *)
Lemma normalize_loop_count_zero (w : list Q) :
  length w = 5%nat -> nonzero_slots w = [] ->
  normalize_loop (map Finite w) = (Finite 0, Finite 0).
Proof.
  intros L E. rewrite normalize_loop_slots by (rewrite length_map; exact L).
  revert E. clear L. induction w as [|x w IH]; [reflexivity|].
  cbn [nonzero_slots filter map fold_left slot_body dneb].
  destruct (negb (Qeq_bool x 0)); [discriminate|]. exact IH.
Qed.






(** ** The systolic/diastolic estimator *)

Lemma aget_abscissas (env : list (Q * Q)) (i : nat) :
  aget (abscissas env) i = Finite (fst (nth i env (0, 0))).
Proof.
  unfold aget, abscissas.
  exact (map_nth (fun e => Finite (fst e)) env (0, 0) i).
Qed.

Lemma aget_ordinates (env : list (Q * Q)) (i : nat) :
  aget (ordinates env) i = Finite (snd (nth i env (0, 0))).
Proof.
  unfold aget, ordinates.
  exact (map_nth (fun e => Finite (snd e)) env (0, 0) i).
Qed.

(** Each half of [bp_body] is the one-target scan. *)
Lemma bp_body_systolic (A O : list double) (peak : double) (acc : bp_scan) (i : nat) :
  let r := bp_body A O peak acc i in
  (systolic_buffer r, min_systolic_ordinate_error r)
  = closest_body A O (systolic_ordinate_value peak) 100 200
      (systolic_buffer acc, min_systolic_ordinate_error acc) i.
Proof.
  unfold bp_body, closest_body. cbn [fst snd].
  destruct (dltb _ (min_systolic_ordinate_error acc));
    [destruct (_ && _)|];
    cbn [min_diastolic_ordinate_error systolic_buffer
         min_systolic_ordinate_error];
    (destruct (dltb _ (min_diastolic_ordinate_error acc));
       [destruct (_ && _)|]); reflexivity.
Qed.

Lemma bp_body_diastolic (A O : list double) (peak : double) (acc : bp_scan) (i : nat) :
  let r := bp_body A O peak acc i in
  (diastolic_buffer r, min_diastolic_ordinate_error r)
  = closest_body A O (diastolic_ordinate_value peak) 50 90
      (diastolic_buffer acc, min_diastolic_ordinate_error acc) i.
Proof.
  unfold bp_body, closest_body. cbn [fst snd].
  destruct (dltb _ (min_systolic_ordinate_error acc));
    [destruct (_ && _)|];
    cbn [min_diastolic_ordinate_error diastolic_buffer
         min_systolic_ordinate_error];
    (destruct (dltb _ (min_diastolic_ordinate_error acc));
       [destruct (_ && _)|]); reflexivity.
Qed.

Lemma bp_fold_systolic (A O : list double) (peak : double) (l : list nat) :
  forall acc,
    let r := fold_left (bp_body A O peak) l acc in
    (systolic_buffer r, min_systolic_ordinate_error r)
    = fold_left (closest_body A O (systolic_ordinate_value peak) 100 200) l
        (systolic_buffer acc, min_systolic_ordinate_error acc).
Proof.
  induction l as [|i l IH]; intros acc; [reflexivity|].
  cbn [fold_left]. rewrite <- bp_body_systolic. apply IH.
Qed.

Lemma bp_fold_diastolic (A O : list double) (peak : double) (l : list nat) :
  forall acc,
    let r := fold_left (bp_body A O peak) l acc in
    (diastolic_buffer r, min_diastolic_ordinate_error r)
    = fold_left (closest_body A O (diastolic_ordinate_value peak) 50 90) l
        (diastolic_buffer acc, min_diastolic_ordinate_error acc).
Proof.
  induction l as [|i l IH]; intros acc; [reflexivity|].
  cbn [fold_left]. rewrite <- bp_body_diastolic. apply IH.
Qed.

Section ClosestScan.

Variable env : list (Q * Q).
Variables lo hi : Q.
(** The target as the program computes it, and as the specification
    writes it. *)
Variables target' target : Q.
Hypothesis target_eq : target' == target.
Variable init : Q.

Local Abbreviation point i := (nth i env (0, 0)).
Local Abbreviation residual i := (Qabs (snd (point i) - target)).

Local Abbreviation scan_to n := (scan env lo hi target' init n).
Local Abbreviation holds_at n acc := (scan_inv env lo hi target init n acc).

Lemma residual_eq (i : nat) :
  Qabs (snd (point i) - target') == residual i.
Proof. rewrite target_eq. reflexivity. Qed.

Lemma scan_step (n : nat) (acc : Z * double) :
  holds_at n acc ->
  holds_at (S n)
    (closest_body (abscissas env) (ordinates env) (Finite target') lo hi
       acc n).
Proof.
  intros (r & Hr & Inv). pose proof (residual_eq n) as RE.
  unfold closest_body. rewrite Hr, aget_ordinates, aget_abscissas.
  cbn [dsub dabs dltb dgtb].
  change (Qlt_bool lo (fst (point n)) && Qlt_bool (fst (point n)) hi)
    with (in_band lo hi (point n)).
  unfold scan_inv. cbv zeta.
  destruct (Qlt_bool (Qabs (snd (point n) - target')) r) eqn:C.
  - apply Qlt_bool_iff in C. destruct (in_band lo hi (point n)) eqn:B.
    + (* a new best *)
      exists (Qabs (snd (nth n env (0, 0)) - target')).
      split; [reflexivity|].
      right. exists n. cbn [fst]. repeat split; try lia; auto.
      * destruct Inv as [(_ & -> & _)|(k & _ & _ & _ & _ & L & _)]; lra.
      * intros i Hi Bi. assert (i = n \/ (i < n)%nat) as [->|Lt] by lia;
          [lra|].
        destruct Inv as [(_ & -> & F)|(k & _ & _ & _ & _ & _ & F)];
          specialize (F i Lt Bi); lra.
    + (* out of band: skipped *)
      exists r. split; [exact Hr|].
      destruct Inv as [(E & -> & F)|(k & Lk & E & Bk & Rk & L & F)].
      * left. repeat split; auto. intros i Hi Bi.
        assert (i = n \/ (i < n)%nat) as [->|Lt] by lia;
          [congruence|auto].
      * right. exists k. repeat split; auto; try lia. intros i Hi Bi.
        assert (i = n \/ (i < n)%nat) as [->|Lt] by lia;
          [congruence|auto].
  - apply Qlt_bool_false_iff in C. exists r. split; [exact Hr|].
    destruct Inv as [(E & -> & F)|(k & Lk & E & Bk & Rk & L & F)].
    + left. repeat split; auto. intros i Hi Bi.
      assert (i = n \/ (i < n)%nat) as [->|Lt] by lia; [lra|auto].
    + right. exists k. repeat split; auto; try lia. intros i Hi Bi.
      assert (i = n \/ (i < n)%nat) as [->|Lt] by lia; [lra|auto].
Qed.

Lemma scan_invariant (n : nat) : holds_at n (scan_to n).
Proof.
  induction n as [|n IH].
  - exists init. split; [reflexivity|]. left. repeat split. intros; lia.
  - unfold scan.
    rewrite seq_S, fold_left_app. cbn [fold_left Nat.add].
    apply scan_step. exact IH.
Qed.

Lemma in_residuals (x : Q) :
  In x (residuals lo hi target env) <->
  exists i, (i < length env)%nat /\ in_band lo hi (point i) = true
            /\ x = residual i.
Proof.
  unfold residuals. rewrite in_map_iff. split.
  - intros (e & <- & He). apply filter_In in He as [He B].
    destruct (In_nth _ _ (0, 0) He) as (i & Hi & <-).
    exists i. auto.
  - intros (i & Hi & B & ->). exists (point i). split; [reflexivity|].
    apply filter_In. split; [apply nth_In; exact Hi|exact B].
Qed.

(** The scan ends on the least of [init] and the in-band residuals; it
    keeps index [-1] exactly when no in-band residual is below [init]. *)
Lemma scan_result :
  exists r, snd (scan_to (length env)) = Finite r
    /\ least r (init :: residuals lo hi target env)
    /\ ((forall x, In x (residuals lo hi target env) -> init <= x) ->
        fst (scan_to (length env)) = (-1)%Z /\ r = init)
    /\ ((fst (scan_to (length env)) < 0)%Z ->
        forall x, In x (residuals lo hi target env) -> init <= x).
Proof.
  destruct (scan_invariant (length env)) as (r & Hr & Inv).
  exists r. split; [exact Hr|].
  destruct Inv as [(E & -> & F)|(k & Lk & E & Bk & Rk & L & F)].
  - assert (G : forall x, In x (residuals lo hi target env) -> init <= x).
    { intros x Hx. apply in_residuals in Hx as (i & Hi & B & ->). auto. }
    repeat split; auto.
    + exists init. split; [left; reflexivity|reflexivity].
    + intros x [<-|Hx]; [lra|auto].
  - assert (Ik : In (residual k) (residuals lo hi target env))
      by (apply in_residuals; exists k; auto).
    repeat split.
    + exists (residual k). split; [right; exact Ik|exact Rk].
    + intros x [<-|Hx]; [lra|].
      apply in_residuals in Hx as (i & Hi & B & ->). auto.
    + specialize (H _ Ik). lra.
    + specialize (H _ Ik). lra.
    + rewrite E. lia.
Qed.

End ClosestScan.

Lemma systolic_ordinate_value_finite (peak : Q) :
  systolic_ordinate_value (Finite peak) = Finite (systolic_target peak).
Proof. reflexivity. Qed.

Lemma diastolic_ordinate_value_finite (peak : Q) :
  diastolic_ordinate_value (Finite peak) = Finite (diastolic_target peak).
Proof. reflexivity. Qed.

Lemma systolic_target_ratio (peak : Q) :
  systolic_target peak == (59 # 100) * peak.
Proof.
  unfold systolic_target, SYSTOLIC_LOWER_CHAR_RATIO, SYSTOLIC_UPPER_CHAR_RATIO.
  field.
Qed.

Lemma diastolic_target_ratio (peak : Q) :
  diastolic_target peak == (76 # 100) * peak.
Proof.
  unfold diastolic_target, DIASTOLIC_LOWER_CHAR_RATIO,
    DIASTOLIC_UPPER_CHAR_RATIO.
  field.
Qed.

Lemma error_init_value : MAP_ERROR_THRESH + 1 == 3 # 2.
Proof. reflexivity. Qed.

(** The locals at the end of the loop are the two one-target scans. *)
Lemma bp_loop_systolic (env : list (Q * Q)) (peak : Q) :
  let r := bp_loop (abscissas env) (ordinates env) (points env) (Finite peak) in
  (systolic_buffer r, min_systolic_ordinate_error r)
  = scan env 100 200 (systolic_target peak) (MAP_ERROR_THRESH + 1)
      (length env).
Proof.
  unfold bp_loop, points, scan. rewrite Nat2Z.id.
  rewrite <- systolic_ordinate_value_finite.
  exact (bp_fold_systolic _ _ _ _ bp_scan_init).
Qed.

Lemma bp_loop_diastolic (env : list (Q * Q)) (peak : Q) :
  let r := bp_loop (abscissas env) (ordinates env) (points env) (Finite peak) in
  (diastolic_buffer r, min_diastolic_ordinate_error r)
  = scan env 50 90 (diastolic_target peak) (MAP_ERROR_THRESH + 1)
      (length env).
Proof.
  unfold bp_loop, points, scan. rewrite Nat2Z.id.
  rewrite <- diastolic_ordinate_value_finite.
  exact (bp_fold_diastolic _ _ _ _ bp_scan_init).
Qed.

(** How the result record is filled from the locals. *)
Lemma estimate_fields (env : list (Q * Q)) (peak : Q) :
  let r := bp_loop (abscissas env) (ordinates env) (points env) (Finite peak) in
  systolic_char_ratio (estimate env peak) = min_systolic_ordinate_error r
  /\ diastolic_char_ratio (estimate env peak) = min_diastolic_ordinate_error r
  /\ ((systolic_buffer r < 0 \/ diastolic_buffer r < 0)%Z ->
      systolic_bloodpressure (estimate env peak) = Finite (-1)
      /\ diastolic_bloodpressure (estimate env peak) = Finite (-1))
  /\ ((0 <= systolic_buffer r /\ 0 <= diastolic_buffer r)%Z ->
      systolic_bloodpressure (estimate env peak)
        = aread (abscissas env) (systolic_buffer r)
      /\ diastolic_bloodpressure (estimate env peak)
        = aread (abscissas env) (diastolic_buffer r)).
Proof.
  cbv zeta. unfold estimate, bp_calculator.
  set (r := bp_loop _ _ _ _).
  destruct (systolic_buffer r <? 0)%Z eqn:S;
    destruct (diastolic_buffer r <? 0)%Z eqn:D; cbn;
    try apply Z.ltb_lt in S; try apply Z.ltb_lt in D;
    try apply Z.ltb_ge in S; try apply Z.ltb_ge in D;
    repeat split; auto; intros; lia.
Qed.

Lemma least_head_eq (a b r : Q) (l : list Q) :
  a == b -> least r (a :: l) -> least r (b :: l).
Proof.
  intros E [(x & [<-|Hx] & Rx) Le]; split.
  - exists b. split; [left; reflexivity|]. rewrite <- E. exact Rx.
  - intros y [<-|Hy]; [rewrite <- E; apply Le; left; reflexivity|].
    apply Le. right. exact Hy.
  - exists x. split; [right; exact Hx|exact Rx].
  - intros y [<-|Hy]; [rewrite <- E; apply Le; left; reflexivity|].
    apply Le. right. exact Hy.
Qed.

Lemma systolic_scan (env : list (Q * Q)) (peak : Q) :
  let r := bp_loop (abscissas env) (ordinates env) (points env) (Finite peak) in
  exists e, min_systolic_ordinate_error r = Finite e
    /\ least e ((3 # 2) :: systolic_residuals env peak)
    /\ ((forall x, In x (systolic_residuals env peak) -> 3 # 2 <= x) ->
        systolic_buffer r = (-1)%Z /\ e == 3 # 2)
    /\ ((systolic_buffer r < 0)%Z ->
        forall x, In x (systolic_residuals env peak) -> 3 # 2 <= x).
Proof.
  cbv zeta. pose proof (bp_loop_systolic env peak) as L. cbv zeta in L.
  destruct (scan_result env 100 200 _ _ (systolic_target_ratio peak)
              (MAP_ERROR_THRESH + 1)) as (e & He & Le & A & B).
  rewrite <- L in He, A, B. cbn [fst snd] in He, A, B.
  exists e. split; [exact He|]. split; [|split].
  - exact (least_head_eq _ _ _ _ error_init_value Le).
  - intros H. destruct A as [A1 A2].
    + intros x Hx. rewrite error_init_value. apply H, Hx.
    + split; [exact A1|]. rewrite A2. exact error_init_value.
  - intros H x Hx. rewrite <- error_init_value. apply B; assumption.
Qed.

Lemma diastolic_scan (env : list (Q * Q)) (peak : Q) :
  let r := bp_loop (abscissas env) (ordinates env) (points env) (Finite peak) in
  exists e, min_diastolic_ordinate_error r = Finite e
    /\ least e ((3 # 2) :: diastolic_residuals env peak)
    /\ ((forall x, In x (diastolic_residuals env peak) -> 3 # 2 <= x) ->
        diastolic_buffer r = (-1)%Z /\ e == 3 # 2)
    /\ ((diastolic_buffer r < 0)%Z ->
        forall x, In x (diastolic_residuals env peak) -> 3 # 2 <= x).
Proof.
  cbv zeta. pose proof (bp_loop_diastolic env peak) as L. cbv zeta in L.
  destruct (scan_result env 50 90 _ _ (diastolic_target_ratio peak)
              (MAP_ERROR_THRESH + 1)) as (e & He & Le & A & B).
  rewrite <- L in He, A, B. cbn [fst snd] in He, A, B.
  exists e. split; [exact He|]. split; [|split].
  - exact (least_head_eq _ _ _ _ error_init_value Le).
  - intros H. destruct A as [A1 A2].
    + intros x Hx. rewrite error_init_value. apply H, Hx.
    + split; [exact A1|]. rewrite A2. exact error_init_value.
  - intros H x Hx. rewrite <- error_init_value. apply B; assumption.
Qed.

Lemma residuals_nil (lo hi t : Q) (env : list (Q * Q)) :
  filter (in_band lo hi) env = [] -> residuals lo hi t env = [].
Proof. unfold residuals. intros ->. reflexivity. Qed.

(** C2. If no envelope entry has its abscissa strictly between 100 and 200,
    or none has it strictly between 50 and 90 (so in particular for the empty
    envelope), the result carries the negative sentinel -1 for both the
    systolic and the diastolic pressure, whichever search failed. *)
Theorem estimate_fails_without_band_candidate (env : list (Q * Q)) (peak : Q) :
  filter (in_band 100 200) env = [] \/ filter (in_band 50 90) env = [] ->
  systolic_bloodpressure (estimate env peak) = Finite (-1)
  /\ diastolic_bloodpressure (estimate env peak) = Finite (-1)
  /\ dltb (systolic_bloodpressure (estimate env peak)) (Finite 0) = true
  /\ dltb (diastolic_bloodpressure (estimate env peak)) (Finite 0) = true.
Proof.
  intros H.
  destruct (estimate_fields env peak) as (_ & _ & F & _).
  destruct (systolic_scan env peak) as (es & _ & _ & S & _).
  destruct (diastolic_scan env peak) as (ed & _ & _ & D & _).
  assert (G : systolic_bloodpressure (estimate env peak) = Finite (-1)
              /\ diastolic_bloodpressure (estimate env peak) = Finite (-1)).
  { apply F. destruct H as [H|H].
    - left. destruct S as [-> _]; [|lia].
      unfold systolic_residuals. rewrite (residuals_nil _ _ _ _ H).
      intros x [].
    - right. destruct D as [-> _]; [|lia].
      unfold diastolic_residuals. rewrite (residuals_nil _ _ _ _ H).
      intros x []. }
  destruct G as [G1 G2]. rewrite G1, G2. repeat split; reflexivity.
Qed.

(** The empty envelope, and an envelope whose only point is a perfect
    systolic match (the diastolic search alone fails). *)
Lemma estimate_fails_without_band_candidate_witness :
  (systolic_bloodpressure (estimate [] 10) = Finite (-1)
   /\ diastolic_bloodpressure (estimate [] 10) = Finite (-1)
   /\ dltb (systolic_bloodpressure (estimate [] 10)) (Finite 0) = true
   /\ dltb (diastolic_bloodpressure (estimate [] 10)) (Finite 0) = true)
  /\
  (systolic_bloodpressure (estimate [(150, 59 # 10)] 10) = Finite (-1)
   /\ diastolic_bloodpressure (estimate [(150, 59 # 10)] 10) = Finite (-1)
   /\ dltb (systolic_bloodpressure (estimate [(150, 59 # 10)] 10)) (Finite 0)
      = true
   /\ dltb (diastolic_bloodpressure (estimate [(150, 59 # 10)] 10)) (Finite 0)
      = true).
Proof.
  split.
  - apply (estimate_fails_without_band_candidate [] 10).
    left. reflexivity.
  - apply (estimate_fails_without_band_candidate [(150, 59 # 10)] 10).
    right. reflexivity.
Defined.





(** ** The pulse estimator *)

Lemma pulse_body_interval (pre rest : list Q) (a b : Q) (acc : double * Z) :
  pulse_body (map Finite (pre ++ a :: b :: rest)) acc (S (length pre))
  = keep_body acc (b - a).
Proof.
  unfold pulse_body, keep_body, aget.
  replace (S (length pre) - 1)%nat with (length pre) by lia.
  change (Finite 0) with (Finite 0%Q).
  rewrite !(map_nth Finite).
  replace (nth (length pre) (pre ++ a :: b :: rest) 0) with a
    by (rewrite app_nth2, Nat.sub_diag by lia; reflexivity).
  replace (nth (S (length pre)) (pre ++ a :: b :: rest) 0) with b.
  2:{ rewrite app_nth2 by lia.
      replace (S (length pre) - length pre)%nat with 1%nat by lia.
      reflexivity. }
  reflexivity.
Qed.

Lemma pulse_fold_intervals (rest : list Q) :
  forall (pre : list Q) (a : Q) (acc : double * Z),
    fold_left (pulse_body (map Finite (pre ++ a :: rest)))
      (seq (S (length pre)) (length rest)) acc
    = fold_left keep_body (intervals (a :: rest)) acc.
Proof.
  induction rest as [|b rest IH]; intros pre a acc; [reflexivity|].
  cbn [length seq fold_left intervals].
  rewrite pulse_body_interval.
  specialize (IH (pre ++ [a]) b (keep_body acc (b - a))).
  rewrite <- app_assoc, length_app in IH. cbn [app length] in IH.
  rewrite Nat.add_1_r in IH. exact IH.
Qed.

Lemma pulse_loop_intervals (ts : list Q) :
  pulse_loop (map Finite ts) (Z.of_nat (length ts))
  = fold_left keep_body (intervals ts) (Finite 0, 0%Z).
Proof.
  unfold pulse_loop. rewrite Nat2Z.id.
  destruct ts as [|a rest]; [reflexivity|].
  cbn [length]. rewrite Nat.sub_succ, Nat.sub_0_r.
  exact (pulse_fold_intervals rest [] a _).
Qed.

Lemma Qsum_app (l : list Q) (x : Q) : Qsum (l ++ [x]) == Qsum l + x.
Proof.
  induction l as [|y l IH]; cbn [app Qsum fold_right].
  - ring.
  - fold (Qsum (l ++ [x])). fold (Qsum l). rewrite IH. ring.
Qed.

Lemma fold_keep (ds : list Q) : forall (v : Q) (c : Z),
  exists v',
    fold_left keep_body ds (Finite v, c)
    = (Finite v',
       (c + Z.of_nat
              (length (filter (fun d => Qlt_bool (60000 / 150) d
                                        && Qlt_bool d (60000 / 35)) ds)))%Z)
    /\ v' == v + Qsum (filter (fun d => Qlt_bool (60000 / 150) d
                                        && Qlt_bool d (60000 / 35)) ds).
Proof.
  induction ds as [|d ds IH]; intros v c.
  - exists v. cbn [fold_left filter length Qsum fold_right].
    rewrite Z.add_0_r. split; [reflexivity|].
    change (Qsum []) with 0. lra.
  - cbn [fold_left filter]. unfold keep_body at 2.
    destruct (Qlt_bool (60000 / 150) d && Qlt_bool d (60000 / 35)).
    + cbn [fst snd dadd]. destruct (IH (v + d) (c + 1)%Z) as (v' & F & E).
      exists v'. rewrite F. split.
      * f_equal. cbn [length]. lia.
      * rewrite E. cbn [Qsum fold_right]. fold (Qsum (filter (fun d => Qlt_bool (60000 / 150) d && Qlt_bool d (60000 / 35)) ds)). lra.
    + apply IH.
Qed.

Lemma kept_positive (ts : list Q) :
  forall d, In d (kept_intervals ts) -> 0 < d.
Proof.
  intros d H. apply filter_In in H as [_ H].
  apply andb_true_iff in H as [H _]. apply Qlt_bool_iff in H.
  assert (0 < 60000 / 150) by reflexivity. lra.
Qed.

Lemma Qsum_positive (l : list Q) :
  l <> [] -> (forall d, In d l -> 0 < d) -> 0 < Qsum l.
Proof.
  induction l as [|x l IH]; [congruence|]. intros _ P.
  cbn [Qsum fold_right]. fold (Qsum l).
  assert (0 < x) by (apply P; left; reflexivity).
  destruct l as [|y l].
  - cbn. lra.
  - assert (0 < Qsum (y :: l)); [|lra].
    apply IH; [discriminate|]. intros d Hd. apply P. right. exact Hd.
Qed.





(** ** Arrays *)

Lemma length_aset (a : list double) : forall i v,
  length (aset a i v) = length a.
Proof.
  induction a as [|x a IH]; intros [|i] v; cbn; try reflexivity.
  now rewrite IH.
Qed.

Lemma aget_aset_eq (a : list double) : forall i v,
  (i < length a)%nat -> aget (aset a i v) i = v.
Proof.
  unfold aget. induction a as [|x a IH]; intros [|i] v L; cbn in *; try lia.
  - reflexivity.
  - apply IH. lia.
Qed.

Lemma aget_aset_neq (a : list double) : forall i j v,
  i <> j -> aget (aset a i v) j = aget a j.
Proof.
  unfold aget. induction a as [|x a IH]; intros [|i] [|j] v N; cbn;
    try reflexivity; try congruence.
  apply IH. congruence.
Qed.

Lemma awrite_some (a a' : list double) (i : Z) (v : double) :
  awrite a i v = Some a' ->
  (0 <= i < Z.of_nat (length a))%Z /\ a' = aset a (Z.to_nat i) v.
Proof.
  unfold awrite. destruct (0 <=? i)%Z eqn:L; [|discriminate].
  destruct (i <? Z.of_nat (length a))%Z eqn:U; [|discriminate].
  cbn. intros E. injection E as <-.
  apply Z.leb_le in L. apply Z.ltb_lt in U. auto.
Qed.

Lemma aread_awrite_eq (a a' : list double) (i : Z) (v : double) :
  awrite a i v = Some a' -> aread a' i = v.
Proof.
  intros H. apply awrite_some in H as [R ->]. unfold aread.
  apply aget_aset_eq. lia.
Qed.

Lemma aread_awrite_neq (a a' : list double) (i j : Z) (v : double) :
  awrite a i v = Some a' -> (0 <= j)%Z -> j <> i -> aread a' j = aread a j.
Proof.
  intros H J N. apply awrite_some in H as [R ->]. unfold aread.
  apply aget_aset_neq. lia.
Qed.

(** ** The stages of [measure_pressure] *)

(** Reads of a global after assignments to globals. *)
Tactic Notation "fields" :=
  cbn [current_pressure release_rate buffer_queue omwegraph_absicissa_buffer
       omwegraph_ordinate_buffer omwe_buffer_time pressure_diff
       previous_pressure_diff peak_pressure_diff Mean_Arterial_Pressure
       caliberated_MIN_OUT iteration omwebuffer_pointer
       omwetime_buffer_pointer active_recordflag end_record active_flag
       max_pressure flux_warning
       set_current_pressure set_release_rate set_buffer_queue set_omwe_point
       set_omwe_time set_pressure_diff set_previous_pressure_diff
       set_peak_pressure_diff set_Mean_Arterial_Pressure
       set_caliberated_MIN_OUT set_iteration set_active_recordflag
       set_end_record set_active_flag set_max_pressure set_flux_warning].

Tactic Notation "fields" "in" hyp(H) :=
  cbn [current_pressure release_rate buffer_queue omwegraph_absicissa_buffer
       omwegraph_ordinate_buffer omwe_buffer_time pressure_diff
       previous_pressure_diff peak_pressure_diff Mean_Arterial_Pressure
       caliberated_MIN_OUT iteration omwebuffer_pointer
       omwetime_buffer_pointer active_recordflag end_record active_flag
       max_pressure flux_warning
       set_current_pressure set_release_rate set_buffer_queue set_omwe_point
       set_omwe_time set_pressure_diff set_previous_pressure_diff
       set_peak_pressure_diff set_Mean_Arterial_Pressure
       set_caliberated_MIN_OUT set_iteration set_active_recordflag
       set_end_record set_active_flag set_max_pressure set_flux_warning] in H.

Lemma record_peak_time_cases (x : sample) (s s' : state) :
  record_peak_time x s = Some s' ->
  let p := omwetime_buffer_pointer s in
  let gap :=
    dsub (of_int (read_ms_first x)) (aread (omwe_buffer_time s) (p - 1)) in
  (s' = s /\ (0 < p)%Z /\ dgtb gap (Finite 500) = false)
  \/ (exists t,
        awrite (omwe_buffer_time s) p (of_int (read_ms_second x)) = Some t
        /\ s' = set_omwe_time t (p + 1) s
        /\ (0 < p)%Z /\ dgtb gap (Finite 500) = true)
  \/ (exists t,
        awrite (omwe_buffer_time s) p (of_int (read_ms_first x)) = Some t
        /\ s' = set_omwe_time t (p + 1) s
        /\ (p <= 0)%Z).
Proof.
  unfold record_peak_time. cbv zeta.
  destruct (omwetime_buffer_pointer s >? 0)%Z eqn:P.
  - apply Z.gtb_lt in P. destruct (dgtb _ (Finite 500)) eqn:G.
    + destruct (awrite _ _ _) as [t|] eqn:W; [|discriminate].
      intros E. injection E as <-. right. left. exists t. auto.
    + intros E. injection E as <-. left. auto.
  - assert (omwetime_buffer_pointer s <= 0)%Z
      by (destruct (Z.gtb_spec (omwetime_buffer_pointer s) 0);
          [discriminate|assumption]).
    destruct (awrite _ _ _) as [t|] eqn:W; [|discriminate].
    intros E. injection E as <-. right. right. exists t. auto.
Qed.

Lemma record_envelope_point_cases (n : double) (s s' : state) :
  record_envelope_point n s = Some s' ->
  let p := omwebuffer_pointer s in
  exists a o,
    awrite (omwegraph_ordinate_buffer s) p (previous_pressure_diff s) = Some o
    /\ awrite (omwegraph_absicissa_buffer s) p n = Some a
    /\ s' = set_omwe_point a o (p + 1) s.
Proof.
  unfold record_envelope_point. cbv zeta.
  destruct (awrite (omwegraph_ordinate_buffer s) _ _) as [o|]; [|discriminate].
  destruct (awrite (omwegraph_absicissa_buffer s) _ _) as [a|]; [|discriminate].
  intros E. injection E as <-. exists a, o. auto.
Qed.

Lemma track_envelope_cases (x : sample) (n : double) (s s' : state) :
  track_envelope x n s = Some s' ->
  let amp := dabs (dsub (current_pressure s) n) in
  let banded :=
    dgtb n (Finite MIN_OMWE_THRESH) && dltb n (Finite MAX_OMWE_THRESH) in
  (s' = s
   /\ active_recordflag s && dltb amp (Finite 12) = false)
  \/ (s' = set_previous_pressure_diff amp (set_pressure_diff amp s)
      /\ active_recordflag s && dltb amp (Finite 12) = true
      /\ banded && dltb amp (previous_pressure_diff s) = false)
  \/ (exists s1 s2,
        record_peak_time x (set_pressure_diff amp s) = Some s1
        /\ record_envelope_point n s1 = Some s2
        /\ s' = set_previous_pressure_diff (pressure_diff s2) s2
        /\ active_recordflag s && dltb amp (Finite 12) = true
        /\ banded = true
        /\ dltb amp (previous_pressure_diff s) = true).
Proof.
  unfold track_envelope. cbv zeta.
  destruct (active_recordflag s && _) eqn:G.
  - destruct (dgtb n (Finite MIN_OMWE_THRESH) && _) eqn:B.
    + cbn [pressure_diff previous_pressure_diff set_pressure_diff].
      destruct (dltb _ (previous_pressure_diff s)) eqn:D.
      * destruct (record_peak_time _ _) as [s1|] eqn:R1; [|discriminate].
        destruct (record_envelope_point _ _) as [s2|] eqn:R2; [|discriminate].
        intros E. injection E as <-. right. right. exists s1, s2. auto 10.
      * intros E. injection E as <-. right. left. auto.
    + intros E. injection E as <-. right. left. auto.
  - intros E. injection E as <-. left. auto.
Qed.

Lemma push_sample_cases (v : double) (s s' : state) :
  push_sample v s = Some s' ->
  exists b,
    awrite (buffer_queue s) (Z.rem (iteration s) 5) v = Some b
    /\ iteration s <> LONG_MAX
    /\ s' = set_iteration (iteration s + 1) (set_buffer_queue b s).
Proof.
  unfold push_sample.
  destruct (awrite _ _ _) as [b|]; [|discriminate].
  destruct (iteration s =? LONG_MAX)%Z eqn:E; [discriminate|].
  apply Z.eqb_neq in E. intros H. injection H as <-. exists b. auto.
Qed.

Lemma measure_pressure_cases (s : state) (x : sample) (s' : state) (d : Z) :
  measure_pressure s x = Some (s', d) ->
  let n := calculate_normalized_pressure (buffer_queue (read_sensor s x)) in
  exists s1 s2,
    track_envelope x n (read_sensor s x) = Some s1
    /\ push_sample (pressure_value_of s x) s1 = Some s2
    /\ s' = update_indicators n (MAP_calculator s2)
    /\ d = pressure_data_of x.
Proof.
  unfold measure_pressure. cbv zeta.
  destruct (track_envelope _ _ _) as [s1|] eqn:T; [|discriminate].
  destruct (push_sample _ _) as [s2|] eqn:P; [|discriminate].
  intros E. injection E as <- <-. exists s1, s2. auto 10.
Qed.

Lemma run_app (l1 : list event) : forall (l2 : list event) (s : state),
  run s (l1 ++ l2) = (s1 <- run s l1 ;; run s1 l2).
Proof.
  induction l1 as [|e l1 IH]; intros l2 s; [reflexivity|].
  cbn [app run]. destruct (exec s e); [apply IH|reflexivity].
Qed.

(** An invariant kept by every event holds along every run. *)
Lemma run_invariant (I : state -> Prop) :
  (forall s e s', I s -> exec s e = Some s' -> I s') ->
  forall evs s s', I s -> run s evs = Some s' -> I s'.
Proof.
  intros Step. induction evs as [|e evs IH]; intros s s' Is R.
  - injection R as <-. exact Is.
  - cbn [run] in R. destruct (exec s e) as [s1|] eqn:E; [|discriminate].
    exact (IH _ _ (Step _ _ _ Is E) R).
Qed.

(** ** What one call does to the envelope and to the peak times *)

Lemma read_sensor_data (s : state) (x : sample) :
  let s' := read_sensor s x in
  buffer_queue s' = buffer_queue s
  /\ omwegraph_absicissa_buffer s' = omwegraph_absicissa_buffer s
  /\ omwegraph_ordinate_buffer s' = omwegraph_ordinate_buffer s
  /\ omwebuffer_pointer s' = omwebuffer_pointer s
  /\ omwe_buffer_time s' = omwe_buffer_time s
  /\ omwetime_buffer_pointer s' = omwetime_buffer_pointer s
  /\ previous_pressure_diff s' = previous_pressure_diff s
  /\ peak_pressure_diff s' = peak_pressure_diff s
  /\ Mean_Arterial_Pressure s' = Mean_Arterial_Pressure s
  /\ pressure_diff s' = pressure_diff s
  /\ iteration s' = iteration s
  /\ flux_warning s' = flux_warning s.
Proof.
  unfold read_sensor. destruct (dataread_push_button x); cbn;
    repeat split; reflexivity.
Qed.

Lemma closing_data (n : double) (s : state) :
  let s' := update_indicators n (MAP_calculator s) in
  buffer_queue s' = buffer_queue s
  /\ omwegraph_absicissa_buffer s' = omwegraph_absicissa_buffer s
  /\ omwegraph_ordinate_buffer s' = omwegraph_ordinate_buffer s
  /\ omwebuffer_pointer s' = omwebuffer_pointer s
  /\ omwe_buffer_time s' = omwe_buffer_time s
  /\ omwetime_buffer_pointer s' = omwetime_buffer_pointer s
  /\ pressure_diff s' = pressure_diff s
  /\ iteration s' = iteration s
  /\ flux_warning s' = flux_warning s
  /\ peak_pressure_diff s' = peak_pressure_diff (MAP_calculator s)
  /\ Mean_Arterial_Pressure s' = Mean_Arterial_Pressure (MAP_calculator s).
Proof.
  unfold update_indicators, MAP_calculator. cbv zeta.
  destruct (dgtb (pressure_diff s) _ && _ && _);
    destruct (dgtb n (Finite 200)); cbn;
    match goal with |- context [if ?c then _ else _] => destruct c end;
    cbn; repeat split; reflexivity.
Qed.

(** The envelope and the peak times after one call: untouched, or one
    envelope point appended together with at most one peak time. *)
Lemma measure_pressure_envelope (s : state) (x : sample) (s' : state) (d : Z) :
  measure_pressure s x = Some (s', d) ->
  let n := calculate_normalized_pressure (buffer_queue s) in
  let p := omwebuffer_pointer s in
  let q := omwetime_buffer_pointer s in
  let gap :=
    dsub (of_int (read_ms_first x)) (aread (omwe_buffer_time s) (q - 1)) in
  (omwegraph_absicissa_buffer s' = omwegraph_absicissa_buffer s
   /\ omwegraph_ordinate_buffer s' = omwegraph_ordinate_buffer s
   /\ omwebuffer_pointer s' = p
   /\ omwe_buffer_time s' = omwe_buffer_time s
   /\ omwetime_buffer_pointer s' = q)
  \/
  (dgtb n (Finite MIN_OMWE_THRESH) && dltb n (Finite MAX_OMWE_THRESH) = true
   /\ awrite (omwegraph_absicissa_buffer s) p n
      = Some (omwegraph_absicissa_buffer s')
   /\ awrite (omwegraph_ordinate_buffer s) p (previous_pressure_diff s)
      = Some (omwegraph_ordinate_buffer s')
   /\ omwebuffer_pointer s' = (p + 1)%Z
   /\ ((omwe_buffer_time s' = omwe_buffer_time s
        /\ omwetime_buffer_pointer s' = q
        /\ (0 < q)%Z /\ dgtb gap (Finite 500) = false)
       \/ (awrite (omwe_buffer_time s) q (of_int (read_ms_second x))
             = Some (omwe_buffer_time s')
           /\ omwetime_buffer_pointer s' = (q + 1)%Z
           /\ (0 < q)%Z /\ dgtb gap (Finite 500) = true)
       \/ (awrite (omwe_buffer_time s) q (of_int (read_ms_first x))
             = Some (omwe_buffer_time s')
           /\ omwetime_buffer_pointer s' = (q + 1)%Z
           /\ (q <= 0)%Z))).
Proof.
  intros M. apply measure_pressure_cases in M. cbv zeta in M.
  destruct M as (s1 & s2 & T & P & -> & _).
  destruct (read_sensor_data s x)
    as (Rb & Ra & Ro & Rp & Rt & Rq & Rprev & _).
  cbv zeta in *. rewrite Rb in T |- *.
  destruct (closing_data
              (calculate_normalized_pressure (buffer_queue s)) s2)
    as (_ & Ca & Co & Cp & Ct & Cq & _).
  cbv zeta in *. rewrite Ca, Co, Cp, Ct, Cq. clear Ca Co Cp Ct Cq.
  apply push_sample_cases in P as (b & _ & _ & ->). fields.
  apply track_envelope_cases in T. cbv zeta in T.
  destruct T as [(-> & _)|[(-> & _)|(t1 & t2 & R1 & R2 & -> & _ & B & _)]].
  - left. rewrite Ra, Ro, Rp, Rt, Rq. auto.
  - left. fields. rewrite Ra, Ro, Rp, Rt, Rq. auto.
  - right. split; [exact B|].
    apply record_envelope_point_cases in R2. cbv zeta in R2.
    destruct R2 as (a & o & Wo & Wa & ->). fields.
    apply record_peak_time_cases in R1. cbv zeta in R1. fields in R1.
    rewrite Rt, Rq in R1.
    destruct R1 as [(-> & Q & G)|[(t & W & -> & Q & G)|(t & W & -> & Q)]];
      fields in Wo; fields in Wa; fields;
      rewrite ?Ra, ?Rp in Wa; rewrite ?Ro, ?Rp, ?Rprev in Wo;
      rewrite ?Rp, ?Rt, ?Rq;
      (split; [exact Wa|]); (split; [exact Wo|]); (split; [reflexivity|]).
    + left. auto.
    + right. left. auto.
    + right. right. auto.
Qed.

Lemma tick_data (s : state) :
  let s' := check_pressure_gradient_ISR s in
  buffer_queue s' = buffer_queue s
  /\ omwegraph_absicissa_buffer s' = omwegraph_absicissa_buffer s
  /\ omwegraph_ordinate_buffer s' = omwegraph_ordinate_buffer s
  /\ omwebuffer_pointer s' = omwebuffer_pointer s
  /\ omwe_buffer_time s' = omwe_buffer_time s
  /\ omwetime_buffer_pointer s' = omwetime_buffer_pointer s
  /\ peak_pressure_diff s' = peak_pressure_diff s
  /\ Mean_Arterial_Pressure s' = Mean_Arterial_Pressure s
  /\ iteration s' = iteration s
  /\ current_pressure s' = current_pressure s.
Proof.
  unfold check_pressure_gradient_ISR. cbv zeta.
  destruct (iteration s >? 5)%Z; [|repeat split; reflexivity].
  destruct (dgtb _ (Finite 4)); fields; repeat split; reflexivity.
Qed.

(** ** The envelope stays within its band (C6) *)

Lemma strict_band_in_envelope_band (n : double) :
  dgtb n (Finite MIN_OMWE_THRESH) && dltb n (Finite MAX_OMWE_THRESH) = true ->
  in_envelope_band n = true.
Proof.
  intros H. apply andb_true_iff in H as [L U].
  unfold in_envelope_band, dgtb in *.
  apply dltb_dleb in L, U. unfold MIN_OMWE_THRESH, MAX_OMWE_THRESH in *.
  rewrite L, U. reflexivity.
Qed.

Lemma abscissas_in_band_step (s : state) (e : event) (s' : state) :
  (forall i, (0 <= i < omwebuffer_pointer s)%Z ->
     in_envelope_band (aread (omwegraph_absicissa_buffer s) i) = true) ->
  exec s e = Some s' ->
  forall i, (0 <= i < omwebuffer_pointer s')%Z ->
    in_envelope_band (aread (omwegraph_absicissa_buffer s') i) = true.
Proof.
  intros I E. destruct e as [x| |v]; cbn [exec] in E.
  - destruct (measure_pressure s x) as [[s1 d]|] eqn:M; [|discriminate].
    injection E as <-.
    apply measure_pressure_envelope in M. cbv zeta in M.
    destruct M as [(Ea & _ & Ep & _)|(B & Wa & _ & Ep & _)].
    + rewrite Ea, Ep. exact I.
    + rewrite Ep. intros i Hi.
      destruct (Z.eq_dec i (omwebuffer_pointer s)) as [->|N].
      * rewrite (aread_awrite_eq _ _ _ _ Wa).
        apply strict_band_in_envelope_band, B.
      * rewrite (aread_awrite_neq _ _ _ _ _ Wa) by lia. apply I. lia.
  - injection E as <-.
    destruct (tick_data s) as (_ & Ea & _ & Ep & _). cbv zeta in *.
    rewrite Ea, Ep. exact I.
  - injection E as <-. exact I.
Qed.

(** C6. Along every run from the initial state, every recorded envelope
    point has its abscissa within [70.0, 160.0]; and a call whose
    normalized pressure lies outside that band records no envelope point. *)
Theorem envelope_abscissas_within_band :
  (forall evs s,
     run initial_state evs = Some s ->
     forall i, (0 <= i < omwebuffer_pointer s)%Z ->
       in_envelope_band (aread (omwegraph_absicissa_buffer s) i) = true)
  /\
  (forall s x s' d,
     measure_pressure s x = Some (s', d) ->
     in_envelope_band (calculate_normalized_pressure (buffer_queue s)) = false ->
     omwebuffer_pointer s' = omwebuffer_pointer s
     /\ omwegraph_absicissa_buffer s' = omwegraph_absicissa_buffer s
     /\ omwegraph_ordinate_buffer s' = omwegraph_ordinate_buffer s).
Proof.
  split.
  - intros evs s R.
    apply (run_invariant
             (fun s => forall i, (0 <= i < omwebuffer_pointer s)%Z ->
                in_envelope_band (aread (omwegraph_absicissa_buffer s) i)
                = true)
             abscissas_in_band_step evs initial_state s); [|exact R].
    cbn. intros i Hi. lia.
  - intros s x s' d M Out.
    apply measure_pressure_envelope in M. cbv zeta in M.
    destruct M as [(Ea & Eo & Ep & _)|(B & _)]; [auto|].
    apply strict_band_in_envelope_band in B. congruence.
Qed.

(** ** Envelope points and peak times are not in lockstep (C10) *)

Lemma pointers_step (s : state) (e : event) (s' : state) :
  (omwetime_buffer_pointer s <= omwebuffer_pointer s)%Z ->
  exec s e = Some s' ->
  (omwetime_buffer_pointer s' <= omwebuffer_pointer s')%Z.
Proof.
  intros I E. destruct e as [x| |v]; cbn [exec] in E.
  - destruct (measure_pressure s x) as [[s1 d]|] eqn:M; [|discriminate].
    injection E as <-.
    apply measure_pressure_envelope in M. cbv zeta in M.
    destruct M as [(_ & _ & Ep & _ & Eq)
                  |(_ & _ & _ & Ep & [(_ & Eq & _)|[(_ & Eq & _)|(_ & Eq & _)]])];
      rewrite Ep, Eq; lia.
  - injection E as <-.
    destruct (tick_data s) as (_ & _ & _ & Ep & _ & Eq & _). cbv zeta in *.
    rewrite Ep, Eq. exact I.
  - injection E as <-. exact I.
Qed.

Lemma demo_run : run initial_state demo_events = Some (state_after demo_events).
Proof. vm_compute. reflexivity. Qed.

Lemma envelope_abscissas_within_band_witness :
  in_envelope_band
    (aread (omwegraph_absicissa_buffer (state_after demo_events)) 0) = true.
Proof.
  apply (proj1 envelope_abscissas_within_band demo_events
           (state_after demo_events)).
  - vm_compute. reflexivity.
  - vm_compute. split; [discriminate|reflexivity].
Defined.

(** C10. At every point of a run from the initial state there are at most as
    many recorded peak times as recorded envelope points; there can be
    strictly fewer, because a call that records an envelope point while a
    peak time is already recorded and the timer is not more than 500 ms past
    it records no peak time. *)
Theorem peak_times_at_most_envelope_points :
  (forall evs s,
     run initial_state evs = Some s ->
     (omwetime_buffer_pointer s <= omwebuffer_pointer s)%Z)
  /\
  (exists evs s,
     run initial_state evs = Some s
     /\ (omwetime_buffer_pointer s < omwebuffer_pointer s)%Z)
  /\
  (forall s x s' d,
     measure_pressure s x = Some (s', d) ->
     omwebuffer_pointer s' = (omwebuffer_pointer s + 1)%Z ->
     (0 < omwetime_buffer_pointer s)%Z ->
     dgtb (dsub (of_int (read_ms_first x))
                (aread (omwe_buffer_time s) (omwetime_buffer_pointer s - 1)))
          (Finite 500) = false ->
     omwetime_buffer_pointer s' = omwetime_buffer_pointer s).
Proof.
  split; [|split].
  - intros evs s R.
    apply (run_invariant
             (fun s => (omwetime_buffer_pointer s <= omwebuffer_pointer s)%Z)
             pointers_step evs initial_state s); [|exact R].
    cbn. lia.
  - exists demo_events, (state_after demo_events).
    split; [exact demo_run|]. vm_compute. reflexivity.
  - intros s x s' d M P Q G.
    apply measure_pressure_envelope in M. cbv zeta in M.
    destruct M as [(_ & _ & Ep & _ & Eq)
                  |(_ & _ & _ & Ep & [(_ & Eq & _)|[(_ & Eq & _ & G')|(_ & Eq & L)]])];
      try exact Eq; try lia; congruence.
Qed.

Lemma peak_times_at_most_envelope_points_witness :
  (omwetime_buffer_pointer (state_after demo_events)
   <= omwebuffer_pointer (state_after demo_events))%Z.
Proof.
  apply (proj1 peak_times_at_most_envelope_points demo_events).
  vm_compute. reflexivity.
Defined.

(** ** Peak times are increasing and spaced (C7) *)

Lemma of_int_inj (a b : Z) : of_int a = of_int b -> a = b.
Proof. unfold of_int, inject_Z. intros H. injection H as ->. reflexivity. Qed.

Lemma inject_Z_sub (a b : Z) : inject_Z a - inject_Z b = inject_Z (a - b).
Proof.
  unfold Qminus. rewrite <- inject_Z_opp, <- inject_Z_plus. reflexivity.
Qed.

Lemma gap_check (f a : Z) :
  dgtb (dsub (of_int f) (of_int a)) (Finite 500) = true <-> (a + 500 < f)%Z.
Proof.
  unfold dgtb, of_int. cbn [dsub dltb]. rewrite Qlt_bool_iff.
  rewrite inject_Z_sub. change 500 with (inject_Z 500).
  rewrite <- Zlt_Qlt. lia.
Qed.

Lemma of_int_lt (a b : Z) : (a < b)%Z -> dltb (of_int a) (of_int b) = true.
Proof.
  intros H. unfold of_int. cbn [dltb]. apply Qlt_bool_iff.
  rewrite <- Zlt_Qlt. exact H.
Qed.

Lemma of_int_spaced (a b : Z) :
  (a + 500 <= b)%Z ->
  dleb (Finite 500) (dsub (of_int b) (of_int a)) = true.
Proof.
  intros H. unfold of_int. cbn [dsub dleb]. apply Qle_bool_iff.
  rewrite inject_Z_sub. change 500 with (inject_Z 500).
  rewrite <- Zle_Qle. lia.
Qed.

Lemma nondecreasing_tail (a : Z) (l : list Z) :
  nondecreasing (a :: l) -> nondecreasing l.
Proof. destruct l as [|b l]; cbn; tauto. Qed.

Lemma clock_monotonic_well_clocked (evs : list event) :
  clock_monotonic evs -> Forall well_clocked evs.
Proof.
  unfold clock_monotonic. induction evs as [|e evs IH]; intros H;
    [constructor|].
  destruct e as [x| |v]; cbn [clock_reads] in H.
  - constructor.
    + cbn. destruct H as [H _]. exact H.
    + apply IH. eapply nondecreasing_tail, nondecreasing_tail, H.
  - constructor; [exact I|apply IH, H].
  - constructor; [exact I|apply IH, H].
Qed.

Lemma run_invariant_on (ok : event -> Prop) (I : state -> Prop) :
  (forall s e s', ok e -> I s -> exec s e = Some s' -> I s') ->
  forall evs s s', Forall ok evs -> I s -> run s evs = Some s' -> I s'.
Proof.
  intros Step. induction evs as [|e evs IH]; intros s s' F Is R.
  - injection R as <-. exact Is.
  - cbn [run] in R. destruct (exec s e) as [s1|] eqn:E; [|discriminate].
    inversion F as [|? ? Oe Or]; subst.
    exact (IH _ _ Or (Step _ _ _ Oe Is E) R).
Qed.

(** Appending a timer value more than 500 ms past the last one. *)
Lemma times_spaced_append (s s' : state) (t : Z) :
  times_spaced s ->
  awrite (omwe_buffer_time s) (omwetime_buffer_pointer s) (of_int t)
    = Some (omwe_buffer_time s') ->
  omwetime_buffer_pointer s' = (omwetime_buffer_pointer s + 1)%Z ->
  (forall a, (0 < omwetime_buffer_pointer s)%Z ->
     aread (omwe_buffer_time s) (omwetime_buffer_pointer s - 1) = of_int a ->
     (a + 500 < t)%Z) ->
  times_spaced s'.
Proof.
  intros [Fin Gap] W Eq Last. split.
  - intros i Hi. rewrite Eq in Hi.
    destruct (Z.eq_dec i (omwetime_buffer_pointer s)) as [->|N].
    + exists t. exact (aread_awrite_eq _ _ _ _ W).
    + rewrite (aread_awrite_neq _ _ _ _ _ W) by lia. apply Fin. lia.
  - intros i a b Hi Hj Ha Hb. rewrite Eq in Hj.
    rewrite (aread_awrite_neq _ _ _ _ _ W) in Ha by lia.
    destruct (Z.eq_dec (i + 1) (omwetime_buffer_pointer s)) as [E|N].
    + rewrite E, (aread_awrite_eq _ _ _ _ W) in Hb.
      apply of_int_inj in Hb as <-. apply Last; [lia|].
      replace (omwetime_buffer_pointer s - 1)%Z with i by lia. exact Ha.
    + rewrite (aread_awrite_neq _ _ _ _ _ W) in Hb by lia.
      apply (Gap i a b); auto. lia.
Qed.

Lemma times_spaced_step (s : state) (e : event) (s' : state) :
  well_clocked e -> times_spaced s -> exec s e = Some s' -> times_spaced s'.
Proof.
  intros C I E. destruct e as [x| |v]; cbn [exec] in E.
  - destruct (measure_pressure s x) as [[s1 d]|] eqn:M; [|discriminate].
    injection E as <-. cbn in C.
    apply measure_pressure_envelope in M. cbv zeta in M.
    destruct M as [(_ & _ & _ & Et & Eq)
                  |(_ & _ & _ & _ &
                    [(Et & Eq & _)|[(W & Eq & Q & G)|(W & Eq & Q)]])].
    + unfold times_spaced. rewrite Et, Eq. exact I.
    + unfold times_spaced. rewrite Et, Eq. exact I.
    + apply (times_spaced_append s s1 (read_ms_second x) I W Eq).
      intros a _ Ha. rewrite Ha in G. apply gap_check in G. lia.
    + apply (times_spaced_append s s1 (read_ms_first x) I W Eq).
      intros a P. lia.
  - injection E as <-.
    destruct (tick_data s) as (_ & _ & _ & _ & Et & Eq & _). cbv zeta in *.
    unfold times_spaced. rewrite Et, Eq. exact I.
  - injection E as <-. exact I.
Qed.

Lemma times_spaced_initial : times_spaced initial_state.
Proof. split; cbn; intros; lia. Qed.

(** From consecutive entries to any two entries. *)
Lemma times_spaced_any (s : state) :
  times_spaced s ->
  forall n i a b,
    (0 <= i)%Z -> (i + 1 + Z.of_nat n < omwetime_buffer_pointer s)%Z ->
    aread (omwe_buffer_time s) i = of_int a ->
    aread (omwe_buffer_time s) (i + 1 + Z.of_nat n) = of_int b ->
    (a + 500 < b)%Z.
Proof.
  intros [Fin Gap]. induction n as [|n IH]; intros i a b Hi Hj Ha Hb.
  - rewrite Z.add_0_r in *. exact (Gap i a b Hi Hj Ha Hb).
  - destruct (Fin (i + 1 + Z.of_nat n)%Z) as (c & Hc); [lia|].
    assert (a + 500 < c)%Z by (apply (IH i a c); auto; lia).
    assert (c + 500 < b)%Z; [|lia].
    apply (Gap (i + 1 + Z.of_nat n)%Z c b); auto; try lia.
    replace (i + 1 + Z.of_nat n + 1)%Z with (i + 1 + Z.of_nat (S n))%Z by lia.
    exact Hb.
Qed.

(** C7. With a clock that never runs backwards, along every run from the
    initial state the recorded peak times are strictly increasing and any
    two of them, in particular two consecutive ones, are at least 500 ms
    apart. *)
Theorem peak_times_increasing_and_spaced (evs : list event) (s : state) :
  clock_monotonic evs ->
  run initial_state evs = Some s ->
  forall i j,
    (0 <= i < j)%Z -> (j < omwetime_buffer_pointer s)%Z ->
    dltb (aread (omwe_buffer_time s) i) (aread (omwe_buffer_time s) j) = true
    /\ dleb (Finite 500)
         (dsub (aread (omwe_buffer_time s) j) (aread (omwe_buffer_time s) i))
       = true.
Proof.
  intros C R i j Hij Hj.
  assert (T : times_spaced s).
  { apply (run_invariant_on well_clocked times_spaced times_spaced_step
             evs initial_state s); auto using times_spaced_initial.
    apply clock_monotonic_well_clocked, C. }
  destruct (proj1 T i) as (a & Ha); [lia|].
  destruct (proj1 T j) as (b & Hb); [lia|].
  assert (a + 500 < b)%Z.
  { apply (times_spaced_any s T (Z.to_nat (j - i - 1)) i a b); auto; try lia;
      replace (i + 1 + Z.of_nat (Z.to_nat (j - i - 1)))%Z with j by lia;
      assumption. }
  rewrite Ha, Hb. split; [apply of_int_lt|apply of_int_spaced]; lia.
Qed.

Lemma peak_times_increasing_and_spaced_witness :
  dltb (aread (omwe_buffer_time (state_after demo_events)) 0)
       (aread (omwe_buffer_time (state_after demo_events)) 1) = true
  /\ dleb (Finite 500)
       (dsub (aread (omwe_buffer_time (state_after demo_events)) 1)
             (aread (omwe_buffer_time (state_after demo_events)) 0))
     = true.
Proof.
  apply (peak_times_increasing_and_spaced demo_events
           (state_after demo_events)).
  - vm_compute. repeat split; discriminate.
  - vm_compute. reflexivity.
  - lia.
  - vm_compute. reflexivity.
Defined.

(** Without that assumption the spacing can fail: the guard reads 1000 ms,
    the store reads 100 ms, 100 ms after the peak time recorded before. *)
Lemma peak_times_need_monotonic_clock :
  let s := state_after
    (demo_caliberation
     ++ [Sample (reading true 1537911 0); Sample (reading true 1537911 0);
         Sample (reading true 1537911 0); Sample (reading true 1537911 0);
         Sample (reading true 1537911 0); Sample (reading true 1537911 0);
         Sample (reading true 1582650 0); Sample (reading true 1549096 0);
         Sample (mkSample true 23 163 40 1000 100)]) in
  omwetime_buffer_pointer s = 2%Z
  /\ aread (omwe_buffer_time s) 0 = of_int 0
  /\ aread (omwe_buffer_time s) 1 = of_int 100.
Proof. vm_compute. repeat split; reflexivity. Qed.

(** ** What one call leaves alone *)

Lemma record_peak_time_frame (x : sample) (s s' : state) :
  record_peak_time x s = Some s' ->
  peak_pressure_diff s' = peak_pressure_diff s
  /\ Mean_Arterial_Pressure s' = Mean_Arterial_Pressure s
  /\ flux_warning s' = flux_warning s
  /\ iteration s' = iteration s
  /\ buffer_queue s' = buffer_queue s
  /\ pressure_diff s' = pressure_diff s.
Proof.
  intros H. apply record_peak_time_cases in H. cbv zeta in H.
  destruct H as [(-> & _)|[(t & _ & -> & _)|(t & _ & -> & _)]];
    fields; repeat split; reflexivity.
Qed.

Lemma track_envelope_frame (x : sample) (n : double) (s s' : state) :
  track_envelope x n s = Some s' ->
  peak_pressure_diff s' = peak_pressure_diff s
  /\ Mean_Arterial_Pressure s' = Mean_Arterial_Pressure s
  /\ flux_warning s' = flux_warning s
  /\ iteration s' = iteration s
  /\ buffer_queue s' = buffer_queue s.
Proof.
  intros H. apply track_envelope_cases in H. cbv zeta in H.
  destruct H as [(-> & _)|[(-> & _)|(s1 & s2 & R1 & R2 & -> & _)]];
    fields; try (repeat split; reflexivity).
  apply record_envelope_point_cases in R2. cbv zeta in R2.
  destruct R2 as (a & o & _ & _ & ->). fields.
  apply record_peak_time_frame in R1. fields in R1.
  destruct R1 as (A & B & C & D & E & _). auto.
Qed.

(** The state on which [MAP_calculator] runs inside one call. *)
Lemma measure_pressure_frame (s : state) (x : sample) (s' : state) (d : Z) :
  measure_pressure s x = Some (s', d) ->
  exists s2,
    s' = update_indicators
           (calculate_normalized_pressure (buffer_queue s))
           (MAP_calculator s2)
    /\ peak_pressure_diff s2 = peak_pressure_diff s
    /\ Mean_Arterial_Pressure s2 = Mean_Arterial_Pressure s
    /\ flux_warning s2 = flux_warning s
    /\ iteration s2 = (iteration s + 1)%Z.
Proof.
  intros M. apply measure_pressure_cases in M. cbv zeta in M.
  destruct M as (s1 & s2 & T & P & -> & _).
  destruct (read_sensor_data s x)
    as (Rb & _ & _ & _ & _ & _ & _ & Rk & Rm & _ & Ri & Rf).
  cbv zeta in *. rewrite Rb.
  apply track_envelope_frame in T as (Tk & Tm & Tf & Ti & _).
  apply push_sample_cases in P as (b & _ & _ & ->).
  eexists. split; [reflexivity|]. fields.
  rewrite Tk, Tm, Tf, Ti, Rk, Rm, Rf, Ri. auto.
Qed.

Lemma MAP_calculator_cases (s : state) :
  let n := calculate_normalized_pressure (buffer_queue s) in
  (dgtb (pressure_diff s) (peak_pressure_diff s) = true
   /\ dgtb n (Finite MIN_OMWE_THRESH) = true
   /\ dltb n (Finite 110) = true
   /\ MAP_calculator s
      = set_Mean_Arterial_Pressure n
          (set_peak_pressure_diff (pressure_diff s) s))
  \/ (dgtb (pressure_diff s) (peak_pressure_diff s)
      && dgtb n (Finite MIN_OMWE_THRESH) && dltb n (Finite 110) = false
      /\ MAP_calculator s = s).
Proof.
  unfold MAP_calculator. cbv zeta.
  destruct (dgtb (pressure_diff s) (peak_pressure_diff s)) eqn:A;
    [|right; auto].
  destruct (dgtb _ (Finite MIN_OMWE_THRESH)) eqn:B; [|right; auto].
  destruct (dltb _ (Finite 110)) eqn:C; [|right; auto].
  left. auto.
Qed.

(** ** The MAP tracker (C1) *)

Lemma exec_peak (s : state) (e : event) (s' : state) :
  exec s e = Some s' ->
  (peak_pressure_diff s' = peak_pressure_diff s
   /\ Mean_Arterial_Pressure s' = Mean_Arterial_Pressure s)
  \/ (exists x, e = Sample x
      /\ dgtb (pressure_diff s') (peak_pressure_diff s) = true
      /\ dgtb (calculate_normalized_pressure (buffer_queue s'))
              (Finite 70) = true
      /\ dltb (calculate_normalized_pressure (buffer_queue s'))
              (Finite 110) = true
      /\ peak_pressure_diff s' = pressure_diff s'
      /\ Mean_Arterial_Pressure s'
         = calculate_normalized_pressure (buffer_queue s')).
Proof.
  intros E. destruct e as [x| |v]; cbn [exec] in E.
  - destruct (measure_pressure s x) as [[s1 d]|] eqn:M; [|discriminate].
    injection E as <-.
    apply measure_pressure_frame in M as (s2 & -> & Ek & Em & _).
    destruct (closing_data (calculate_normalized_pressure (buffer_queue s)) s2)
      as (Cb & _ & _ & _ & _ & _ & Cd & _ & _ & Ck & Cm).
    cbv zeta in *. rewrite Cb, Cd, Ck, Cm.
    destruct (MAP_calculator_cases s2) as [(A & B & C & ->)|(_ & ->)];
      cbv zeta in *.
    + right. exists x. fields. rewrite <- Ek. auto 10.
    + left. auto.
  - injection E as <-.
    destruct (tick_data s) as (_ & _ & _ & _ & _ & _ & Ek & Em & _).
    left. auto.
  - injection E as <-. left. auto.
Qed.

Lemma peak_monotone (evs : list event) : forall (s s' : state) (q : Q),
  peak_pressure_diff s = Finite q ->
  run s evs = Some s' ->
  dleb (peak_pressure_diff s) (peak_pressure_diff s') = true.
Proof.
  induction evs as [|e evs IH]; intros s s' q F R.
  - injection R as <-. rewrite F. apply dleb_refl.
  - cbn [run] in R. destruct (exec s e) as [s1|] eqn:E; [|discriminate].
    destruct (exec_peak _ _ _ E) as [(Ek & _)|(x & _ & G & _ & _ & Ek & _)].
    + rewrite <- Ek. rewrite <- Ek in F. exact (IH _ _ _ F R).
    + rewrite <- Ek in G. unfold dgtb in G.
      destruct (dltb_finite _ _ G) as (a & b & _ & Fb & _).
      apply dleb_trans with (peak_pressure_diff s1).
      * apply dltb_dleb, G.
      * exact (IH _ _ _ Fb R).
Qed.

Lemma peak_finite (evs : list event) (s : state) :
  run initial_state evs = Some s -> exists q, peak_pressure_diff s = Finite q.
Proof.
  intros R.
  assert (H : dleb (peak_pressure_diff initial_state) (peak_pressure_diff s)
              = true) by (apply (peak_monotone evs _ _ 0); auto).
  destruct (dleb_finite _ _ H) as (_ & q & _ & F & _). exists q. exact F.
Qed.

(** C1. The best peak amplitude never decreases along a run from the
    initial state; an event changes it (or the MAP value) only when it is a
    sample on which the current amplitude strictly exceeds the best so far
    and the normalized pressure lies strictly between 70.0 and 110.0, and
    then the MAP value is the normalized pressure computed at that
    instant. *)
Theorem best_peak_amplitude_monotone :
  (forall l1 l2 s1 s2,
     run initial_state l1 = Some s1 -> run s1 l2 = Some s2 ->
     dleb (peak_pressure_diff s1) (peak_pressure_diff s2) = true)
  /\
  (forall s e s',
     exec s e = Some s' ->
     (peak_pressure_diff s' = peak_pressure_diff s
      /\ Mean_Arterial_Pressure s' = Mean_Arterial_Pressure s)
     \/ (exists x, e = Sample x
         /\ dgtb (pressure_diff s') (peak_pressure_diff s) = true
         /\ dgtb (calculate_normalized_pressure (buffer_queue s'))
                 (Finite 70) = true
         /\ dltb (calculate_normalized_pressure (buffer_queue s'))
                 (Finite 110) = true
         /\ peak_pressure_diff s' = pressure_diff s'
         /\ Mean_Arterial_Pressure s'
            = calculate_normalized_pressure (buffer_queue s'))).
Proof.
  split.
  - intros l1 l2 s1 s2 R1 R2.
    destruct (peak_finite _ _ R1) as (q & F).
    exact (peak_monotone l2 s1 s2 q F R2).
  - exact exec_peak.
Qed.

Lemma best_peak_amplitude_monotone_witness :
  dleb (peak_pressure_diff (state_after demo_caliberation))
       (peak_pressure_diff (state_after demo_events)) = true.
Proof.
  apply (proj1 best_peak_amplitude_monotone demo_caliberation demo_sampling).
  - vm_compute. reflexivity.
  - vm_compute. reflexivity.
Defined.

(** ** The gradient safety monitor (C8) *)

Lemma ISR_armed (s : state) :
  (5 < iteration s)%Z ->
  release_rate (check_pressure_gradient_ISR s) = instant_release_rate s
  /\ flux_warning (check_pressure_gradient_ISR s)
     = dgtb (instant_release_rate s) (Finite 4).
Proof.
  intros H. unfold check_pressure_gradient_ISR. cbv zeta.
  assert ((iteration s >? 5)%Z = true) as -> by (apply Z.gtb_lt; exact H).
  fields. fold (instant_release_rate s).
  destruct (dgtb (instant_release_rate s) (Finite 4)); fields; auto.
Qed.

Lemma ISR_idle (s : state) :
  (iteration s <= 5)%Z -> check_pressure_gradient_ISR s = s.
Proof.
  intros H. unfold check_pressure_gradient_ISR.
  destruct (Z.gtb_spec (iteration s) 5); [lia|reflexivity].
Qed.

Lemma exec_iteration (s : state) (e : event) (s' : state) :
  exec s e = Some s' ->
  iteration s' = (iteration s + samples_taken [e])%Z.
Proof.
  intros E. destruct e as [x| |v]; cbn [exec samples_taken] in *.
  - destruct (measure_pressure s x) as [[s1 d]|] eqn:M; [|discriminate].
    injection E as <-.
    apply measure_pressure_frame in M as (s2 & -> & _ & _ & _ & Ei).
    destruct (closing_data (calculate_normalized_pressure (buffer_queue s)) s2)
      as (_ & _ & _ & _ & _ & _ & _ & Ci & _).
    cbv zeta in Ci. rewrite Ci, Ei. lia.
  - injection E as <-.
    destruct (tick_data s) as (_ & _ & _ & _ & _ & _ & _ & _ & Ei & _).
    cbv zeta in Ei. rewrite Ei. lia.
  - injection E as <-. fields. lia.
Qed.

Lemma samples_taken_nonneg (evs : list event) : (0 <= samples_taken evs)%Z.
Proof.
  induction evs as [|[x| |v] evs IH]; cbn [samples_taken]; lia.
Qed.

Lemma run_iteration (evs : list event) : forall s s',
  run s evs = Some s' ->
  iteration s' = (iteration s + samples_taken evs)%Z.
Proof.
  induction evs as [|e evs IH]; intros s s' R.
  - injection R as <-. cbn. lia.
  - cbn [run] in R. destruct (exec s e) as [s1|] eqn:E; [|discriminate].
    rewrite (IH _ _ R), (exec_iteration _ _ _ E).
    destruct e; cbn [samples_taken]; lia.
Qed.

(** Only the monitor writes the warning. *)
Lemma exec_warning (s : state) (e : event) (s' : state) :
  exec s e = Some s' -> e <> Tick -> flux_warning s' = flux_warning s.
Proof.
  intros E N. destruct e as [x| |v]; cbn [exec] in E; [|congruence|].
  - destruct (measure_pressure s x) as [[s1 d]|] eqn:M; [|discriminate].
    injection E as <-.
    apply measure_pressure_frame in M as (s2 & -> & _ & _ & Ef & _).
    destruct (closing_data (calculate_normalized_pressure (buffer_queue s)) s2)
      as (_ & _ & _ & _ & _ & _ & _ & _ & Cf & _).
    cbv zeta in Cf. rewrite Cf, Ef. reflexivity.
  - injection E as <-. reflexivity.
Qed.

Lemma tick_calm (s : state) :
  flux_warning s = false ->
  dgtb (instant_release_rate s) (Finite 4) = false ->
  flux_warning (check_pressure_gradient_ISR s) = false.
Proof.
  intros F C. destruct (Z.le_gt_cases (iteration s) 5) as [L|G].
  - rewrite ISR_idle by exact L. exact F.
  - destruct (ISR_armed s G) as [_ ->]. exact C.
Qed.

Lemma calm_run (evs : list event) : forall s s',
  flux_warning s = false -> calm s evs -> run s evs = Some s' ->
  flux_warning s' = false.
Proof.
  induction evs as [|e evs IH]; intros s s' F C R.
  - injection R as <-. exact F.
  - cbn [run calm] in R, C. destruct C as [Ce Cr].
    destruct (exec s e) as [s1|] eqn:E; [|discriminate].
    apply (IH s1 s'); [|exact Cr|exact R].
    destruct e as [x| |v].
    + rewrite (exec_warning _ _ _ E); [exact F|discriminate].
    + cbn [exec] in E. injection E as <-. apply tick_calm; assumption.
    + rewrite (exec_warning _ _ _ E); [exact F|discriminate].
Qed.

(** C8. The sample counter counts the calls of [measure_pressure]; once it
    has passed 5, that is once six samples have been taken, every evaluation
    of the monitor stores the instantaneous release rate (normalized
    pressure minus last raw pressure) and sets the warning to true exactly
    when that rate exceeds 4.0, to false otherwise.  So a raised warning is
    cleared by the next evaluation that finds a rate not above 4.0, whatever
    happened in between, and the warning stays false along any run whose
    evaluations all find such a rate. *)
Theorem gradient_warning_follows_release_rate :
  (forall evs s,
     run initial_state evs = Some s -> iteration s = samples_taken evs)
  /\
  (forall s,
     (5 < iteration s)%Z ->
     release_rate (check_pressure_gradient_ISR s) = instant_release_rate s
     /\ flux_warning (check_pressure_gradient_ISR s)
        = dgtb (instant_release_rate s) (Finite 4))
  /\
  (forall s evs s',
     (5 < iteration s)%Z ->
     flux_warning (check_pressure_gradient_ISR s) = true ->
     run (check_pressure_gradient_ISR s) evs = Some s' ->
     dgtb (instant_release_rate s') (Finite 4) = false ->
     flux_warning (check_pressure_gradient_ISR s') = false)
  /\
  (forall s evs s',
     flux_warning s = false -> calm s evs -> run s evs = Some s' ->
     flux_warning s' = false).
Proof.
  split; [|split; [|split]].
  - intros evs s R. rewrite (run_iteration _ _ _ R). reflexivity.
  - exact ISR_armed.
  - intros s evs s' A _ R C.
    destruct (ISR_armed s') as [_ ->]; [|exact C].
    rewrite (run_iteration _ _ _ R).
    destruct (tick_data s) as (_ & _ & _ & _ & _ & _ & _ & _ & Ei & _).
    cbv zeta in Ei. rewrite Ei.
    pose proof (samples_taken_nonneg evs). lia.
  - intros s evs s'. apply calm_run.
Qed.

Lemma gradient_warning_follows_release_rate_witness :
  iteration (state_after demo_events) = samples_taken demo_events
  /\ release_rate (check_pressure_gradient_ISR (state_after demo_events))
     = instant_release_rate (state_after demo_events)
  /\ flux_warning (check_pressure_gradient_ISR (state_after demo_events))
     = dgtb (instant_release_rate (state_after demo_events)) (Finite 4).
Proof.
  split.
  - apply (proj1 gradient_warning_follows_release_rate demo_events).
    vm_compute. reflexivity.
  - apply (proj1 (proj2 gradient_warning_follows_release_rate)
             (state_after demo_events)).
    vm_compute. reflexivity.
Defined.

(** The warning at work: the pressure falls by about 11 mmHg within one
    sample, the monitor raises the warning; five steady samples later it
    clears it. *)
Lemma warning_raised_then_cleared :
  let fall := demo_events ++ [Sample (reading true 1426062 4310)] in
  let steady :=
    fall ++ [Tick;
             Sample (reading true 1426062 4520);
             Sample (reading true 1426062 4730);
             Sample (reading true 1426062 4940);
             Sample (reading true 1426062 5150);
             Sample (reading true 1426062 5360)] in
  flux_warning (state_after (fall ++ [Tick])) = true
  /\ flux_warning (state_after steady) = true
  /\ flux_warning (state_after (steady ++ [Tick])) = false.
Proof. vm_compute. repeat split; reflexivity. Qed.

(** ** Runs are defined while the arrays have room *)

Lemma awrite_defined (a : list double) (i : Z) (v : double) :
  (0 <= i < Z.of_nat (length a))%Z ->
  awrite a i v = Some (aset a (Z.to_nat i) v).
Proof.
  intros [L U]. unfold awrite.
  apply Z.leb_le in L. apply Z.ltb_lt in U. rewrite L, U. reflexivity.
Qed.

Lemma record_peak_time_defined (x : sample) (s : state) :
  length (omwe_buffer_time s) = OMWE_CAPACITY ->
  (0 <= omwetime_buffer_pointer s < 1000)%Z ->
  exists s', record_peak_time x s = Some s'.
Proof.
  intros L P. unfold record_peak_time. cbv zeta.
  rewrite !awrite_defined by (rewrite L; unfold OMWE_CAPACITY; lia).
  destruct (_ >? 0)%Z; [destruct (dgtb _ _)|]; eexists; reflexivity.
Qed.

Lemma record_envelope_point_defined (n : double) (s : state) :
  length (omwegraph_absicissa_buffer s) = OMWE_CAPACITY ->
  length (omwegraph_ordinate_buffer s) = OMWE_CAPACITY ->
  (0 <= omwebuffer_pointer s < 1000)%Z ->
  exists s', record_envelope_point n s = Some s'.
Proof.
  intros La Lo P. unfold record_envelope_point. cbv zeta.
  rewrite !awrite_defined by (rewrite ?La, ?Lo; unfold OMWE_CAPACITY; lia).
  eexists; reflexivity.
Qed.

Lemma record_peak_time_envelope (x : sample) (s s' : state) :
  record_peak_time x s = Some s' ->
  omwegraph_absicissa_buffer s' = omwegraph_absicissa_buffer s
  /\ omwegraph_ordinate_buffer s' = omwegraph_ordinate_buffer s
  /\ omwebuffer_pointer s' = omwebuffer_pointer s.
Proof.
  intros H. apply record_peak_time_cases in H. cbv zeta in H.
  destruct H as [(-> & _)|[(t & _ & -> & _)|(t & _ & -> & _)]];
    fields; repeat split; reflexivity.
Qed.

Lemma track_envelope_defined (x : sample) (n : double) (s : state) :
  well_formed s -> (omwebuffer_pointer s < 1000)%Z ->
  exists s', track_envelope x n s = Some s'.
Proof.
  intros (_ & La & Lo & Lt & P & _) R. unfold track_envelope. cbv zeta.
  destruct (active_recordflag s && _); [|eexists; reflexivity].
  destruct (dgtb n _ && _); [|eexists; reflexivity].
  destruct (dltb _ _); [|eexists; reflexivity].
  destruct (record_peak_time_defined x
              (set_pressure_diff (dabs (dsub (current_pressure s) n)) s))
    as (s1 & E1); fields; [exact Lt|lia|].
  rewrite E1.
  destruct (record_peak_time_envelope _ _ _ E1) as (Ea & Eo & Ep).
  fields in Ea. fields in Eo. fields in Ep.
  destruct (record_envelope_point_defined n s1) as (s2 & E2);
    [congruence|congruence|lia|].
  rewrite E2. eexists; reflexivity.
Qed.

Lemma well_formed_step (s : state) (e : event) (s' : state) :
  well_formed s -> exec s e = Some s' -> well_formed s'.
Proof.
  intros (Lb & La & Lo & Lt & P & Q) E.
  pose proof (exec_iteration _ _ _ E) as Ei.
  destruct e as [x| |v]; cbn [exec samples_taken] in E, Ei.
  - destruct (measure_pressure s x) as [[s1 d]|] eqn:M; [|discriminate].
    injection E as <-.
    pose proof (measure_pressure_envelope _ _ _ _ M) as V. cbv zeta in V.
    assert (Lb' : length (buffer_queue s1) = 5%nat).
    { apply measure_pressure_cases in M. cbv zeta in M.
      destruct M as (t1 & t2 & T & Pu & -> & _).
      destruct (closing_data
                  (calculate_normalized_pressure
                     (buffer_queue (read_sensor s x))) t2) as (Cb & _).
      cbv zeta in Cb.
      apply push_sample_cases in Pu as (b & W & _ & ->). fields in Cb.
      apply awrite_some in W as [_ ->].
      apply track_envelope_frame in T as (_ & _ & _ & _ & Tb).
      destruct (read_sensor_data s x) as (Rb & _). cbv zeta in Rb.
      rewrite Cb, length_aset, Tb, Rb. exact Lb. }
    unfold well_formed. split; [exact Lb'|].
    destruct V as [(-> & -> & -> & -> & ->)
                  |(_ & Wa & Wo & -> & Tm)].
    + repeat split; auto; lia.
    + apply awrite_some in Wa as [_ ->]. apply awrite_some in Wo as [_ ->].
      rewrite !length_aset.
      destruct Tm as [(-> & -> & _)|[(Wt & -> & _)|(Wt & -> & _)]];
        try (apply awrite_some in Wt as [_ ->]; rewrite length_aset);
        repeat split; auto; lia.
  - injection E as <-.
    destruct (tick_data s) as (Tb & Ta & To & Tp & Tt & Tq & _ & _ & Ti & _).
    cbv zeta in *. unfold well_formed.
    rewrite Tb, Ta, To, Tp, Tt, Tq, Ti. auto 10.
  - injection E as <-. unfold well_formed. fields. auto 10.
Qed.

Lemma measure_pressure_defined (s : state) (x : sample) :
  well_formed s -> (0 <= iteration s < 1000)%Z ->
  exists c, measure_pressure s x = Some c.
Proof.
  intros W I. unfold measure_pressure. cbv zeta.
  destruct (read_sensor_data s x)
    as (Rb & Ra & Ro & Rp & Rt & Rq & _ & _ & _ & _ & Ri & _).
  cbv zeta in *.
  assert (Wr : well_formed (read_sensor s x)).
  { unfold well_formed. rewrite Rb, Ra, Ro, Rp, Rt, Rq, Ri. exact W. }
  destruct W as (Lb & _ & _ & _ & P & Q).
  destruct (track_envelope_defined x
              (calculate_normalized_pressure (buffer_queue (read_sensor s x)))
              (read_sensor s x) Wr) as (s1 & T); [rewrite Rp; lia|].
  rewrite T. apply track_envelope_frame in T as (_ & _ & _ & Ti & Tb).
  unfold push_sample. rewrite Ti, Tb, Ri, Rb.
  rewrite awrite_defined.
  - assert ((iteration s =? LONG_MAX)%Z = false) as ->
      by (apply Z.eqb_neq; unfold LONG_MAX; lia).
    eexists; reflexivity.
  - rewrite Lb. pose proof (Z.rem_bound_pos (iteration s) 5). lia.
Qed.

Lemma well_formed_initial : well_formed initial_state.
Proof. unfold well_formed. cbn. repeat split; lia. Qed.

(** A run with at most 1000 samples cannot overrun an array or the sample
    counter: it is defined, whatever the samples are. *)
Lemma run_defined (evs : list event) : forall s,
  well_formed s -> (0 <= iteration s)%Z ->
  (iteration s + samples_taken evs <= 1000)%Z ->
  exists s', run s evs = Some s'.
Proof.
  induction evs as [|e evs IH]; intros s W I B; [eexists; reflexivity|].
  pose proof (samples_taken_nonneg evs) as N.
  assert (D : exists s1, exec s e = Some s1).
  { destruct e as [x| |v]; cbn [exec]; try (eexists; reflexivity).
    cbn [samples_taken] in B.
    destruct (measure_pressure_defined s x W) as (c & ->); [lia|].
    eexists; reflexivity. }
  destruct D as (s1 & E). cbn [run]. rewrite E.
  pose proof (exec_iteration _ _ _ E) as Ei.
  apply IH.
  - exact (well_formed_step _ _ _ W E).
  - destruct e; cbn [samples_taken] in Ei; lia.
  - destruct e; cbn [samples_taken] in Ei, B |- *; lia.
Qed.

Lemma run_initial_defined (evs : list event) :
  (samples_taken evs <= 1000)%Z -> exists s, run initial_state evs = Some s.
Proof.
  intros B. apply run_defined.
  - exact well_formed_initial.
  - cbn. lia.
  - cbn. lia.
Qed.

(** ** [main] is a run of events *)

Lemma caliberate_fold_none (readings : nat -> sample) (l : list nat) :
  fold_left (caliberate_body readings) l None = None.
Proof. induction l as [|i l IH]; [reflexivity|exact IH]. Qed.

Lemma caliberate_fold_run (readings : nat -> sample) (l : list nat) :
  forall s acc c,
    fold_left (caliberate_body readings) l (Some (s, acc)) = Some c ->
    run s (map (fun i => Sample (readings i)) l) = Some (fst c).
Proof.
  induction l as [|i l IH]; intros s acc c F.
  - injection F as <-. reflexivity.
  - cbn [fold_left caliberate_body fst snd map run exec] in *.
    destruct (measure_pressure s (readings i)) as [r|] eqn:M.
    + exact (IH _ _ _ F).
    + rewrite caliberate_fold_none in F. discriminate.
Qed.

Lemma auto_caliberate_run (s : state) (readings : nat -> sample) (s' : state) :
  auto_caliberate s readings = Some s' ->
  exists v,
    run s (map (fun i => Sample (readings i)) (seq 0 100) ++ [Caliberated v])
    = Some s'.
Proof.
  unfold auto_caliberate.
  destruct (fold_left _ _ _) as [c|] eqn:F; [|discriminate].
  intros E. injection E as <-. exists (snd c / 100)%Z.
  rewrite run_app, (caliberate_fold_run _ _ _ _ _ F). reflexivity.
Qed.

Lemma ticks_run (n : nat) : forall s,
  run s (repeat Tick n) = Some (Nat.iter n check_pressure_gradient_ISR s).
Proof.
  induction n as [|n IH]; intros s; [reflexivity|].
  cbn [repeat run exec]. rewrite IH, Nat.iter_succ_r. reflexivity.
Qed.

Lemma main_loop_run (xs : list (nat * sample)) : forall s s',
  main_loop s xs = Some s' -> exists evs, run s evs = Some s'.
Proof.
  induction xs as [|[ticks x] xs IH]; intros s s' L.
  - exists []. exact L.
  - cbn [main_loop] in L.
    destruct (end_record (Nat.iter ticks check_pressure_gradient_ISR s)).
    + exists (repeat Tick ticks). rewrite ticks_run. exact L.
    + destruct (measure_pressure _ x) as [c|] eqn:M; [|discriminate].
      destruct (IH _ _ L) as (evs & R).
      exists (repeat Tick ticks ++ Sample x :: evs).
      rewrite run_app, ticks_run. cbn [run exec]. rewrite M. exact R.
Qed.

(** Every state [main] reaches is reached by a run from the initial state:
    what holds along all runs holds throughout a session. *)
Lemma session_run (readings : nat -> sample) (xs : list (nat * sample))
    (s : state) :
  session readings xs = Some s ->
  exists evs, run initial_state evs = Some s.
Proof.
  unfold session.
  destruct (auto_caliberate initial_state readings) as [s0|] eqn:A;
    [|discriminate].
  intros L. destruct (auto_caliberate_run _ _ _ A) as (v & R0).
  destruct (main_loop_run _ _ _ L) as (evs & R).
  exists ((map (fun i => Sample (readings i)) (seq 0 100) ++ [Caliberated v])
          ++ evs).
  rewrite run_app, R0. exact R.
Qed.

Lemma demo_session :
  session demo_readings demo_samples = Some (state_after demo_events).
Proof. vm_compute. reflexivity. Qed.

(** ** The estimators read only the recorded part of the arrays *)

Lemma fold_left_ext_in {A B : Type} (f g : A -> B -> A) (l : list B) :
  (forall a x, In x l -> f a x = g a x) ->
  forall a, fold_left f l a = fold_left g l a.
Proof.
  induction l as [|x l IH]; intros E a; [reflexivity|].
  cbn [fold_left]. rewrite (E a x) by (left; reflexivity).
  apply IH. intros b y Hy. apply E. right. exact Hy.
Qed.

Lemma bp_body_index (A O : list double) (peak : double) (acc : bp_scan)
    (i : nat) :
  let r := bp_body A O peak acc i in
  (systolic_buffer r = systolic_buffer acc
   \/ systolic_buffer r = Z.of_nat i)
  /\ (diastolic_buffer r = diastolic_buffer acc
      \/ diastolic_buffer r = Z.of_nat i).
Proof.
  pose proof (bp_body_systolic A O peak acc i) as S.
  pose proof (bp_body_diastolic A O peak acc i) as D.
  cbv zeta in *. unfold closest_body in S, D. cbn [fst snd] in S, D.
  split.
  - destruct (dltb _ (min_systolic_ordinate_error acc)) in S;
      [destruct (_ && _) in S|]; injection S as S _; auto.
  - destruct (dltb _ (min_diastolic_ordinate_error acc)) in D;
      [destruct (_ && _) in D|]; injection D as D _; auto.
Qed.

Lemma bp_loop_index (A O : list double) (peak : double) (n : nat) :
  let r := fold_left (bp_body A O peak) (seq 0 n) bp_scan_init in
  (systolic_buffer r < Z.of_nat n)%Z /\ (diastolic_buffer r < Z.of_nat n)%Z.
Proof.
  induction n as [|n IH]; [cbn; lia|].
  rewrite seq_S, fold_left_app. cbn [fold_left Nat.add]. cbv zeta in *.
  destruct (bp_body_index A O peak
              (fold_left (bp_body A O peak) (seq 0 n) bp_scan_init) n)
    as [[-> | ->] [-> | ->]]; lia.
Qed.

Lemma estimate_of_state (s : state) (env : list (Q * Q)) (peak : Q) :
  holds_envelope s env -> peak_pressure_diff s = Finite peak ->
  Systolic_and_diastolic_bp_calculator s = estimate env peak.
Proof.
  intros [P H] K.
  unfold Systolic_and_diastolic_bp_calculator, estimate, bp_calculator.
  rewrite P, K.
  assert (L : bp_loop (omwegraph_absicissa_buffer s)
                (omwegraph_ordinate_buffer s) (points env) (Finite peak)
              = bp_loop (abscissas env) (ordinates env) (points env)
                  (Finite peak)).
  { unfold bp_loop, points. rewrite Nat2Z.id. apply fold_left_ext_in.
    intros a i Hi. apply in_seq in Hi. destruct (H i) as [Ha Ho]; [lia|].
    unfold bp_body. rewrite Ha, Ho. reflexivity. }
  rewrite L. set (r := bp_loop _ _ _ _).
  destruct ((systolic_buffer r <? 0)%Z || (diastolic_buffer r <? 0)%Z) eqn:F;
    [reflexivity|].
  apply orb_false_iff in F as [Fs Fd].
  apply Z.ltb_ge in Fs, Fd.
  pose proof (bp_loop_index (abscissas env) (ordinates env) (Finite peak)
                (length env)) as [Bs Bd].
  cbv zeta in Bs, Bd. unfold r, bp_loop, points in Fs, Fd |- *.
  rewrite Nat2Z.id in *. unfold aread.
  f_equal; apply H; lia.
Qed.

Lemma measure_pulse_of_state (s : state) (ts : list Q) :
  holds_peak_times s ts -> measure_pulse s = pulse_estimate ts.
Proof.
  intros [P H]. unfold measure_pulse, pulse_estimate, pulse_calculator.
  rewrite P.
  assert (L : pulse_loop (omwe_buffer_time s) (Z.of_nat (length ts))
              = pulse_loop (map Finite ts) (Z.of_nat (length ts))).
  { unfold pulse_loop. rewrite Nat2Z.id. apply fold_left_ext_in.
    intros a i Hi. apply in_seq in Hi. unfold pulse_body.
    rewrite (H i), (H (i - 1)%nat) by lia. reflexivity. }
  rewrite L. reflexivity.
Qed.

(** What the two estimators make of the test session: no point in the
    diastolic band, one interval of 630 ms. *)
Lemma demo_estimates :
  systolic_bloodpressure
    (Systolic_and_diastolic_bp_calculator (state_after demo_events))
  = Finite (-1)
  /\ pulse_data_count (measure_pulse (state_after demo_events)) = 1%Z
  /\ deq (pulse_value (measure_pulse (state_after demo_events)))
         (Finite (60000 / 630)).
Proof. vm_compute. repeat split; reflexivity. Qed.

(** ** One call of [measure_pressure], global by global *)

Lemma measure_pressure_summary (s : state) (x : sample) (s' : state) (d : Z) :
  measure_pressure s x = Some (s', d) ->
  let n := calculate_normalized_pressure (buffer_queue s) in
  d = pressure_data_of x
  /\ active_recordflag s' = dataread_push_button x || active_recordflag s
  /\ active_flag s' = active_recordflag s'
  /\ current_pressure s' = pressure_value_of s x
  /\ caliberated_MIN_OUT s' = caliberated_MIN_OUT s
  /\ release_rate s' = release_rate s
  /\ iteration s' = (iteration s + 1)%Z
  /\ buffer_queue s'
     = aset (buffer_queue s) (Z.to_nat (Z.rem (iteration s) 5))
         (pressure_value_of s x)
  /\ (0 <= Z.rem (iteration s) 5 < Z.of_nat (length (buffer_queue s)))%Z
  /\ max_pressure s' = max_pressure s || dgtb n (Finite 200)
  /\ end_record s'
     = end_record s || (active_recordflag s' && dltb n (Finite 5))
  /\ pressure_diff s'
     = (if gate_open s x then amplitude_of s x else pressure_diff s)
  /\ previous_pressure_diff s'
     = (if gate_open s x then amplitude_of s x else previous_pressure_diff s).
Proof.
  intros M. apply measure_pressure_cases in M. cbv zeta in M.
  destruct M as (s1 & s2 & T & P & -> & ->).
  apply push_sample_cases in P as (b & W & _ & ->).
  assert (Rs : exists a,
             read_sensor s x
             = set_current_pressure (pressure_value_of s x)
                 (set_active_flag a (set_active_recordflag a s))
             /\ a = dataread_push_button x || active_recordflag s).
  { unfold read_sensor, pressure_value_of.
    destruct (dataread_push_button x) eqn:B.
    - exists true. split; [reflexivity|reflexivity].
    - exists (active_recordflag s). split; [|reflexivity].
      destruct s; reflexivity. }
  destruct Rs as (a & Rs & Ea). rewrite Rs in T |- *. fields in T.
  fold (amplitude_of s x) in T.
  assert (G : a && dltb (amplitude_of s x) (Finite 12) = gate_open s x)
    by (unfold gate_open; rewrite Ea; reflexivity).
  apply track_envelope_cases in T. cbv zeta in T. fields in T.
  fold (amplitude_of s x) in T. rewrite G in T.
  assert (S1 : buffer_queue s1 = buffer_queue s
               /\ iteration s1 = iteration s
               /\ active_recordflag s1 = a /\ active_flag s1 = a
               /\ current_pressure s1 = pressure_value_of s x
               /\ caliberated_MIN_OUT s1 = caliberated_MIN_OUT s
               /\ release_rate s1 = release_rate s
               /\ max_pressure s1 = max_pressure s
               /\ end_record s1 = end_record s
               /\ pressure_diff s1
                  = (if gate_open s x then amplitude_of s x
                     else pressure_diff s)
               /\ previous_pressure_diff s1
                  = (if gate_open s x then amplitude_of s x
                     else previous_pressure_diff s)).
  { destruct T as [(-> & ->)|[(-> & -> & _)|(t1 & t2 & R1 & R2 & -> & -> & _)]];
      fields; try (repeat split; reflexivity).
    apply record_envelope_point_cases in R2. cbv zeta in R2.
    destruct R2 as (ea & eo & _ & _ & ->). fields.
    apply record_peak_time_cases in R1. cbv zeta in R1. fields in R1.
    destruct R1 as [(-> & _)|[(t & _ & -> & _)|(t & _ & -> & _)]];
      fields; repeat split; reflexivity. }
  destruct S1 as (Sb & Si & Sa & Sf & Sc & Sm & Sr & Sx & Se & Sd & Sp).
  rewrite Sb, Si in W. pose proof (awrite_some _ _ _ _ W) as [Wr ->].
  rewrite Si. clear T.
  unfold update_indicators, MAP_calculator. cbv zeta. fields.
  destruct (dgtb (pressure_diff s1) (peak_pressure_diff s1) && _ && _);
    destruct (dgtb _ (Finite 200)); fields; rewrite ?Sa, ?Sf;
    destruct (a && dltb _ (Finite 5)) eqn:E5; fields;
    rewrite ?Sa, ?Sf, ?Sc, ?Sm, ?Sr, ?Sx, ?Se, ?Sd, ?Sp, ?E5, <- ?Ea,
      ?orb_true_r, ?orb_false_r;
    repeat split; try reflexivity; apply Wr.
Qed.

(** ** The sensor's answer *)

Lemma lor_shiftl_add (a b n : Z) :
  (0 <= n)%Z -> (0 <= a < 2 ^ n)%Z ->
  Z.lor a (Z.shiftl b n) = (a + b * 2 ^ n)%Z.
Proof.
  intros Hn Ha. rewrite Z.shiftl_mul_pow2 by exact Hn.
  assert (L : Z.land a (b * 2 ^ n) = 0%Z).
  { apply Z.bits_inj'. intros i Hi.
    rewrite Z.land_spec, Z.bits_0.
    destruct (Z.lt_ge_cases i n) as [Lt|Ge].
    - rewrite Z.mul_pow2_bits_low by exact Lt. apply andb_false_r.
    - rewrite <- (Z.mod_small a (2 ^ n)) by exact Ha.
      rewrite Z.mod_pow2_bits_high by lia. reflexivity. }
  rewrite <- (Z.add_lor_land a (b * 2 ^ n)), L. lia.
Qed.

Lemma pressure_data_of_bytes (x : sample) :
  (0 <= data_byte1 x < 256)%Z ->
  (0 <= data_byte2 x < 256)%Z ->
  (0 <= data_byte3 x < 256)%Z ->
  pressure_data_of x
  = (data_byte1 x * 65536 + data_byte2 x * 256 + data_byte3 x)%Z.
Proof.
  intros H1 H2 H3. unfold pressure_data_of. rewrite Z.lor_0_l.
  rewrite (lor_shiftl_add (data_byte3 x) (data_byte2 x) 8) by lia.
  rewrite (lor_shiftl_add _ (data_byte1 x) 16) by lia.
  change (2 ^ 8)%Z with 256%Z. change (2 ^ 16)%Z with 65536%Z. lia.
Qed.

(** X1. The three data bytes are concatenated most significant first: the
    reading is [byte1 * 65536 + byte2 * 256 + byte3], a 24-bit value from
    which each byte can be read back. *)
Theorem sensor_bytes_concatenate (x : sample) :
  (0 <= data_byte1 x < 256)%Z ->
  (0 <= data_byte2 x < 256)%Z ->
  (0 <= data_byte3 x < 256)%Z ->
  pressure_data_of x
  = (data_byte1 x * 65536 + data_byte2 x * 256 + data_byte3 x)%Z
  /\ (0 <= pressure_data_of x < 16777216)%Z
  /\ data_byte1 x = (pressure_data_of x / 65536)%Z
  /\ data_byte2 x = ((pressure_data_of x / 256) mod 256)%Z
  /\ data_byte3 x = (pressure_data_of x mod 256)%Z.
Proof.
  intros H1 H2 H3.
  pose proof (pressure_data_of_bytes x H1 H2 H3) as E.
  rewrite E. repeat split; try lia.
  - apply Z.div_unique with (data_byte2 x * 256 + data_byte3 x)%Z; lia.
  - replace ((data_byte1 x * 65536 + data_byte2 x * 256 + data_byte3 x) / 256)%Z
      with (data_byte1 x * 256 + data_byte2 x)%Z
      by (apply Z.div_unique with (data_byte3 x); lia).
    apply Z.mod_unique with (data_byte1 x); lia.
  - apply Z.mod_unique with (data_byte1 x * 256 + data_byte2 x)%Z; lia.
Qed.

Lemma sensor_bytes_concatenate_witness :
  pressure_data_of (mkSample false 23 119 119 0 0)
  = (23 * 65536 + 119 * 256 + 119)%Z
  /\ (0 <= pressure_data_of (mkSample false 23 119 119 0 0) < 16777216)%Z
  /\ 23%Z = (pressure_data_of (mkSample false 23 119 119 0 0) / 65536)%Z
  /\ 119%Z
     = ((pressure_data_of (mkSample false 23 119 119 0 0) / 256) mod 256)%Z
  /\ 119%Z = (pressure_data_of (mkSample false 23 119 119 0 0) mod 256)%Z.
Proof.
  apply (sensor_bytes_concatenate (mkSample false 23 119 119 0 0));
    cbn; lia.
Defined.

(** ** Flags and indicators *)

Lemma tick_flags (s : state) :
  let s' := check_pressure_gradient_ISR s in
  active_recordflag s' = active_recordflag s
  /\ active_flag s' = active_flag s
  /\ end_record s' = end_record s
  /\ max_pressure s' = max_pressure s
  /\ pressure_diff s' = pressure_diff s
  /\ previous_pressure_diff s' = previous_pressure_diff s
  /\ caliberated_MIN_OUT s' = caliberated_MIN_OUT s.
Proof.
  unfold check_pressure_gradient_ISR. cbv zeta.
  destruct (iteration s >? 5)%Z; [|repeat split; reflexivity].
  destruct (dgtb _ (Finite 4)); fields; repeat split; reflexivity.
Qed.

Lemma exec_latches (s : state) (e : event) (s' : state) :
  exec s e = Some s' ->
  (active_recordflag s = true -> active_recordflag s' = true)
  /\ (max_pressure s = true -> max_pressure s' = true)
  /\ (end_record s = true -> end_record s' = true)
  /\ (end_record s' = true ->
      end_record s = true \/ active_recordflag s' = true)
  /\ (active_flag s' = true ->
      active_flag s = true \/ active_recordflag s' = true).
Proof.
  intros E. destruct e as [x| |v]; cbn [exec] in E.
  - destruct (measure_pressure s x) as [[s1 d]|] eqn:M; [|discriminate].
    injection E as <-.
    apply measure_pressure_summary in M. cbv zeta in M.
    destruct M as (_ & Ea & Ef & _ & _ & _ & _ & _ & _ & Em & Ee & _).
    rewrite Ef, Em, Ee, Ea.
    repeat split; intros H; rewrite ?H, ?orb_true_r; auto.
    + apply orb_true_iff in H as [H|H]; [left; exact H|].
      apply andb_true_iff in H as [H _]. right. exact H.
  - injection E as <-.
    destruct (tick_flags s) as (-> & -> & -> & -> & _). auto 10.
  - injection E as <-. fields. auto 10.
Qed.

(** X2. The recording flag, the release indicator and the end-of-recording
    flag only latch: no event of a run clears one of them.  Along a run from
    the initial state the recording has ended only if the button was
    pressed: [end_record] implies [active_recordflag]. *)
Theorem flags_latch :
  (forall evs s s',
     run s evs = Some s' ->
     (active_recordflag s = true -> active_recordflag s' = true)
     /\ (max_pressure s = true -> max_pressure s' = true)
     /\ (end_record s = true -> end_record s' = true))
  /\
  (forall evs s,
     run initial_state evs = Some s ->
     (end_record s = true -> active_recordflag s = true)
     /\ (active_flag s = true -> active_recordflag s = true)).
Proof.
  split.
  - induction evs as [|e evs IH]; intros s s' R.
    + injection R as <-. auto.
    + cbn [run] in R. destruct (exec s e) as [s1|] eqn:E; [|discriminate].
      destruct (exec_latches _ _ _ E) as (A & M & D & _).
      destruct (IH _ _ R) as (A' & M' & D'). auto.
  - intros evs s R.
    apply (run_invariant
             (fun s => (end_record s = true -> active_recordflag s = true)
                       /\ (active_flag s = true -> active_recordflag s = true))
             (fun s e s' I E =>
                match exec_latches s e s' E with
                | conj A (conj _ (conj _ (conj D F))) =>
                    conj (fun H => match D H with
                                   | or_introl H' => A (proj1 I H')
                                   | or_intror H' => H'
                                   end)
                         (fun H => match F H with
                                   | or_introl H' => A (proj2 I H')
                                   | or_intror H' => H'
                                   end)
                end)
             evs initial_state s); [|exact R].
    cbn. split; discriminate.
Qed.

Lemma flags_latch_witness :
  active_recordflag (state_after demo_events) = true.
Proof.
  refine (proj1 (proj1 flags_latch (skipn 102 demo_events)
                   (state_after (firstn 102 demo_events))
                   (state_after demo_events) _) _);
    vm_compute; reflexivity.
Defined.

(** ** When a call records a point *)

Lemma record_peak_time_previous (x : sample) (s s' : state) :
  record_peak_time x s = Some s' ->
  previous_pressure_diff s' = previous_pressure_diff s.
Proof.
  intros H. apply record_peak_time_cases in H. cbv zeta in H.
  destruct H as [(-> & _)|[(t & _ & -> & _)|(t & _ & -> & _)]]; reflexivity.
Qed.

Lemma measure_pressure_point (s : state) (x : sample) (s' : state) (d : Z) :
  measure_pressure s x = Some (s', d) ->
  if records_point s x
  then
    awrite (omwegraph_absicissa_buffer s) (omwebuffer_pointer s)
      (calculate_normalized_pressure (buffer_queue s))
    = Some (omwegraph_absicissa_buffer s')
    /\ awrite (omwegraph_ordinate_buffer s) (omwebuffer_pointer s)
         (previous_pressure_diff s)
       = Some (omwegraph_ordinate_buffer s')
    /\ omwebuffer_pointer s' = (omwebuffer_pointer s + 1)%Z
  else
    omwegraph_absicissa_buffer s' = omwegraph_absicissa_buffer s
    /\ omwegraph_ordinate_buffer s' = omwegraph_ordinate_buffer s
    /\ omwebuffer_pointer s' = omwebuffer_pointer s
    /\ omwe_buffer_time s' = omwe_buffer_time s
    /\ omwetime_buffer_pointer s' = omwetime_buffer_pointer s.
Proof.
  intros M. apply measure_pressure_cases in M. cbv zeta in M.
  destruct M as (s1 & s2 & T & P & -> & _).
  destruct (closing_data
              (calculate_normalized_pressure (buffer_queue (read_sensor s x)))
              s2) as (_ & Ca & Co & Cp & Ct & Cq & _).
  cbv zeta in Ca, Co, Cp, Ct, Cq. rewrite Ca, Co, Cp, Ct, Cq.
  clear Ca Co Cp Ct Cq.
  apply push_sample_cases in P as (b & _ & _ & ->). fields.
  destruct (read_sensor_data s x)
    as (Rb & Ra & Ro & Rp & Rt & Rq & Rprev & _).
  cbv zeta in Rb, Ra, Ro, Rp, Rt, Rq, Rprev.
  assert (Rf : active_recordflag (read_sensor s x)
               = dataread_push_button x || active_recordflag s)
    by (unfold read_sensor; destruct (dataread_push_button x); reflexivity).
  assert (Rc : current_pressure (read_sensor s x) = pressure_value_of s x)
    by (unfold read_sensor, pressure_value_of;
        destruct (dataread_push_button x); reflexivity).
  apply track_envelope_cases in T. cbv zeta in T.
  rewrite Rb, Rf, Rc, Rprev in T.
  fold (amplitude_of s x) in T. fold (gate_open s x) in T.
  unfold records_point.
  destruct T as [(-> & G)|[(-> & G & B)|(t1 & t2 & R1 & R2 & -> & G & B & D)]].
  - rewrite G. cbn [andb]. auto.
  - rewrite G. cbn [andb].
    destruct (dgtb _ (Finite MIN_OMWE_THRESH) && _);
      cbn [andb] in B |- *; rewrite ?B; fields; auto.
  - rewrite G, B, D. cbn [andb].
    apply record_envelope_point_cases in R2. cbv zeta in R2.
    destruct R2 as (a & o & Wo & Wa & ->). fields.
    pose proof (record_peak_time_previous _ _ _ R1) as E1.
    apply record_peak_time_envelope in R1 as (Ea & Eo & Ep).
    fields in E1. fields in Ea. fields in Eo. fields in Ep.
    rewrite Eo, Ep, E1, Ro, Rp, Rprev in Wo.
    rewrite Ea, Ep, Ra, Rp in Wa.
    rewrite Ep, Rp. auto.
Qed.

(** ** Before the button is pressed *)

Lemma nothing_recorded_step (s : state) (e : event) (s' : state) :
  (active_recordflag s = false -> nothing_recorded s) ->
  exec s e = Some s' ->
  active_recordflag s' = false -> nothing_recorded s'.
Proof.
  intros J E A'. pose proof (exec_peak _ _ _ E) as K.
  destruct e as [x| |v]; cbn [exec] in E.
  - destruct (measure_pressure s x) as [[s1 d]|] eqn:M; [|discriminate].
    injection E as <-.
    pose proof (measure_pressure_point _ _ _ _ M) as V.
    apply measure_pressure_summary in M. cbv zeta in M.
    destruct M as (_ & Ea & _ & _ & _ & _ & _ & _ & _ & _ & Ee & Ed & Ep).
    rewrite A' in Ea. symmetry in Ea.
    apply orb_false_iff in Ea as [Eb Ea].
    destruct (J Ea) as (P & Q & D & Pv & Pk & Mp & En).
    assert (G : gate_open s x = false)
      by (unfold gate_open; rewrite Eb, Ea; reflexivity).
    unfold records_point in V. rewrite G in V, Ed, Ep. cbn [andb] in V.
    destruct V as (_ & _ & Vp & _ & Vq).
    rewrite A', En in Ee. cbn in Ee.
    unfold nothing_recorded. rewrite Vp, Vq, Ed, Ep, Ee.
    destruct K as [(-> & ->)|(x' & _ & C & _)].
    + auto 10.
    + rewrite Ed, D, Pk in C. discriminate C.
  - injection E as <-.
    destruct (tick_data s) as (_ & _ & _ & Tp & _ & Tq & Tk & Tm & _).
    destruct (tick_flags s) as (Ta & _ & Te & _ & Td & Tv & _).
    cbv zeta in *. rewrite Ta in A'. unfold nothing_recorded.
    rewrite Tp, Tq, Tk, Tm, Te, Td, Tv. exact (J A').
  - injection E as <-. exact (J A').
Qed.

(** X3. Until the USER button has been pressed nothing is recorded: along
    every run from the initial state, as long as the recording flag is
    still off there is no envelope point and no peak time, the amplitudes
    and the MAP value are still zero and the recording has not ended. *)
Theorem nothing_recorded_before_button (evs : list event) (s : state) :
  run initial_state evs = Some s ->
  active_recordflag s = false ->
  nothing_recorded s.
Proof.
  intros R.
  apply (run_invariant
           (fun s => active_recordflag s = false -> nothing_recorded s)
           nothing_recorded_step evs initial_state s); [|exact R].
  intros _. unfold nothing_recorded. cbn. auto 10.
Qed.

Lemma nothing_recorded_before_button_witness :
  nothing_recorded (state_after demo_caliberation).
Proof.
  apply (nothing_recorded_before_button demo_caliberation).
  - vm_compute. reflexivity.
  - vm_compute. reflexivity.
Defined.

(** ** The empty window *)

Lemma normalized_finite (w : list Q) :
  length w = 5%nat -> nonzero_slots w <> [] ->
  exists m, calculate_normalized_pressure (map Finite w) = Finite m.
Proof.
  intros L NE. pose proof (Qcount_pos _ NE) as P.
  unfold calculate_normalized_pressure.
  rewrite normalize_loop_slots by (rewrite length_map; exact L).
  destruct (fold_slots w 0 0) as (a' & c' & F & _ & Hc). rewrite F.
  unfold ddiv. destruct (Qeq_bool c' 0) eqn:E.
  - apply Qeq_bool_eq in E. lra.
  - eexists. reflexivity.
Qed.

(** X4. The normalized pressure of a window of five finite slots is NaN
    exactly when all five are zero (the initial fill, or five readings equal
    to the calibrated zero).  A call that finds it NaN records nothing,
    leaves both amplitudes alone and neither ends the recording nor raises
    the release indicator, whatever the reading is. *)
Theorem empty_window_call :
  (forall w,
     length w = 5%nat ->
     (calculate_normalized_pressure (map Finite w) = NaN
      <-> nonzero_slots w = []))
  /\
  (forall s x s' d,
     calculate_normalized_pressure (buffer_queue s) = NaN ->
     measure_pressure s x = Some (s', d) ->
     omwebuffer_pointer s' = omwebuffer_pointer s
     /\ omwetime_buffer_pointer s' = omwetime_buffer_pointer s
     /\ omwegraph_absicissa_buffer s' = omwegraph_absicissa_buffer s
     /\ omwegraph_ordinate_buffer s' = omwegraph_ordinate_buffer s
     /\ omwe_buffer_time s' = omwe_buffer_time s
     /\ pressure_diff s' = pressure_diff s
     /\ previous_pressure_diff s' = previous_pressure_diff s
     /\ end_record s' = end_record s
     /\ max_pressure s' = max_pressure s).
Proof.
  split.
  - intros w L. split.
    + intros N. destruct (nonzero_slots w) as [|q r] eqn:E; [reflexivity|].
      destruct (normalized_finite w L) as (m & F); [congruence|].
      congruence.
    + intros E. unfold calculate_normalized_pressure.
      rewrite (normalize_loop_count_zero w L E). reflexivity.
  - intros s x s' d N M.
    pose proof (measure_pressure_point _ _ _ _ M) as V.
    apply measure_pressure_summary in M. cbv zeta in M.
    destruct M as (_ & _ & _ & _ & _ & _ & _ & _ & _ & Em & Ee & Ed & Ep).
    assert (A : amplitude_of s x = NaN).
    { unfold amplitude_of. rewrite N.
      destruct (pressure_value_of s x); reflexivity. }
    assert (G : gate_open s x = false)
      by (unfold gate_open; rewrite A; apply andb_false_r).
    unfold records_point in V. rewrite G in V, Ed, Ep. cbn [andb] in V.
    rewrite N in Em, Ee. cbn [dgtb dltb] in Em, Ee.
    rewrite andb_false_r, orb_false_r in Ee. rewrite orb_false_r in Em.
    destruct V as (Va & Vo & Vp & Vt & Vq). auto 10.
Qed.

Lemma empty_window_call_witness :
  omwebuffer_pointer (state_after [Sample (reading true 1537911 0)])
  = omwebuffer_pointer initial_state
  /\ end_record (state_after [Sample (reading true 1537911 0)])
     = end_record initial_state.
Proof.
  destruct (proj2 empty_window_call initial_state
              (reading true 1537911 0)
              (state_after [Sample (reading true 1537911 0)]) 1537911%Z)
    as (P & _ & _ & _ & _ & _ & _ & E & _).
  - vm_compute. reflexivity.
  - vm_compute. reflexivity.
  - split; [exact P|exact E].
Defined.

(** ** The smoothing window as a circular queue *)

Lemma exec_window (s : state) (e : event) (s' : state) :
  exec s e = Some s' ->
  match e with
  | Sample x =>
      buffer_queue s'
      = aset (buffer_queue s) (Z.to_nat (Z.rem (iteration s) 5))
          (pressure_value_of s x)
      /\ (0 <= Z.rem (iteration s) 5 < Z.of_nat (length (buffer_queue s)))%Z
      /\ iteration s' = (iteration s + 1)%Z
  | _ => buffer_queue s' = buffer_queue s /\ iteration s' = iteration s
  end.
Proof.
  intros E. destruct e as [x| |v]; cbn [exec] in E.
  - destruct (measure_pressure s x) as [[s1 d]|] eqn:M; [|discriminate].
    injection E as <-.
    apply measure_pressure_summary in M. cbv zeta in M.
    destruct M as (_ & _ & _ & _ & _ & _ & Ei & Eb & Er & _). auto.
  - injection E as <-.
    destruct (tick_data s) as (Tb & _ & _ & _ & _ & _ & _ & _ & Ti & _). auto.
  - injection E as <-. auto.
Qed.

Lemma slot_kept (rest : list event) : forall (s s' : state) (k : Z),
  run s rest = Some s' ->
  (0 <= k < iteration s)%Z ->
  (iteration s + samples_taken rest <= k + 5)%Z ->
  aread (buffer_queue s') (Z.rem k 5) = aread (buffer_queue s) (Z.rem k 5).
Proof.
  induction rest as [|e rest IH]; intros s s' k R K B.
  - injection R as <-. reflexivity.
  - cbn [run] in R. destruct (exec s e) as [s1|] eqn:E; [|discriminate].
    pose proof (samples_taken_nonneg rest) as N.
    apply exec_window in E. destruct e as [x| |v]; cbn [samples_taken] in B.
    + destruct E as (Eb & Er & Ei).
      rewrite (IH s1 s' k R) by lia. rewrite Eb. unfold aread.
      apply aget_aset_neq.
      rewrite !Z.rem_mod_nonneg in * by lia.
      intros C. apply Z2Nat.inj in C;
        try (apply Z.mod_pos_bound; lia).
      assert (D : ((iteration s - k) mod 5 = 0)%Z).
      { rewrite Zminus_mod, C, Z.sub_diag. reflexivity. }
      apply Z.mod_divide in D; [|lia]. destruct D as [q D]. lia.
    + destruct E as (Eb & Ei). rewrite (IH s1 s' k R) by lia.
      rewrite Eb. reflexivity.
    + destruct E as (Eb & Ei). rewrite (IH s1 s' k R) by lia.
      rewrite Eb. reflexivity.
Qed.

(** X5. The window is a circular queue of the latest five readings: a call
    stores its pressure value in slot [iteration % 5], and the value is
    still there after any further events that hold at most four more
    calls. *)
Theorem window_keeps_latest_readings
    (s : state) (x : sample) (rest : list event) (s' : state) :
  (0 <= iteration s)%Z ->
  run s (Sample x :: rest) = Some s' ->
  (samples_taken rest <= 4)%Z ->
  aread (buffer_queue s') (Z.rem (iteration s) 5) = pressure_value_of s x.
Proof.
  intros I R B. cbn [run] in R.
  destruct (exec s (Sample x)) as [s1|] eqn:E; [|discriminate].
  apply exec_window in E as (Eb & Er & Ei).
  rewrite (slot_kept rest s1 s' (iteration s) R) by lia.
  rewrite Eb. unfold aread. apply aget_aset_eq. lia.
Qed.

Lemma window_keeps_latest_readings_witness :
  aread (buffer_queue (state_after demo_events))
    (Z.rem (iteration (state_after (firstn 108 demo_events))) 5)
  = pressure_value_of (state_after (firstn 108 demo_events))
      (reading true 1582650 3260).
Proof.
  refine (window_keeps_latest_readings
            (state_after (firstn 108 demo_events))
            (reading true 1582650 3260) (skipn 109 demo_events)
            (state_after demo_events) _ _ _);
    vm_compute; try reflexivity; discriminate.
Defined.

(** ** Ranges of the amplitudes, the MAP value and the envelope points *)

Lemma dabs_below (v : double) (b : Q) :
  dltb (dabs v) (Finite b) = true ->
  exists q, dabs v = Finite q /\ 0 <= q < b.
Proof.
  destruct v as [q|]; cbn [dabs dltb]; [|discriminate].
  intros H. apply Qlt_bool_iff in H. exists (Qabs q).
  split; [reflexivity|]. split; [apply Qabs_nonneg|exact H].
Qed.

Lemma amplitude_nonneg (s : state) (x : sample) (q : Q) :
  amplitude_of s x = Finite q -> 0 <= q.
Proof.
  unfold amplitude_of. destruct (dsub _ _) as [v|]; cbn [dabs];
    [|discriminate].
  intros E. injection E as <-. apply Qabs_nonneg.
Qed.

Lemma amplitudes_bounded_step (s : state) (e : event) (s' : state) :
  amplitudes_bounded s -> exec s e = Some s' -> amplitudes_bounded s'.
Proof.
  intros (D & P & k & Ek & Bk & K) E. pose proof (exec_peak _ _ _ E) as X.
  assert (DP : (exists q, pressure_diff s' = Finite q /\ 0 <= q < 12)
               /\ (exists q, previous_pressure_diff s' = Finite q
                             /\ 0 <= q < 12)).
  { destruct e as [x| |v]; cbn [exec] in E.
    - destruct (measure_pressure s x) as [[s1 d]|] eqn:M; [|discriminate].
      injection E as <-.
      apply measure_pressure_summary in M. cbv zeta in M.
      destruct M as (_ & _ & _ & _ & _ & _ & _ & _ & _ & _ & _ & Ed & Ep).
      rewrite Ed, Ep. unfold gate_open.
      destruct (dltb (amplitude_of s x) (Finite 12)) eqn:G;
        [|rewrite andb_false_r; auto].
      destruct (_ || _); cbn [andb]; [|auto].
      unfold amplitude_of in *. apply dabs_below in G. auto.
    - injection E as <-.
      destruct (tick_flags s) as (_ & _ & _ & _ & -> & -> & _). auto.
    - injection E as <-. auto. }
  destruct DP as [D' P']. split; [exact D'|]. split; [exact P'|].
  destruct X as [(Xk & Xm)|(x & _ & G & L & U & Xk & Xm)].
  - exists k. rewrite Xk, Xm. auto.
  - destruct D' as (q & Eq & Bq). rewrite Eq, Ek in G.
    cbn [dgtb dltb] in G. apply Qlt_bool_iff in G.
    exists q. rewrite Xk, Xm, Eq. split; [reflexivity|]. split; [exact Bq|].
    right. split; [lra|]. split; [exact L|exact U].
Qed.

(** X6. Along every run from the initial state the amplitudes stay in
    [0, 12), the recorded best amplitude included, and the MAP value is 0
    as long as the best amplitude is 0 and strictly between 70.0 and 110.0
    from then on. *)
Theorem amplitudes_and_MAP_in_range (evs : list event) (s : state) :
  run initial_state evs = Some s -> amplitudes_bounded s.
Proof.
  intros R.
  apply (run_invariant amplitudes_bounded amplitudes_bounded_step
           evs initial_state s); [|exact R].
  unfold amplitudes_bounded. cbn.
  split; [exists 0; split; [reflexivity|lra]|].
  split; [exists 0; split; [reflexivity|lra]|].
  exists 0. split; [reflexivity|]. split; [lra|]. left. auto.
Qed.

Lemma amplitudes_and_MAP_in_range_witness :
  amplitudes_bounded (state_after demo_events).
Proof.
  apply (amplitudes_and_MAP_in_range demo_events).
  vm_compute. reflexivity.
Defined.

Lemma envelope_points_step (s : state) (e : event) (s' : state) :
  amplitudes_bounded s /\ envelope_points_bounded s ->
  exec s e = Some s' ->
  amplitudes_bounded s' /\ envelope_points_bounded s'.
Proof.
  intros [A [P0 I]] E.
  split; [exact (amplitudes_bounded_step _ _ _ A E)|].
  destruct A as (_ & (p & Ep & Bp) & _).
  destruct e as [x| |v]; cbn [exec] in E.
  - destruct (measure_pressure s x) as [[s1 d]|] eqn:M; [|discriminate].
    injection E as <-.
    apply measure_pressure_point in M.
    destruct (records_point s x) eqn:R.
    + destruct M as (Wa & Wo & Eq).
      unfold records_point in R.
      apply andb_true_iff in R as [R Dc].
      apply andb_true_iff in R as [_ B].
      apply andb_true_iff in B as [L U].
      rewrite Ep in Dc.
      destruct (amplitude_of s x) as [a|] eqn:Ea; [|discriminate Dc].
      cbn [dltb] in Dc. apply Qlt_bool_iff in Dc.
      pose proof (amplitude_nonneg _ _ _ Ea) as Na.
      split; [rewrite Eq; lia|]. rewrite Eq. intros i Hi.
      destruct (Z.eq_dec i (omwebuffer_pointer s)) as [->|N].
      * rewrite (aread_awrite_eq _ _ _ _ Wa), (aread_awrite_eq _ _ _ _ Wo).
        split; [exact L|]. split; [exact U|].
        exists p. split; [exact Ep|lra].
      * rewrite (aread_awrite_neq _ _ _ _ _ Wa),
          (aread_awrite_neq _ _ _ _ _ Wo) by lia.
        apply I. lia.
    + destruct M as (Ma & Mo & Mp & _). unfold envelope_points_bounded.
      rewrite Ma, Mo, Mp. split; assumption.
  - injection E as <-.
    destruct (tick_data s) as (_ & Ta & To & Tp & _). cbv zeta in *.
    unfold envelope_points_bounded. rewrite Ta, To, Tp. split; assumption.
  - injection E as <-. split; assumption.
Qed.

Lemma nth_map_seq {A : Type} (f : nat -> A) (n i : nat) (d : A) :
  (i < n)%nat -> nth i (map f (seq 0 n)) d = f i.
Proof.
  intros H. rewrite (nth_indep _ d (f 0%nat)) by (rewrite length_map, length_seq; exact H).
  rewrite map_nth, seq_nth by exact H. reflexivity.
Qed.

Lemma envelope_of_holds (s : state) :
  envelope_points_bounded s -> holds_envelope s (envelope_of s).
Proof.
  intros [P I]. unfold holds_envelope, points, envelope_of.
  rewrite length_map, length_seq, Z2Nat.id by exact P.
  split; [reflexivity|]. intros i Hi.
  destruct (I (Z.of_nat i)) as (L & _ & o & Eo & _); [lia|].
  unfold aread in *. rewrite Nat2Z.id in *.
  rewrite aget_abscissas, aget_ordinates, nth_map_seq by exact Hi.
  cbn [fst snd]. rewrite Eo. cbn [qval].
  unfold dgtb in L. destruct (dltb_finite _ _ L) as (l0 & a & _ & -> & _).
  cbn [qval]. auto.
Qed.

(** X7. In every state a run from the initial state reaches, the recorded
    envelope is a sequence of finite points with abscissas strictly between
    70.0 and 160.0 and ordinates strictly between 0 and 12, and the result
    of [Systolic_and_diastolic_bp_calculator] on the state is the estimate
    for that sequence and the recorded best amplitude. *)
Theorem recorded_envelope_is_estimated (evs : list event) (s : state) :
  run initial_state evs = Some s ->
  holds_envelope s (envelope_of s)
  /\ (forall e, In e (envelope_of s) ->
        70 < fst e < 160 /\ 0 < snd e < 12)
  /\ exists peak,
       peak_pressure_diff s = Finite peak /\ 0 <= peak < 12
       /\ Systolic_and_diastolic_bp_calculator s
          = estimate (envelope_of s) peak.
Proof.
  intros R.
  assert (H : amplitudes_bounded s /\ envelope_points_bounded s).
  { apply (run_invariant
             (fun s => amplitudes_bounded s /\ envelope_points_bounded s)
             envelope_points_step evs initial_state s); [|exact R].
    split.
    - unfold amplitudes_bounded. cbn.
      split; [exists 0; split; [reflexivity|lra]|].
      split; [exists 0; split; [reflexivity|lra]|].
      exists 0. split; [reflexivity|]. split; [lra|]. left. auto.
    - split; cbn; [lia|]. intros i Hi. lia. }
  destruct H as [(_ & _ & k & Ek & Bk & _) E].
  pose proof (envelope_of_holds s E) as Hd.
  split; [exact Hd|]. split.
  - intros e He. unfold envelope_of in He.
    apply in_map_iff in He as (i & <- & Hi). apply in_seq in Hi.
    destruct E as [P I].
    destruct (I (Z.of_nat i)) as (L & U & o & Eo & Bo); [lia|].
    unfold aread in *. rewrite Nat2Z.id in *. cbn [fst snd].
    rewrite Eo. cbn [qval]. unfold dgtb in L.
    destruct (dltb_finite _ _ L) as (l0 & a & _ & Ea & _).
    rewrite Ea in U, L |- *. cbn [qval dltb] in U, L |- *.
    apply Qlt_bool_iff in U. apply Qlt_bool_iff in L. auto.
  - exists k. split; [exact Ek|]. split; [exact Bk|].
    apply estimate_of_state; assumption.
Qed.

Lemma recorded_envelope_is_estimated_witness :
  holds_envelope (state_after demo_events)
    (envelope_of (state_after demo_events))
  /\ length (envelope_of (state_after demo_events)) = 3%nat.
Proof.
  split.
  - apply (recorded_envelope_is_estimated demo_events).
    vm_compute. reflexivity.
  - vm_compute. reflexivity.
Defined.

(** ** Which entries the estimator selects *)

Section FirstClosest.

Variable env : list (Q * Q).
Variables lo hi : Q.
Variables target' target : Q.
Hypothesis target_eq : target' == target.
Variable init : Q.

Local Abbreviation point i := (nth i env (0, 0)).
Local Abbreviation residual i := (Qabs (snd (point i) - target)).




End FirstClosest.






(** ** The range of the pulse *)

Lemma sum_strictly_between (lo hi : Q) (l : list Q) :
  l <> [] -> (forall x, In x l -> lo < x < hi) ->
  lo * Qcount l < Qsum l < hi * Qcount l.
Proof.
  induction l as [|x l IH]; [congruence|]. intros _ B.
  rewrite Qcount_cons. cbn [Qsum fold_right]. fold (Qsum l).
  assert (lo < x < hi) by (apply B; left; reflexivity).
  destruct l as [|y l].
  - change (Qcount []) with 0. change (Qsum []) with 0. lra.
  - assert (lo * Qcount (y :: l) < Qsum (y :: l) < hi * Qcount (y :: l)).
    { apply IH; [discriminate|]. intros z Hz. apply B. right. exact Hz. }
    lra.
Qed.

(** The record [measure_pulse] returns when some interval is kept. *)
Lemma pulse_estimate_kept (ts : list Q) :
  kept_intervals ts <> [] ->
  pulse_data_count (pulse_estimate ts)
  = Z.of_nat (length (kept_intervals ts))
  /\ exists p, pulse_value (pulse_estimate ts) = Finite p
       /\ p == 60000 / arithmetic_mean (kept_intervals ts).
Proof.
  intros NE.
  unfold pulse_estimate, pulse_calculator. rewrite pulse_loop_intervals.
  destruct (fold_keep (intervals ts) 0 0%Z) as (v & F & E). rewrite F.
  fold (kept_intervals ts) in *. rewrite Z.add_0_l.
  assert (Ev : v == Qsum (kept_intervals ts)) by (rewrite E; ring).
  pose proof (Qsum_positive _ NE (kept_positive ts)) as PS.
  pose proof (Qcount_pos _ NE) as PC.
  assert (Nz : (Z.of_nat (length (kept_intervals ts)) =? 0)%Z = false).
  { apply Z.eqb_neq. destruct (kept_intervals ts); [congruence|].
    cbn [length]. lia. }
  rewrite Nz. cbn [negb pulse_data_count pulse_value].
  unfold of_int. fold (Qcount (kept_intervals ts)).
  assert (PM : 0 < v / Qcount (kept_intervals ts)).
  { apply Qlt_shift_div_l; [exact PC|]. lra. }
  unfold ddiv.
  destruct (Qeq_bool (Qcount (kept_intervals ts)) 0) eqn:C0;
    [apply Qeq_bool_eq in C0; lra|].
  destruct (Qeq_bool (v / Qcount (kept_intervals ts)) 0) eqn:C1;
    [apply Qeq_bool_eq in C1; lra|].
  cbn [dmul]. split; [reflexivity|]. eexists. split; [reflexivity|].
  unfold arithmetic_mean. rewrite Ev. field. split; lra.
Qed.

Lemma pulse_estimate_none (ts : list Q) :
  kept_intervals ts = [] ->
  pulse_data_count (pulse_estimate ts) = 0%Z
  /\ pulse_value (pulse_estimate ts) = Finite (-1).
Proof.
  intros K.
  unfold pulse_estimate, pulse_calculator. rewrite pulse_loop_intervals.
  destruct (fold_keep (intervals ts) 0 0%Z) as (v & F & E). rewrite F.
  fold (kept_intervals ts) in *. rewrite K. cbn. auto.
Qed.


(** The pulse for kept intervals that all exceed [lo] (at least 400 ms). *)
Lemma pulse_below (ts : list Q) (lo : Q) :
  60000 / 150 <= lo ->
  kept_intervals ts <> [] ->
  (forall d, In d (kept_intervals ts) -> lo < d) ->
  exists p, pulse_value (pulse_estimate ts) = Finite p
    /\ 35 < p < 60000 / lo.
Proof.
  intros Lo NE B.
  destruct (pulse_estimate_kept ts NE) as (_ & p & Ep & Hp).
  exists p. split; [exact Ep|].
  assert (Lo' : 0 < lo) by (assert (0 < 60000 / 150) by reflexivity; lra).
  assert (R : forall d, In d (kept_intervals ts) -> lo < d < 60000 / 35).
  { intros d Hd. split; [apply B, Hd|].
    apply filter_In in Hd as [_ Hd].
    apply andb_true_iff in Hd as [_ U]. apply Qlt_bool_iff in U. exact U. }
  pose proof (sum_strictly_between _ _ _ NE R) as [S1 S2].
  pose proof (Qcount_pos _ NE) as PC.
  assert (M1 : lo < arithmetic_mean (kept_intervals ts)).
  { unfold arithmetic_mean. apply Qlt_shift_div_l; assumption. }
  assert (M2 : arithmetic_mean (kept_intervals ts) < 60000 / 35).
  { unfold arithmetic_mean. apply Qlt_shift_div_r; assumption. }
  set (m := arithmetic_mean (kept_intervals ts)) in *.
  assert (Pm : 0 < m) by lra.
  rewrite Hp. split.
  - apply Qlt_shift_div_l; [exact Pm|].
    assert (E35 : 60000 / 35 == 12000 # 7) by reflexivity. lra.
  - apply Qlt_shift_div_r; [exact Pm|].
    assert (E : 60000 / lo * m == 60000 * (m / lo)) by (field; lra).
    rewrite E.
    assert (1 < m / lo) by (apply Qlt_shift_div_l; lra). lra.
Qed.


Lemma intervals_nth (ts : list Q) (d : Q) :
  In d (intervals ts) ->
  exists i, (S i < length ts)%nat /\ d = nth (S i) ts 0 - nth i ts 0.
Proof.
  induction ts as [|a [|b r] IH]; [intros []|intros []|].
  intros [<-|H].
  - exists 0%nat. cbn [length nth]. split; [lia|reflexivity].
  - destruct (IH H) as (i & Hi & E). exists (S i).
    cbn [length] in *. split; [lia|]. exact E.
Qed.

Lemma peak_times_of_holds (s : state) :
  (0 <= omwetime_buffer_pointer s)%Z ->
  times_spaced s ->
  holds_peak_times s (peak_times_of s)
  /\ forall i, (i < length (peak_times_of s))%nat ->
       exists t, aread (omwe_buffer_time s) (Z.of_nat i) = of_int t
                 /\ nth i (peak_times_of s) 0 = inject_Z t.
Proof.
  intros P [Fin _]. unfold holds_peak_times, peak_times_of.
  rewrite length_map, length_seq, Z2Nat.id by exact P.
  assert (A : forall i, (i < Z.to_nat (omwetime_buffer_pointer s))%nat ->
            exists t, aread (omwe_buffer_time s) (Z.of_nat i) = of_int t
              /\ nth i (map (fun i => qval (aget (omwe_buffer_time s) i))
                          (seq 0 (Z.to_nat (omwetime_buffer_pointer s)))) 0
                 = inject_Z t).
  { intros i Hi. destruct (Fin (Z.of_nat i)) as (t & Et); [lia|].
    exists t. split; [exact Et|].
    rewrite nth_map_seq by exact Hi.
    unfold aread in Et. rewrite Nat2Z.id in Et. rewrite Et. reflexivity. }
  split; [|exact A]. split; [reflexivity|].
  intros i Hi. destruct (A i Hi) as (t & Et & En).
  unfold aget at 2. change (Finite 0) with (Finite 0%Q).
  rewrite (map_nth Finite), En.
  unfold aread in Et. rewrite Nat2Z.id in Et. exact Et.
Qed.

(** X10. In a session the 500 ms spacing of the peak times caps the pulse:
    with a clock that never runs backwards, the pulse [measure_pulse]
    computes from the recorded peak times of a run is -1 with count 0, or
    lies strictly between 35 and 120 bpm. *)
Theorem session_pulse_below_120 (evs : list event) (s : state) :
  clock_monotonic evs ->
  run initial_state evs = Some s ->
  measure_pulse s = pulse_estimate (peak_times_of s)
  /\ ((pulse_data_count (measure_pulse s) = 0%Z
       /\ pulse_value (measure_pulse s) = Finite (-1))
      \/ exists p, pulse_value (measure_pulse s) = Finite p
                   /\ 35 < p < 120).
Proof.
  intros C R.
  assert (T : times_spaced s).
  { apply (run_invariant_on well_clocked times_spaced times_spaced_step
             evs initial_state s); auto using times_spaced_initial.
    apply clock_monotonic_well_clocked, C. }
  assert (W : well_formed s)
    by (apply (run_invariant well_formed well_formed_step
                 evs initial_state s well_formed_initial R)).
  destruct W as (_ & _ & _ & _ & [P _] & _).
  destruct (peak_times_of_holds s P T) as [H N].
  pose proof (measure_pulse_of_state s _ H) as E.
  split; [exact E|]. rewrite E.
  destruct (kept_intervals (peak_times_of s)) as [|d k] eqn:K.
  - left. exact (pulse_estimate_none _ K).
  - right. assert (NE : kept_intervals (peak_times_of s) <> [])
      by congruence.
    destruct (pulse_below (peak_times_of s) 500) as (p & Ep & Bp);
      [assert (60000 / 150 == 400) by reflexivity; lra|exact NE| |].
    + intros x Hx. apply filter_In in Hx as [Hx _].
      apply intervals_nth in Hx as (i & Hi & ->).
      destruct (N i) as (a & Ea & ->); [lia|].
      destruct (N (S i)) as (b & Eb & ->); [lia|].
      rewrite inject_Z_sub. change 500 with (inject_Z 500).
      rewrite <- Zlt_Qlt.
      assert (a + 500 < b)%Z; [|lia].
      unfold holds_peak_times in H. destruct H as [Hp _].
      apply (proj2 T (Z.of_nat i) a b); try lia.
      * exact Ea.
      * replace (Z.of_nat i + 1)%Z with (Z.of_nat (S i)) by lia. exact Eb.
    + exists p. split; [exact Ep|].
      assert (60000 / 500 == 120) by reflexivity. lra.
Qed.

Lemma session_pulse_below_120_witness :
  measure_pulse (state_after demo_events)
  = pulse_estimate (peak_times_of (state_after demo_events))
  /\ ((pulse_data_count (measure_pulse (state_after demo_events)) = 0%Z
       /\ pulse_value (measure_pulse (state_after demo_events))
          = Finite (-1))
      \/ exists p,
           pulse_value (measure_pulse (state_after demo_events)) = Finite p
           /\ 35 < p < 120).
Proof.
  apply (session_pulse_below_120 demo_events).
  - vm_compute. repeat split; discriminate.
  - vm_compute. reflexivity.
Defined.

(** ** A regular beat *)






(** ** When a call is undefined *)





(** ** [main] within the capacity of its arrays *)

Lemma caliberate_fold_defined (readings : nat -> sample) (l : list nat) :
  forall s acc,
    well_formed s -> (0 <= iteration s)%Z ->
    (iteration s + Z.of_nat (length l) <= 1000)%Z ->
    exists c,
      fold_left (caliberate_body readings) l (Some (s, acc)) = Some c
      /\ well_formed (fst c)
      /\ iteration (fst c) = (iteration s + Z.of_nat (length l))%Z.
Proof.
  induction l as [|i l IH]; intros s acc W I B.
  - eexists. split; [reflexivity|]. cbn. split; [exact W|lia].
  - cbn [length] in B. cbn [fold_left caliberate_body fst snd].
    destruct (measure_pressure_defined s (readings i) W) as ([s1 d] & M);
      [lia|].
    rewrite M. cbn [fst snd].
    assert (E : exec s (Sample (readings i)) = Some s1)
      by (cbn [exec]; rewrite M; reflexivity).
    pose proof (well_formed_step _ _ _ W E) as W1.
    pose proof (exec_iteration _ _ _ E) as I1. cbn [samples_taken] in I1.
    destruct (IH s1 ((acc + d) mod 2 ^ 32)%Z W1) as (c & F & Wc & Ic);
      [lia|lia|].
    exists c. split; [exact F|]. split; [exact Wc|].
    rewrite Ic. cbn [length]. lia.
Qed.

Lemma ticks_well_formed (n : nat) (s : state) :
  well_formed s ->
  well_formed (Nat.iter n check_pressure_gradient_ISR s)
  /\ iteration (Nat.iter n check_pressure_gradient_ISR s) = iteration s.
Proof.
  intros W. induction n as [|n [IW II]]; [auto|].
  rewrite Nat.iter_succ. split.
  - apply (well_formed_step _ Tick _ IW). reflexivity.
  - destruct (tick_data (Nat.iter n check_pressure_gradient_ISR s))
      as (_ & _ & _ & _ & _ & _ & _ & _ & Ti & _).
    cbv zeta in Ti. rewrite Ti. exact II.
Qed.

Lemma main_loop_defined (xs : list (nat * sample)) : forall s,
  well_formed s -> (0 <= iteration s)%Z ->
  (iteration s + Z.of_nat (length xs) <= 1000)%Z ->
  exists s', main_loop s xs = Some s'.
Proof.
  induction xs as [|[ticks x] xs IH]; intros s W I B;
    [eexists; reflexivity|].
  cbn [length] in B. cbn [main_loop].
  destruct (ticks_well_formed ticks s W) as [Wt It].
  destruct (end_record _); [eexists; reflexivity|].
  destruct (measure_pressure_defined _ x Wt) as ([s1 d] & M); [lia|].
  rewrite M. cbn [fst].
  assert (E : exec (Nat.iter ticks check_pressure_gradient_ISR s) (Sample x)
              = Some s1) by (cbn [exec]; rewrite M; reflexivity).
  pose proof (exec_iteration _ _ _ E) as I1. cbn [samples_taken] in I1.
  apply IH; [exact (well_formed_step _ _ _ Wt E)|lia|lia].
Qed.

(** X12. [main] reaches the end of its sampling loop without overrunning an
    array or the sample counter whenever the loop takes at most 900
    samples after the 100 of the calibration, whatever the sensor, the
    button, the timer and the ticker do. *)
Theorem session_defined (readings : nat -> sample)
    (xs : list (nat * sample)) :
  (length xs <= 900)%nat ->
  exists s, session readings xs = Some s.
Proof.
  intros L. unfold session, auto_caliberate.
  destruct (caliberate_fold_defined readings (seq 0 100) initial_state 0%Z
              well_formed_initial) as (c & F & Wc & Ic);
    [cbn; lia|cbn; lia|].
  rewrite F. rewrite length_seq in Ic. cbn [iteration initial_state] in Ic.
  apply main_loop_defined.
  - exact Wc.
  - fields. lia.
  - fields. lia.
Qed.

Lemma session_defined_witness :
  exists s, session demo_readings demo_samples = Some s.
Proof.
  apply (session_defined demo_readings demo_samples).
  cbn. lia.
Defined.

(** ** Calibration *)

Lemma caliberate_fold_sum (readings : nat -> sample) (l : list nat) :
  forall s acc c,
    fold_left (caliberate_body readings) l (Some (s, acc)) = Some c ->
    (forall i, In i l -> bytes_in_range (readings i)) ->
    (0 <= acc)%Z ->
    (acc + 16777216 * Z.of_nat (length l) <= 2 ^ 32)%Z ->
    snd c = (acc + Zsum (map (fun i => pressure_data_of (readings i)) l))%Z
    /\ (snd c <= acc + 16777215 * Z.of_nat (length l))%Z
    /\ (acc <= snd c)%Z.
Proof.
  induction l as [|i l IH]; intros s acc c F B A U.
  - injection F as <-. cbn. lia.
  - cbn [fold_left caliberate_body fst snd] in F.
    destruct (measure_pressure s (readings i)) as [[s1 d]|] eqn:M;
      [|rewrite caliberate_fold_none in F; discriminate].
    cbn [fst snd] in F.
    apply measure_pressure_cases in M. cbv zeta in M.
    destruct M as (_ & _ & _ & _ & _ & ->).
    destruct (B i (or_introl eq_refl)) as (B1 & B2 & B3).
    pose proof (pressure_data_of_bytes _ B1 B2 B3) as E.
    cbn [length] in U.
    assert (R : (0 <= pressure_data_of (readings i) < 16777216)%Z) by lia.
    rewrite Z.mod_small in F by lia.
    destruct (IH _ _ _ F) as (S1 & S2 & S3);
      [intros j Hj; apply B; right; exact Hj|lia|lia|].
    cbn [map Zsum fold_right length].
    fold (Zsum (map (fun i => pressure_data_of (readings i)) l)). lia.
Qed.

(** X13. [auto_caliberate] sets the zero reference to the integer mean of
    its 100 readings: with proper data bytes the 32-bit sum does not wrap,
    [caliberated_MIN_OUT] is the sum of the 100 readings divided by 100, a
    24-bit value again, and afterwards a reading equal to it converts to
    0 mmHg. *)
Theorem calibration_is_mean (s : state) (readings : nat -> sample)
    (s' : state) :
  (forall i, (i < 100)%nat -> bytes_in_range (readings i)) ->
  auto_caliberate s readings = Some s' ->
  caliberated_MIN_OUT s' = (Zsum (caliberation_data readings) / 100)%Z
  /\ (0 <= caliberated_MIN_OUT s' < 16777216)%Z
  /\ forall x, pressure_data_of x = caliberated_MIN_OUT s' ->
       deq (pressure_value_of s' x) (Finite 0).
Proof.
  intros B A. unfold auto_caliberate in A.
  destruct (fold_left _ _ _) as [c|] eqn:F; [|discriminate].
  injection A as <-.
  destruct (caliberate_fold_sum readings (seq 0 100) _ _ _ F)
    as (S1 & S2 & S3).
  - intros i Hi. apply in_seq in Hi. apply B. lia.
  - lia.
  - rewrite length_seq. cbn. lia.
  - rewrite length_seq in S2. fields. rewrite Z.add_0_l in S1.
    unfold caliberation_data. rewrite <- S1.
    split; [reflexivity|]. split.
    + split; [apply Z.div_pos; lia|].
      apply Z.div_lt_upper_bound; lia.
    + intros x Hx. unfold pressure_value_of. fields. rewrite Hx.
      rewrite Z.sub_diag. cbn [of_int dmul deq]. ring.
Qed.

Lemma calibration_is_mean_witness :
  exists s',
    auto_caliberate initial_state demo_readings = Some s'
    /\ caliberated_MIN_OUT s'
       = (Zsum (caliberation_data demo_readings) / 100)%Z
    /\ caliberated_MIN_OUT s' = 419430%Z.
Proof.
  destruct (auto_caliberate initial_state demo_readings) as [s'|] eqn:A.
  - exists s'. split; [reflexivity|]. split.
    + apply (calibration_is_mean initial_state demo_readings s'); [|exact A].
      intros i Hi. unfold bytes_in_range, demo_readings, reading.
      cbn [data_byte1 data_byte2 data_byte3]. vm_compute.
      repeat split; discriminate.
    + revert A. vm_compute. intros A. injection A as <-. reflexivity.
  - exfalso. revert A. vm_compute. discriminate.
Defined.

(** ** The ticker does not reach the estimators *)

Lemma overlay_self (s : state) :
  overlay (release_rate s) (flux_warning s) s = s.
Proof. destruct s; reflexivity. Qed.

Lemma overlay_overlay (r r' : double) (w w' : bool) (s : state) :
  overlay r w (overlay r' w' s) = overlay r w s.
Proof. reflexivity. Qed.

Lemma tick_overlay (r : double) (w : bool) (s : state) :
  exists r' w', check_pressure_gradient_ISR (overlay r w s) = overlay r' w' s.
Proof.
  unfold check_pressure_gradient_ISR. cbv zeta. unfold overlay. fields.
  destruct (iteration s >? 5)%Z.
  - destruct (dgtb _ (Finite 4)); eexists; eexists; reflexivity.
  - exists r, w. reflexivity.
Qed.

Lemma read_sensor_overlay (r : double) (w : bool) (s : state) (x : sample) :
  read_sensor (overlay r w s) x = overlay r w (read_sensor s x).
Proof.
  unfold read_sensor, pressure_value_of, overlay.
  destruct (dataread_push_button x); reflexivity.
Qed.

Lemma track_envelope_overlay (r : double) (w : bool) (x : sample)
    (n : double) (s : state) :
  track_envelope x n (overlay r w s)
  = match track_envelope x n s with
    | Some s' => Some (overlay r w s')
    | None => None
    end.
Proof.
  unfold track_envelope, record_peak_time, record_envelope_point, overlay.
  cbv zeta. fields.
  destruct (active_recordflag s && _); [|reflexivity].
  destruct (dgtb n (Finite MIN_OMWE_THRESH) && _); [|reflexivity].
  destruct (dltb _ (previous_pressure_diff s)); [|reflexivity].
  destruct (omwetime_buffer_pointer s >? 0)%Z.
  - destruct (dgtb _ (Finite 500)).
    + destruct (awrite (omwe_buffer_time s) _ _); [|reflexivity]. fields.
      destruct (awrite (omwegraph_ordinate_buffer s) _ _); [|reflexivity].
      destruct (awrite (omwegraph_absicissa_buffer s) _ _); reflexivity.
    + fields.
      destruct (awrite (omwegraph_ordinate_buffer s) _ _); [|reflexivity].
      destruct (awrite (omwegraph_absicissa_buffer s) _ _); reflexivity.
  - destruct (awrite (omwe_buffer_time s) _ _); [|reflexivity]. fields.
    destruct (awrite (omwegraph_ordinate_buffer s) _ _); [|reflexivity].
    destruct (awrite (omwegraph_absicissa_buffer s) _ _); reflexivity.
Qed.

Lemma push_sample_overlay (r : double) (w : bool) (v : double) (s : state) :
  push_sample v (overlay r w s)
  = match push_sample v s with
    | Some s' => Some (overlay r w s')
    | None => None
    end.
Proof.
  unfold push_sample, overlay. fields.
  destruct (awrite _ _ _); [|reflexivity].
  destruct (iteration s =? LONG_MAX)%Z; reflexivity.
Qed.

Lemma closing_overlay (r : double) (w : bool) (n : double) (s : state) :
  update_indicators n (MAP_calculator (overlay r w s))
  = overlay r w (update_indicators n (MAP_calculator s)).
Proof.
  unfold update_indicators, MAP_calculator, overlay. cbv zeta. fields.
  destruct (dgtb (pressure_diff s) _ && _ && _);
    destruct (dgtb n (Finite 200)); fields;
    destruct (active_flag s && _); reflexivity.
Qed.

Lemma measure_pressure_overlay (r : double) (w : bool) (s : state)
    (x : sample) :
  measure_pressure (overlay r w s) x
  = match measure_pressure s x with
    | Some c => Some (overlay r w (fst c), snd c)
    | None => None
    end.
Proof.
  unfold measure_pressure. cbv zeta.
  rewrite read_sensor_overlay.
  change (buffer_queue (overlay r w (read_sensor s x)))
    with (buffer_queue (read_sensor s x)).
  change (pressure_value_of (overlay r w s) x) with (pressure_value_of s x).
  rewrite track_envelope_overlay.
  destruct (track_envelope _ _ _) as [s1|]; [|reflexivity].
  rewrite push_sample_overlay.
  destruct (push_sample _ _) as [s2|]; [|reflexivity].
  rewrite closing_overlay. reflexivity.
Qed.

Lemma run_overlay (evs : list event) : forall r w s s1,
  run (overlay r w s) evs = Some s1 ->
  exists s2 r' w',
    run s (without_ticks evs) = Some s2 /\ s1 = overlay r' w' s2.
Proof.
  induction evs as [|e evs IH]; intros r w s s1 R.
  - injection R as <-. exists s, r, w. split; reflexivity.
  - destruct e as [x| |v]; cbn [run exec without_ticks] in *.
    + rewrite measure_pressure_overlay in R.
      destruct (measure_pressure s x) as [[s' d]|]; [|discriminate].
      cbn [fst snd] in *. exact (IH _ _ _ _ R).
    + destruct (tick_overlay r w s) as (r' & w' & E). rewrite E in R.
      exact (IH _ _ _ _ R).
    + change (set_caliberated_MIN_OUT v (overlay r w s))
        with (overlay r w (set_caliberated_MIN_OUT v s)) in R.
      exact (IH _ _ _ _ R).
Qed.

(** X14. The ticker cannot change a result.  Whenever and however often the
    gradient monitor fires during a run, the run without those firings is
    defined as well and ends in a state that differs at most in
    [release_rate] and [flux_warning]: both estimators return the same
    records, and the MAP value, the best amplitude and the end-of-recording
    flag are the same. *)
Theorem ticker_does_not_change_results
    (evs : list event) (s s1 : state) :
  run s evs = Some s1 ->
  exists s2 r w,
    run s (without_ticks evs) = Some s2
    /\ s1 = overlay r w s2
    /\ Systolic_and_diastolic_bp_calculator s1
       = Systolic_and_diastolic_bp_calculator s2
    /\ measure_pulse s1 = measure_pulse s2
    /\ Mean_Arterial_Pressure s1 = Mean_Arterial_Pressure s2
    /\ peak_pressure_diff s1 = peak_pressure_diff s2
    /\ end_record s1 = end_record s2.
Proof.
  intros R. rewrite <- (overlay_self s) in R.
  destruct (run_overlay evs _ _ _ _ R) as (s2 & r & w & R2 & ->).
  exists s2, r, w. repeat split; try exact R2; reflexivity.
Qed.

Lemma ticker_does_not_change_results_witness :
  exists s2 r w,
    run initial_state (without_ticks demo_events) = Some s2
    /\ state_after demo_events = overlay r w s2
    /\ Systolic_and_diastolic_bp_calculator (state_after demo_events)
       = Systolic_and_diastolic_bp_calculator s2
    /\ measure_pulse (state_after demo_events) = measure_pulse s2
    /\ Mean_Arterial_Pressure (state_after demo_events)
       = Mean_Arterial_Pressure s2
    /\ peak_pressure_diff (state_after demo_events) = peak_pressure_diff s2
    /\ end_record (state_after demo_events) = end_record s2.
Proof.
  apply (ticker_does_not_change_results demo_events initial_state).
  vm_compute. reflexivity.
Defined.

(** ** The recorded sequences only grow *)

Lemma exec_append_only (s : state) (e : event) (s' : state) :
  exec s e = Some s' ->
  (omwebuffer_pointer s <= omwebuffer_pointer s')%Z
  /\ (omwetime_buffer_pointer s <= omwetime_buffer_pointer s')%Z
  /\ (forall i, (0 <= i < omwebuffer_pointer s)%Z ->
        aread (omwegraph_absicissa_buffer s') i
        = aread (omwegraph_absicissa_buffer s) i
        /\ aread (omwegraph_ordinate_buffer s') i
           = aread (omwegraph_ordinate_buffer s) i)
  /\ (forall i, (0 <= i < omwetime_buffer_pointer s)%Z ->
        aread (omwe_buffer_time s') i = aread (omwe_buffer_time s) i).
Proof.
  intros E. destruct e as [x| |v]; cbn [exec] in E.
  - destruct (measure_pressure s x) as [[s1 d]|] eqn:M; [|discriminate].
    injection E as <-.
    apply measure_pressure_envelope in M. cbv zeta in M.
    destruct M as [(-> & -> & -> & -> & ->)
                  |(_ & Wa & Wo & -> & T)].
    + repeat split; auto; lia.
    + assert (Q : (omwetime_buffer_pointer s
                   <= omwetime_buffer_pointer s1)%Z
                  /\ forall i, (0 <= i < omwetime_buffer_pointer s)%Z ->
                       aread (omwe_buffer_time s1) i
                       = aread (omwe_buffer_time s) i).
      { destruct T as [(-> & -> & _)|[(W & -> & _)|(W & -> & _)]].
        - split; [lia|auto].
        - split; [lia|]. intros i Hi.
          apply (aread_awrite_neq _ _ _ _ _ W); lia.
        - split; [lia|]. intros i Hi.
          apply (aread_awrite_neq _ _ _ _ _ W); lia. }
      destruct Q as [Q1 Q2]. split; [lia|]. split; [exact Q1|].
      split; [|exact Q2]. intros i Hi.
      rewrite (aread_awrite_neq _ _ _ _ _ Wa),
        (aread_awrite_neq _ _ _ _ _ Wo) by lia. auto.
  - injection E as <-.
    destruct (tick_data s) as (_ & -> & -> & -> & -> & -> & _).
    repeat split; auto; lia.
  - injection E as <-. fields. repeat split; auto; lia.
Qed.

(** X15. The envelope and the peak times are append-only: along any run
    neither pointer decreases, and an entry below a pointer is never
    written again. *)
Theorem recorded_sequences_append_only (evs : list event) :
  forall s s',
    run s evs = Some s' ->
    (0 <= omwebuffer_pointer s)%Z ->
    (0 <= omwetime_buffer_pointer s)%Z ->
    (omwebuffer_pointer s <= omwebuffer_pointer s')%Z
    /\ (omwetime_buffer_pointer s <= omwetime_buffer_pointer s')%Z
    /\ (forall i, (0 <= i < omwebuffer_pointer s)%Z ->
          aread (omwegraph_absicissa_buffer s') i
          = aread (omwegraph_absicissa_buffer s) i
          /\ aread (omwegraph_ordinate_buffer s') i
             = aread (omwegraph_ordinate_buffer s) i)
    /\ (forall i, (0 <= i < omwetime_buffer_pointer s)%Z ->
          aread (omwe_buffer_time s') i = aread (omwe_buffer_time s) i).
Proof.
  induction evs as [|e evs IH]; intros s s' R P Q.
  - injection R as <-. repeat split; auto; lia.
  - cbn [run] in R. destruct (exec s e) as [s1|] eqn:E; [|discriminate].
    destruct (exec_append_only _ _ _ E) as (A1 & A2 & A3 & A4).
    destruct (IH _ _ R) as (B1 & B2 & B3 & B4); [lia|lia|].
    split; [lia|]. split; [lia|]. split.
    + intros i Hi. destruct (B3 i) as [Ba Bo]; [lia|].
      destruct (A3 i Hi) as [Aa Ao]. rewrite Ba, Bo. auto.
    + intros i Hi. rewrite B4 by lia. apply A4. exact Hi.
Qed.

Lemma recorded_sequences_append_only_witness :
  aread (omwe_buffer_time (state_after demo_events)) 0
  = aread (omwe_buffer_time (state_after (firstn 110 demo_events))) 0.
Proof.
  refine (proj2 (proj2 (proj2
            (recorded_sequences_append_only (skipn 110 demo_events)
               (state_after (firstn 110 demo_events))
               (state_after demo_events) _ _ _))) 0%Z _);
    vm_compute; try reflexivity; try discriminate.
  split; [discriminate|reflexivity].
Defined.

(** ** The two amplitude globals *)

Lemma amplitudes_equal_step (s : state) (e : event) (s' : state) :
  pressure_diff s = previous_pressure_diff s ->
  exec s e = Some s' ->
  pressure_diff s' = previous_pressure_diff s'.
Proof.
  intros I E. destruct e as [x| |v]; cbn [exec] in E.
  - destruct (measure_pressure s x) as [[s1 d]|] eqn:M; [|discriminate].
    injection E as <-.
    apply measure_pressure_summary in M. cbv zeta in M.
    destruct M as (_ & _ & _ & _ & _ & _ & _ & _ & _ & _ & _ & -> & ->).
    destruct (gate_open s x); [reflexivity|exact I].
  - injection E as <-.
    destruct (tick_flags s) as (_ & _ & _ & _ & -> & -> & _). exact I.
  - injection E as <-. exact I.
Qed.

(** X16. Between calls the current and the previous amplitude are the same
    value: along every run from the initial state [pressure_diff] equals
    [previous_pressure_diff].  A call that passes the recording flag and
    the sanity bound sets both to its amplitude, any other call leaves
    both alone. *)
Theorem amplitude_globals_agree :
  (forall evs s,
     run initial_state evs = Some s ->
     pressure_diff s = previous_pressure_diff s)
  /\
  (forall s x s' d,
     measure_pressure s x = Some (s', d) ->
     pressure_diff s'
     = (if gate_open s x then amplitude_of s x else pressure_diff s)
     /\ previous_pressure_diff s'
        = (if gate_open s x then amplitude_of s x
           else previous_pressure_diff s)).
Proof.
  split.
  - intros evs s R.
    apply (run_invariant
             (fun s => pressure_diff s = previous_pressure_diff s)
             amplitudes_equal_step evs initial_state s);
      [reflexivity|exact R].
  - intros s x s' d M.
    apply measure_pressure_summary in M. cbv zeta in M.
    destruct M as (_ & _ & _ & _ & _ & _ & _ & _ & _ & _ & _ & Ed & Ep).
    auto.
Qed.

Lemma amplitude_globals_agree_witness :
  pressure_diff (state_after demo_events)
  = previous_pressure_diff (state_after demo_events).
Proof.
  apply (proj1 amplitude_globals_agree demo_events).
  vm_compute. reflexivity.
Defined.

(** ** When the recording ends *)

Lemma flag_first_set (flag : state -> bool) (cond : state -> sample -> bool) :
  (forall s e s', exec s e = Some s' -> flag s = false -> flag s' = true ->
     exists x, e = Sample x /\ cond s x = true) ->
  forall evs s s',
    run s evs = Some s' -> flag s = false -> flag s' = true ->
    exists l1 x l2 s0,
      evs = l1 ++ Sample x :: l2
      /\ run s l1 = Some s0 /\ flag s0 = false /\ cond s0 x = true.
Proof.
  intros Step. induction evs as [|e evs IH]; intros s s' R F T.
  - injection R as <-. congruence.
  - cbn [run] in R. destruct (exec s e) as [s1|] eqn:E; [|discriminate].
    destruct (flag s1) eqn:F1.
    + destruct (Step _ _ _ E F F1) as (x & -> & C).
      exists [], x, evs, s. auto.
    + destruct (IH _ _ R F1 T) as (l1 & x & l2 & s0 & -> & R0 & F0 & C).
      exists (e :: l1), x, l2, s0. split; [reflexivity|].
      cbn [run]. rewrite E. auto.
Qed.

(** X17. The flags are raised by calls only, each on its own condition: if
    the recording has ended at the end of a run from the initial state,
    then some call of the run found a normalized pressure below 5.0 while
    the recording flag was on or the button pressed; if the release
    indicator is on, some call found a normalized pressure above 200.0. *)
Theorem flags_raised_by_calls (evs : list event) (s : state) :
  run initial_state evs = Some s ->
  (end_record s = true ->
   exists l1 x l2 s0,
     evs = l1 ++ Sample x :: l2
     /\ run initial_state l1 = Some s0
     /\ end_record s0 = false
     /\ (dataread_push_button x || active_recordflag s0)
        && dltb (calculate_normalized_pressure (buffer_queue s0)) (Finite 5)
        = true)
  /\
  (max_pressure s = true ->
   exists l1 x l2 s0,
     evs = l1 ++ Sample x :: l2
     /\ run initial_state l1 = Some s0
     /\ max_pressure s0 = false
     /\ dgtb (calculate_normalized_pressure (buffer_queue s0)) (Finite 200)
        = true).
Proof.
  intros R. split; intros T.
  - apply (flag_first_set end_record
             (fun s x =>
                (dataread_push_button x || active_recordflag s)
                && dltb (calculate_normalized_pressure (buffer_queue s))
                     (Finite 5))) with (s' := s); auto.
    intros s1 e s2 E F1 F2. destruct e as [x| |v]; cbn [exec] in E.
    + destruct (measure_pressure s1 x) as [[s3 d]|] eqn:M; [|discriminate].
      injection E as <-.
      apply measure_pressure_summary in M. cbv zeta in M.
      destruct M as (_ & Ea & _ & _ & _ & _ & _ & _ & _ & _ & Ee & _).
      rewrite F1, Ea in Ee. cbn [orb] in Ee. exists x.
      split; [reflexivity|]. congruence.
    + injection E as <-.
      destruct (tick_flags s1) as (_ & _ & Te & _). congruence.
    + injection E as <-. fields in F2. congruence.
  - apply (flag_first_set max_pressure
             (fun s x =>
                dgtb (calculate_normalized_pressure (buffer_queue s))
                     (Finite 200))) with (s' := s); auto.
    intros s1 e s2 E F1 F2. destruct e as [x| |v]; cbn [exec] in E.
    + destruct (measure_pressure s1 x) as [[s3 d]|] eqn:M; [|discriminate].
      injection E as <-.
      apply measure_pressure_summary in M. cbv zeta in M.
      destruct M as (_ & _ & _ & _ & _ & _ & _ & _ & _ & Em & _).
      rewrite F1 in Em. cbn [orb] in Em. exists x.
      split; [reflexivity|]. congruence.
    + injection E as <-.
      destruct (tick_flags s1) as (_ & _ & _ & Tm & _). congruence.
    + injection E as <-. fields in F2. congruence.
Qed.

Lemma flags_raised_by_calls_witness :
  exists l1 x l2 s0,
    demo_deflated = l1 ++ Sample x :: l2
    /\ run initial_state l1 = Some s0
    /\ end_record s0 = false
    /\ (dataread_push_button x || active_recordflag s0)
       && dltb (calculate_normalized_pressure (buffer_queue s0)) (Finite 5)
       = true.
Proof.
  apply (proj1 (flags_raised_by_calls demo_deflated
                  (state_after demo_deflated) ltac:(vm_compute; reflexivity))).
  vm_compute. reflexivity.
Defined.

(** ** The sampling loop of [main] *)

Lemma ticks_overlay (n : nat) (s : state) :
  exists r w, Nat.iter n check_pressure_gradient_ISR s = overlay r w s.
Proof.
  induction n as [|n (r & w & E)].
  - exists (release_rate s), (flux_warning s). symmetry. apply overlay_self.
  - rewrite Nat.iter_succ, E. apply tick_overlay.
Qed.

Lemma main_loop_calls (xs : list (nat * sample)) : forall s s',
  main_loop s xs = Some s' ->
  (iteration s <= iteration s' <= iteration s + Z.of_nat (length xs))%Z
  /\ (end_record s' = false ->
      iteration s' = (iteration s + Z.of_nat (length xs))%Z).
Proof.
  induction xs as [|[ticks x] xs IH]; intros s s' L.
  - injection L as <-. cbn. split; [lia|intros _; lia].
  - cbn [main_loop length] in L |- *.
    destruct (ticks_overlay ticks s) as (r & w & E). rewrite E in L.
    change (end_record (overlay r w s)) with (end_record s) in L.
    destruct (end_record s) eqn:En.
    + injection L as <-. change (iteration (overlay r w s)) with (iteration s).
      change (end_record (overlay r w s)) with (end_record s).
      split; [lia|congruence].
    + destruct (measure_pressure (overlay r w s) x) as [[s1 d]|] eqn:M;
        [|discriminate].
      cbn [fst] in L.
      assert (X : exec (overlay r w s) (Sample x) = Some s1)
        by (cbn [exec]; rewrite M; reflexivity).
      apply exec_iteration in X. cbn [samples_taken] in X.
      change (iteration (overlay r w s)) with (iteration s) in X.
      destruct (IH _ _ L) as [B F]. split; [lia|].
      intros H. rewrite (F H). lia.
Qed.

Lemma main_loop_ended (xs : list (nat * sample)) : forall s s',
  main_loop s xs = Some s' -> end_record s' = true ->
  forall ys, exists r w, main_loop s (xs ++ ys) = Some (overlay r w s').
Proof.
  induction xs as [|[ticks x] xs IH]; intros s s' L T ys.
  - injection L as <-. destruct ys as [|[ticks y] ys]; cbn [app main_loop].
    + exists (release_rate s), (flux_warning s). rewrite overlay_self.
      reflexivity.
    + destruct (ticks_overlay ticks s) as (r & w & E). rewrite E.
      change (end_record (overlay r w s)) with (end_record s). rewrite T.
      exists r, w. reflexivity.
  - cbn [app main_loop] in L |- *.
    destruct (end_record (Nat.iter ticks check_pressure_gradient_ISR s)).
    + injection L as <-.
      exists (release_rate (Nat.iter ticks check_pressure_gradient_ISR s)),
        (flux_warning (Nat.iter ticks check_pressure_gradient_ISR s)).
      rewrite overlay_self. reflexivity.
    + destruct (measure_pressure _ x) as [[s1 d]|]; [|discriminate].
      cbn [fst] in L |- *. exact (IH _ _ L T ys).
Qed.

(** X18. The sampling loop of [main] calls [measure_pressure] once per
    sample until the recording has ended: if it returns with [end_record]
    still off, every sample at hand was taken; once [end_record] is on no
    further sample is taken, so whatever samples follow the loop returns
    the same state up to the two globals of the gradient monitor. *)
Theorem main_loop_stops_when_recording_ends
    (xs : list (nat * sample)) (s s' : state) :
  main_loop s xs = Some s' ->
  (iteration s <= iteration s' <= iteration s + Z.of_nat (length xs))%Z
  /\ (end_record s' = false ->
      iteration s' = (iteration s + Z.of_nat (length xs))%Z)
  /\ (end_record s' = true ->
      forall ys, exists r w,
        main_loop s (xs ++ ys) = Some (overlay r w s')).
Proof.
  intros L. destruct (main_loop_calls xs s s' L) as [B F].
  split; [exact B|]. split; [exact F|].
  intros T. exact (main_loop_ended xs s s' L T).
Qed.

(** In the test session the sixth sample of the deflation ends the
    recording; the seventh is not taken. *)
Lemma main_loop_stops_when_recording_ends_witness :
  end_record (state_after (removelast demo_deflated)) = true
  /\ (iteration (state_after demo_caliberation)
      <= iteration (state_after (removelast demo_deflated))
      <= iteration (state_after demo_caliberation)
         + Z.of_nat (length (demo_samples ++ demo_deflation)))%Z
  /\ iteration (state_after (removelast demo_deflated)) = 117%Z.
Proof.
  split; [vm_compute; reflexivity|]. split.
  - apply (main_loop_stops_when_recording_ends
             (demo_samples ++ demo_deflation)
             (state_after demo_caliberation)
             (state_after (removelast demo_deflated))).
    vm_compute. reflexivity.
  - vm_compute. reflexivity.
Defined.
